(** * Host availability and metrics reconciliation (server/zabbix-api.ts)

    A shallow embedding of the Zabbix integration routes: the JSON-RPC
    helper [zabbixApiRequest], the prober [pingHost], the value helpers
    [parseItemValue] and [formatUptime], the bodies of the
    [/api/zabbix/hosts], [/api/zabbix/metrics] and [/api/zabbix/problems]
    handlers with the reading of the stored settings that precedes them,
    the [/api/zabbix/test-connection] handler, and the two functions of
    the monitoring page that work on the hosts route's reply, followed by
    the properties established about them. *)

From Stdlib Require Import ZArith QArith Qabs Strings.String Strings.Ascii.
From Stdlib Require Import Numbers.DecimalString Lia Bool.
From Stdlib Require Import Qround.
From stdpp Require Import gmap strings list.

Open Scope string_scope.
Open Scope list_scope.
Open Scope Z_scope.

(* ===================================================================== *)
(** * JavaScript values used by the routes *)
(* ===================================================================== *)

Module JS.

(** ** Numbers

    A JavaScript number is an IEEE-754 binary64 value.  A finite one is
    kept as the rational it denotes, in lowest terms; the two zeros are
    not told apart (no operation of the routes distinguishes them). *)

Inductive jsnum : Type :=
| NaN
| PosInf
| NegInf
| Fin (q : Q).

Definition of_Z (z : Z) : jsnum := Fin (inject_Z z).

(** [floor_log2_Q n d] is the integer [k] with [2^k <= n/d < 2^(k+1)],
    for positive [n] and [d]. *)
Definition floor_log2_Q (n d : Z) : Z :=
  let l := Z.log2 n - Z.log2 d in
  if 0 <=? l
  then (if d * 2 ^ l <=? n then l else l - 1)
  else (if d <=? n * 2 ^ (- l) then l else l - 1).

(** Nearest integer to [N/D], ties to even ([D > 0]). *)
Definition round_half_even (N D : Z) : Z :=
  let q := N / D in
  let r := N mod D in
  match 2 * r ?= D with
  | Lt => q
  | Gt => q + 1
  | Eq => if Z.even q then q else q + 1
  end.

(** Round the positive rational [n/d] to binary64, round-to-nearest-even:
    53 bits of significand, least exponent [-1074] (subnormals), overflow
    to infinity from [2^1024].  [None] stands for infinity. *)
Definition round_binary64 (n d : Z) : option Q :=
  let k := floor_log2_Q n d in
  let e := Z.max (k - 52) (-1074) in
  if 0 <=? e then
    let v := round_half_even n (d * 2 ^ e) * 2 ^ e in
    if 2 ^ 1024 <=? v then None else Some (inject_Z v)
  else
    let m := round_half_even (n * 2 ^ (- e)) d in
    Some (Qred (m # Z.to_pos (2 ^ (- e)))).

(** The number denoted by sign, decimal mantissa and decimal exponent,
    as the engine's string-to-number conversion delivers it. *)
Definition of_decimal (neg : bool) (mant exp10 : Z) : jsnum :=
  if mant =? 0 then Fin 0
  else
    let r := if 0 <=? exp10
             then round_binary64 (mant * 10 ^ exp10) 1
             else round_binary64 mant (10 ^ (- exp10)) in
    match r with
    | None => if neg then NegInf else PosInf
    | Some q => Fin (if neg then Qred (Qopp q) else q)
    end.

(** Round an exact rational (the result of an arithmetic operation). *)
Definition of_Q (q : Q) : jsnum :=
  match Qnum q with
  | Z0 => Fin 0
  | Zpos n =>
      match round_binary64 (Zpos n) (Zpos (Qden q)) with
      | None => PosInf | Some r => Fin r end
  | Zneg n =>
      match round_binary64 (Zpos n) (Zpos (Qden q)) with
      | None => NegInf | Some r => Fin (Qred (Qopp r)) end
  end.

Definition isNaN (x : jsnum) : bool :=
  match x with NaN => true | _ => false end.

(** [a < b] *)
Definition lt (a b : jsnum) : bool :=
  match a, b with
  | NaN, _ | _, NaN => false
  | PosInf, _ => false
  | _, NegInf => false
  | NegInf, _ => true
  | _, PosInf => true
  | Fin x, Fin y => negb (Qle_bool y x)
  end.

(** [a > b] *)
Definition gt (a b : jsnum) : bool := lt b a.

(** [a === b] on numbers *)
Definition seq (a b : jsnum) : bool :=
  match a, b with
  | PosInf, PosInf | NegInf, NegInf => true
  | Fin x, Fin y => Qeq_bool x y
  | _, _ => false
  end.

(** [a - b] *)
Definition sub (a b : jsnum) : jsnum :=
  match a, b with
  | NaN, _ | _, NaN => NaN
  | PosInf, PosInf | NegInf, NegInf => NaN
  | PosInf, _ | _, NegInf => PosInf
  | NegInf, _ | _, PosInf => NegInf
  | Fin x, Fin y => of_Q (Qred (x - y))
  end.

(** [a * b] *)
Definition mul (a b : jsnum) : jsnum :=
  let sign (x : jsnum) : option bool :=      (* [Some true]: negative *)
    match x with
    | NaN => None
    | PosInf => Some false
    | NegInf => Some true
    | Fin q => match Qnum q with Z0 => None | Zpos _ => Some false | Zneg _ => Some true end
    end in
  match a, b with
  | Fin x, Fin y => of_Q (Qred (x * y))
  | _, _ =>
      match sign a, sign b with
      | Some s, Some t => if xorb s t then NegInf else PosInf
      | _, _ => NaN
      end
  end.

(** ** Strings

    A string is a sequence of code units; the model covers code units
    below 256 (Latin-1), on which the operations below agree with the
    engine's. *)

Definition code (c : ascii) : Z := Z.of_nat (nat_of_ascii c).

(** White space and line terminators: TAB, LF, VT, FF, CR, SP, NBSP. *)
Definition isWhiteSpace (c : ascii) : bool :=
  let n := code c in
  ((9 <=? n) && (n <=? 13)) || (n =? 32) || (n =? 160).

Definition isDigit (c : ascii) : bool :=
  let n := code c in (48 <=? n) && (n <=? 57).

Definition digitVal (c : ascii) : Z := code c - 48.

(** Value of a hexadecimal digit, if it is one. *)
Definition hexVal (c : ascii) : option Z :=
  let n := code c in
  if (48 <=? n) && (n <=? 57) then Some (n - 48)
  else if (97 <=? n) && (n <=? 102) then Some (n - 87)
  else if (65 <=? n) && (n <=? 70) then Some (n - 55)
  else None.

Definition lowerChar (c : ascii) : ascii :=
  let n := code c in
  if ((65 <=? n) && (n <=? 90))
     || ((192 <=? n) && (n <=? 222) && negb (n =? 215))
  then ascii_of_nat (Z.to_nat (n + 32))
  else c.

(** [s.toLowerCase()] *)
Fixpoint toLowerCase (s : string) : string :=
  match s with
  | EmptyString => EmptyString
  | String c t => String (lowerChar c) (toLowerCase t)
  end.

(** [s.startsWith(p)] *)
Fixpoint startsWith (s p : string) : bool :=
  match p, s with
  | EmptyString, _ => true
  | String _ _, EmptyString => false
  | String a p', String b s' => Ascii.eqb a b && startsWith s' p'
  end.

(** [s.includes(p)] *)
Fixpoint includes (s p : string) : bool :=
  startsWith s p ||
  match s with
  | EmptyString => false
  | String _ t => includes t p
  end.

Fixpoint trimStart (s : string) : string :=
  match s with
  | EmptyString => EmptyString
  | String c t => if isWhiteSpace c then trimStart t else s
  end.

Fixpoint trimEnd (s : string) : string :=
  match s with
  | EmptyString => EmptyString
  | String c t =>
      match trimEnd t with
      | EmptyString => if isWhiteSpace c then EmptyString else String c EmptyString
      | t' => String c t'
      end
  end.

(** [s.trim()] *)
Definition trim (s : string) : string := trimEnd (trimStart s).

(** [a === b] on strings *)
Definition streq (a b : string) : bool := String.eqb a b.

(** ** String-to-number conversions *)

(** Longest run of decimal digits at the head of [s], accumulated onto
    [acc]; returns the value, the number of digits read and the rest. *)
Fixpoint scanDigits (s : string) (acc n : Z) : Z * Z * string :=
  match s with
  | String c t =>
      if isDigit c then scanDigits t (10 * acc + digitVal c) (n + 1)
      else (acc, n, s)
  | EmptyString => (acc, n, s)
  end.

Fixpoint scanHexDigits (s : string) (acc n : Z) : Z * Z :=
  match s with
  | String c t =>
      match hexVal c with
      | Some d => scanHexDigits t (16 * acc + d) (n + 1)
      | None => (acc, n)
      end
  | EmptyString => (acc, n)
  end.

(** An optional leading sign. *)
Definition scanSign (s : string) : bool * string :=
  match s with
  | String "-"%char t => (true, t)
  | String "+"%char t => (false, t)
  | _ => (false, s)
  end.

(** The exponent part [e+ddd] or [e-ddd] at the head of [s]; it counts only when at
    least one digit follows. *)
Definition scanExponent (s : string) : Z :=
  match s with
  | String c t =>
      if Ascii.eqb c "e"%char || Ascii.eqb c "E"%char then
        let '(eneg, t') := scanSign t in
        let '(ev, ne, _) := scanDigits t' 0 0 in
        if ne =? 0 then 0 else if eneg then - ev else ev
      else 0
  | EmptyString => 0
  end.

(** [parseFloat(s)]: leading white space is skipped, then the longest
    prefix that is a decimal literal is converted; [NaN] when there is
    none. *)
Definition parseFloat (input : string) : jsnum :=
  let '(neg, s1) := scanSign (trimStart input) in
  if startsWith s1 "Infinity" then (if neg then NegInf else PosInf)
  else
    let '(ip, ni, s2) := scanDigits s1 0 0 in
    let '(m, nf, s3) :=
      match s2 with
      | String "."%char t => scanDigits t ip 0
      | _ => (ip, 0, s2)
      end in
    if (ni =? 0) && (nf =? 0) then NaN
    else of_decimal neg m (scanExponent s3 - nf).

(** [parseInt(s)] with no radix argument: decimal, or hexadecimal after a
    [0x]/[0X] prefix; the integer read is rounded to the nearest
    number. *)
Definition parseInt (input : string) : jsnum :=
  let '(neg, s1) := scanSign (trimStart input) in
  if startsWith s1 "0x" || startsWith s1 "0X" then
    match s1 with
    | String _ (String _ t) =>
        let '(v, n) := scanHexDigits t 0 0 in
        if n =? 0 then NaN else of_decimal neg v 0
    | _ => NaN
    end
  else
    let '(v, n, _) := scanDigits s1 0 0 in
    if n =? 0 then NaN else of_decimal neg v 0.

(** ** Loosely typed JSON fields

    The monitoring server's replies are untyped ([any]).  A scalar field
    is absent, [null], a string, or an integral number (the server itself
    sends every scalar as a string; the handlers also accept numbers). *)

Inductive jsval : Type :=
| JUndefined
| JNull
| JStr (s : string)
| JNum (n : Z).

(** Truthiness, as used by [||], [&&], [?:] and [if]. *)
Definition truthy (v : jsval) : bool :=
  match v with
  | JUndefined | JNull => false
  | JStr s => negb (streq s "")
  | JNum n => negb (n =? 0)
  end.

(** [v || d] *)
Definition or_else (v d : jsval) : jsval := if truthy v then v else d.

(** [a === b] *)
Definition strict_eq (a b : jsval) : bool :=
  match a, b with
  | JUndefined, JUndefined | JNull, JNull => true
  | JStr x, JStr y => streq x y
  | JNum x, JNum y => x =? y
  | _, _ => false
  end.

(** [String(v)]; an integral number prints in plain decimal (magnitudes
    below [10^21]). *)
Definition ToString (v : jsval) : string :=
  match v with
  | JUndefined => "undefined"
  | JNull => "null"
  | JStr s => s
  | JNum n => NilZero.string_of_int (Z.to_int n)
  end.

(** [s || ''] for a field that is a string when present. *)
Definition str_or_empty (s : option string) : string :=
  match s with Some x => x | None => "" end.

End JS.

(* ===================================================================== *)
(** * Effects: exceptions and the record of outbound calls *)
(* ===================================================================== *)

Module Eff.

(** What a handler can throw or a promise can reject with. *)
Inductive exn : Type :=
| Error (message : string)     (* [new Error(message)] *)
| TypeError (message : string) (* a property read on [undefined] or [null] *)
| RangeError (message : string) (* [toISOString] on an invalid date *)
| Rejected (reason : string).  (* a rejection raised by the platform *)

Inductive result (A : Type) : Type :=
| Ok (a : A)
| Throw (e : exn).
Arguments Ok {A} a.
Arguments Throw {A} e.

(** How a promise of the platform ([fetch], [response.json()],
    [execAsync]) settles. *)
Inductive outcome (A : Type) : Type :=
| Resolved (a : A)
| Rejects (reason : string).
Arguments Resolved {A} a.
Arguments Rejects {A} reason.

Definition settle {A} (o : outcome A) : result A :=
  match o with
  | Resolved a => Ok a
  | Rejects reason => Throw (Rejected reason)
  end.

(** Outbound JSON-RPC requests.  The parameters are those the routes
    build; the constant [output]/[select*]/[sort*] lists are left out. *)
Inductive RpcParams : Type :=
| HostGetAll
| HostGetById (hostid : string)
| ItemGetByHost (hostid : string) (monitored : bool)
| ProblemGetRecent
| TriggerGetByIds (triggerids : list string).

Record RpcRequest : Type := {
  req_url : string;
  req_authorization : string;
  req_method : string;
  req_params : RpcParams
}.

(** Everything a handler does to the outside, in order. *)
Inductive event : Type :=
| EvFetch (r : RpcRequest)
| EvExec (command : string).

(** A computation that may throw and that appends to the record of
    outbound calls. *)
Definition M (A : Type) : Type := list event -> result A * list event.

Definition ret {A} (a : A) : M A := fun tr => (Ok a, tr).

Definition throw {A} (e : exn) : M A := fun tr => (Throw e, tr).

Definition bind {A B} (c : M A) (k : A -> M B) : M B :=
  fun tr =>
    match c tr with
    | (Ok a, tr') => k a tr'
    | (Throw e, tr') => (Throw e, tr')
    end.

(** [try { c } catch (err) { h err }] *)
Definition try_catch {A} (c : M A) (h : exn -> M A) : M A :=
  fun tr =>
    match c tr with
    | (Ok a, tr') => (Ok a, tr')
    | (Throw e, tr') => h e tr'
    end.

(** Perform an outbound call whose outcome the environment decides. *)
Definition perform {A} (ev : event) (o : outcome A) : M A :=
  fun tr => (settle o, tr ++ [ev]).

(** [await p] for a promise whose settlement the environment decides and
    that is not itself an outbound call. *)
Definition await {A} (o : outcome A) : M A := fun tr => (settle o, tr).

(** Run from an empty record. *)
Definition run {A} (c : M A) : result A * list event := c [].

End Eff.

Import Eff.

Declare Scope eff_scope.
Delimit Scope eff_scope with eff.
Notation "'do' x <- c ;; k" := (Eff.bind c (fun x => k))
  (at level 10, x name, c at level 99, k at level 200) : eff_scope.
Open Scope eff_scope.

(** [await Promise.all(xs.map(async x => f x))], the callbacks taken in
    list order (they share no state, so every interleaving yields the
    same values).  Every callback runs; when one rejects, the [await]
    rejects with the rejection of the first that did. *)
Fixpoint promise_all_map {A B} (f : A -> Eff.M B) (xs : list A) : Eff.M (list B) :=
  fun tr =>
    match xs with
    | [] => (Ok [], tr)
    | x :: rest =>
        let '(r, tr1) := f x tr in
        let '(rs, tr2) := promise_all_map f rest tr1 in
        (match r, rs with
         | Ok y, Ok ys => Ok (y :: ys)
         | Throw e, _ => Throw e
         | Ok _, Throw e => Throw e
         end, tr2)
    end.

(* ===================================================================== *)
(** * The JSON-RPC helper *)
(* ===================================================================== *)

Module Rpc.

Record ZabbixSettings : Type := {
  zabbixUrl : string;
  zabbixApiToken : string;
  refreshInterval : Z
}.

(** The [error] member of a reply envelope. *)
Record RpcError : Type := {
  err_data : JS.jsval;
  err_message : JS.jsval
}.

(** The decoded reply body: [data.error] (absent or [null] is [None])
    and [data.result]. *)
Record Envelope (R : Type) : Type := {
  env_error : option RpcError;
  env_result : R
}.
Arguments env_error {R} _.
Arguments env_result {R} _.

(** What [fetch] resolves with: the status line and the outcome of
    [response.json()]. *)
Record Response (R : Type) : Type := {
  resp_status : Z;
  resp_statusText : string;
  resp_json : outcome (Envelope R)
}.
Arguments resp_status {R} _.
Arguments resp_statusText {R} _.
Arguments resp_json {R} _.

(** [response.ok] *)
Definition ok {R} (r : Response R) : bool :=
  (200 <=? resp_status r) && (resp_status r <=? 299).

(** The network as seen through [fetch], for replies carrying [R]. *)
Definition Fetch (R : Type) : Type := RpcRequest -> outcome (Response R).

(** The request [fetch] is called with. *)
Definition requestOf (settings : ZabbixSettings) (method : string) (params : RpcParams)
    : RpcRequest :=
  {| req_url := zabbixUrl settings +:+ "/api_jsonrpc.php";
     req_authorization := "Bearer " +:+ zabbixApiToken settings;
     req_method := method;
     req_params := params |}.

Definition zabbixApiRequest {R} (fetch : Fetch R)
    (settings : ZabbixSettings) (method : string) (params : RpcParams) : Eff.M R :=
  let request := requestOf settings method params in
  do response <- perform (EvFetch request) (fetch request) ;;
  if negb (ok response) then
    throw (Error ("Zabbix API request failed: " +:+ resp_statusText response))
  else
    do data <- await (resp_json response) ;;
    match env_error data with
    | Some e =>
        throw (Error ("Zabbix API error: " +:+
                      JS.ToString (JS.or_else (err_data e) (err_message e))))
    | None => ret (env_result data)
    end.

(** The two failures the helper raises itself, told apart by the text
    the message starts with. *)
Definition isTransportError (e : exn) : Prop :=
  exists statusText, e = Error ("Zabbix API request failed: " +:+ statusText).

Definition isProtocolError (e : exn) : Prop :=
  exists detail, e = Error ("Zabbix API error: " +:+ detail).

End Rpc.

(* ===================================================================== *)
(** * The network prober *)
(* ===================================================================== *)

Module Probe.

(** The operating system as seen through [execAsync]: the command either
    resolves with its standard output or rejects (the command cannot be
    started, or it exits with a non-zero status). *)
Record Os : Type := {
  win32 : bool;
  exec : string -> outcome string
}.

Definition pingCommand (isWindows : bool) (ipAddress : string) : string :=
  if isWindows
  then "ping -n 1 -w 1000 " +:+ ipAddress
  else "ping -c 1 -W 1 " +:+ ipAddress.

Definition pingHost (os : Os) (ipAddress : string) : Eff.M bool :=
  try_catch
    (let isWindows := win32 os in
     let pingCommand := pingCommand isWindows ipAddress in
     do stdout <- perform (EvExec pingCommand) (exec os pingCommand) ;;
     if isWindows
     then ret (JS.includes stdout "Reply from" || JS.includes stdout "bytes=")
     else ret (JS.includes stdout "1 received" || JS.includes stdout "1 packets received"))
    (fun _ => ret false).

End Probe.

(* ===================================================================== *)
(** * Data delivered by the monitoring server *)
(* ===================================================================== *)

Record Interface : Type := {
  ip : option string;
  available : JS.jsval
}.

Record Host : Type := {
  hostid : string;
  host_name : string;
  host_status : JS.jsval;
  interfaces : option (list Interface)
}.

(** A telemetry item.  [key_] and [name] are strings when present. *)
Record Item : Type := {
  itemid : string;
  key_ : option string;
  name : option string;
  lastvalue : JS.jsval;
  lastclock : JS.jsval;
  status : JS.jsval
}.

(** [host.interfaces?.[0]?.ip] *)
Definition firstInterfaceIp (host : Host) : option string :=
  match interfaces host with
  | Some (iface :: _) => ip iface
  | _ => None
  end.

(** [v !== undefined && v !== null && v !== ''] *)
Definition hasValue (v : JS.jsval) : bool :=
  negb (JS.strict_eq v JS.JUndefined)
  && negb (JS.strict_eq v JS.JNull)
  && negb (JS.strict_eq v (JS.JStr "")).

(** The value coercion shared by the ICMP and agent branches of both
    routes; [pos] and [neg] are the two labels of the branch
    (["responding"]/["no response"] or ["available"]/["unavailable"]). *)
Definition coerceStatus (pos neg : string) (lastvalue : JS.jsval) : string :=
  let strValue := JS.trim (JS.ToString lastvalue) in
  let numValue := JS.parseFloat strValue in
  if negb (JS.isNaN numValue) then
    (if JS.gt numValue (JS.of_Z 0) then pos else neg)
  else if JS.streq strValue "1" || JS.streq (JS.toLowerCase strValue) "up" then pos
  else if JS.streq strValue "0" || JS.streq (JS.toLowerCase strValue) "down" then neg
  else "unknown".

(** [parseInt(v || '0')] *)
Definition parseIntOrZero (v : JS.jsval) : JS.jsnum :=
  JS.parseInt (JS.ToString (JS.or_else v (JS.JStr "0"))).

(* ===================================================================== *)
(** * [GET /api/zabbix/hosts] *)
(* ===================================================================== *)

Module HostsRoute.

(** [i.status === '0' || i.status === 0] *)
Definition isEnabled (i : Item) : bool :=
  JS.strict_eq (status i) (JS.JStr "0") || JS.strict_eq (status i) (JS.JNum 0).

(** The predicate given to [items.find] for the ICMP item. *)
Definition icmpPredicate (i : Item) : bool :=
  let key := JS.toLowerCase (JS.str_or_empty (key_ i)) in
  let name := JS.toLowerCase (JS.str_or_empty (name i)) in
  isEnabled i && (
    JS.streq key "icmpping" ||
    JS.streq key "icmpping[]" ||
    JS.startsWith key "icmpping[" ||
    JS.includes key "icmp" ||
    JS.includes name "icmp ping" ||
    JS.includes name "ping response" ||
    JS.includes name "icmp response").

(** The predicate given to [items.find] for the agent item. *)
Definition agentPredicate (i : Item) : bool :=
  let key := JS.toLowerCase (JS.str_or_empty (key_ i)) in
  let name := JS.toLowerCase (JS.str_or_empty (name i)) in
  isEnabled i && (
    JS.streq key "agent.ping" ||
    JS.streq key "agent.ping[]" ||
    JS.startsWith key "agent.ping[" ||
    JS.includes key "agent.ping" ||
    JS.includes name "agent ping" ||
    JS.includes name "zabbix agent ping" ||
    JS.includes name "agent availability").

Definition icmpItem (items : list Item) : option Item := List.find icmpPredicate items.

Definition agentItem (items : list Item) : option Item := List.find agentPredicate items.

(** [currentTime - lastUpdate], with [currentTime] the clock reading in
    whole seconds, [Math.floor(Date.now() / 1000)], an integer the
    platform delivers exactly. *)
Definition ageSeconds (currentTime : Z) (it : Item) : JS.jsnum :=
  let lastUpdate := parseIntOrZero (lastclock it) in
  JS.sub (JS.of_Z currentTime) lastUpdate.

Definition isRecent (currentTime : Z) (it : Item) : bool :=
  JS.lt (ageSeconds currentTime it) (JS.of_Z 600).

(** The status of one remote signal from the item found for it. *)
Definition itemStatus (pos neg : string) (currentTime : Z) (found : option Item) : string :=
  match found with
  | Some it =>
      if hasValue (lastvalue it) then coerceStatus pos neg (lastvalue it)
      else if isRecent currentTime it then "no data" else "stale data"
  | None => "not configured"
  end.

(** Whether [new Date(t)] is a valid date: the time value [t], in
    milliseconds, is finite and at most [8.64e15] in magnitude. *)
Definition validTimeValue (t : JS.jsnum) : bool :=
  match t with
  | JS.Fin q => Qle_bool (Qabs q) (inject_Z 8640000000000000)
  | _ => false
  end.

(** Whether the log entry of a found item can be built: it holds
    [new Date(parseInt(item.lastclock) * 1000).toISOString()], and
    [toISOString] throws on an invalid date. *)
Definition loggable (found : option Item) : bool :=
  match found with
  | Some it =>
      validTimeValue
        (JS.mul (JS.parseInt (JS.ToString (lastclock it))) (JS.of_Z 1000))
  | None => true
  end.

(** The [console.log] of the item found, written before its status is
    worked out. *)
Definition logFound (found : option Item) : Eff.M unit :=
  if loggable found then ret tt
  else throw (RangeError "Invalid time value").

Definition icmpStatus (currentTime : Z) (items : list Item) : string :=
  itemStatus "responding" "no response" currentTime (icmpItem items).

Definition agentStatus (currentTime : Z) (items : list Item) : string :=
  itemStatus "available" "unavailable" currentTime (agentItem items).

(** One step of the interface loop on the pair
    [(hasAvailableInterface, hasUnavailableInterface)]. *)
Definition interfaceStep (flags : bool * bool) (iface : Interface) : bool * bool :=
  let val := parseIntOrZero (available iface) in
  if JS.seq val (JS.of_Z 1) then (true, snd flags)
  else if JS.seq val (JS.of_Z 2) then (fst flags, true)
  else flags.

(** The interface loop; it runs when [host.interfaces] is an array. *)
Definition scanInterfaces (ifaces : option (list Interface)) : bool * bool :=
  match ifaces with
  | Some l => fold_left interfaceStep l (false, false)
  | None => (false, false)
  end.

(** The score, accumulated in the order of the source. *)
Definition availabilityScore (directPingStatus icmpStatus agentStatus : string)
    (hasAvailableInterface hasUnavailableInterface : bool) : Z :=
  let availabilityScore := 0 in
  let availabilityScore :=
    if JS.streq directPingStatus "responding" then availabilityScore + 3
    else if JS.streq directPingStatus "no response" then availabilityScore - 3
    else availabilityScore in
  let availabilityScore :=
    if JS.streq icmpStatus "responding" then availabilityScore + 2
    else if JS.streq icmpStatus "no response" then availabilityScore - 2
    else availabilityScore in
  let availabilityScore :=
    if JS.streq agentStatus "available" then availabilityScore + 2
    else if JS.streq agentStatus "unavailable" then availabilityScore - 2
    else availabilityScore in
  let availabilityScore :=
    if hasAvailableInterface then availabilityScore + 1
    else if hasUnavailableInterface then availabilityScore - 1
    else availabilityScore in
  availabilityScore.

Definition statusOfScore (availabilityScore : Z) : string :=
  if 0 <? availabilityScore then "available"
  else if availabilityScore <? 0 then "unavailable"
  else "unknown".

(** What the route adds to a host. *)
Record Enriched : Type := {
  e_host : Host;
  availabilityStatus : string;
  e_icmpStatus : string;
  e_agentStatus : string;
  directPingStatus : string
}.

(** What the handler reads from outside for one request. *)
Record World : Type := {
  os : Probe.Os;
  clock : Z;                        (* [Math.floor(Date.now() / 1000)] *)
  item_get : Rpc.Fetch (list Item);
  host_get : Rpc.Fetch (list Host)
}.

(** The direct probe of one host. *)
Definition directPing (w : World) (host : Host) : Eff.M string :=
  match firstInterfaceIp host with
  | Some ipAddress =>
      if negb (JS.streq ipAddress "") && negb (JS.streq ipAddress "N/A") then
        try_catch
          (do pingResult <- Probe.pingHost (os w) ipAddress ;;
           ret (if pingResult : bool then "responding" else "no response"))
          (fun _ => ret "error")
      else ret "no ip"
  | None => ret "no ip"
  end.

(** The callback mapped over the hosts. *)
Definition enrichHost (w : World) (settings : Rpc.ZabbixSettings) (host : Host)
    : Eff.M Enriched :=
  do directPingStatus <- directPing w host ;;
  let '(hasAvailableInterface, hasUnavailableInterface) :=
    scanInterfaces (interfaces host) in
  do items <- try_catch
       (Rpc.zabbixApiRequest (item_get w) settings "item.get"
          (ItemGetByHost (hostid host) false))
       (fun _ => ret []) ;;
  do _ <- logFound (icmpItem items) ;;
  let icmpStatus := icmpStatus (clock w) items in
  do _ <- logFound (agentItem items) ;;
  let agentStatus := agentStatus (clock w) items in
  let availabilityStatus :=
    statusOfScore (availabilityScore directPingStatus icmpStatus agentStatus
                     hasAvailableInterface hasUnavailableInterface) in
  ret {| e_host := host;
         availabilityStatus := availabilityStatus;
         e_icmpStatus := icmpStatus;
         e_agentStatus := agentStatus;
         directPingStatus := directPingStatus |}.

(** The items the callback works on for [host]: those the server
    returns, or none when the request fails. *)
Definition itemsOf (w : World) (settings : Rpc.ZabbixSettings) (host : Host) : list Item :=
  match fst (Rpc.zabbixApiRequest (item_get w) settings "item.get"
               (ItemGetByHost (hostid host) false) []) with
  | Ok items => items
  | Throw _ => []
  end.

(** Whether the log entries of the two items found for [host] can be
    built. *)
Definition hostLoggable (w : World) (settings : Rpc.ZabbixSettings) (host : Host) : bool :=
  loggable (icmpItem (itemsOf w settings host))
  && loggable (agentItem (itemsOf w settings host)).

(** The reply of the handler. *)
Inductive Reply : Type :=
| Json200 (enriched : list Enriched)
| Status500.

(** The handler, once the settings have been read. *)
Definition handler (w : World) (settings : Rpc.ZabbixSettings) : Eff.M Reply :=
  try_catch
    (do hosts <- Rpc.zabbixApiRequest (host_get w) settings "host.get" HostGetAll ;;
     do enriched <- promise_all_map (enrichHost w settings) hosts ;;
     ret (Json200 enriched))
    (fun _ => ret Status500).

End HostsRoute.

(* ===================================================================== *)
(** * [POST /api/zabbix/metrics] *)
(* ===================================================================== *)

(** Parse item value safely. *)
Definition parseItemValue (value : JS.jsval) : JS.jsnum :=
  if JS.strict_eq value JS.JNull
     || JS.strict_eq value JS.JUndefined
     || JS.strict_eq value (JS.JStr "")
  then JS.of_Z 0
  else
    let parsed := JS.parseFloat (JS.ToString value) in
    if JS.isNaN parsed then JS.of_Z 0 else parsed.

Module MetricsRoute.

(** [item.key_.includes(fragment)]: reading [includes] off an absent key
    throws. *)
Definition keyIncludes (item : Item) (fragment : string) : Eff.M bool :=
  match key_ item with
  | Some k => ret (JS.includes k fragment)
  | None => throw (TypeError "Cannot read properties of undefined (reading 'includes')")
  end.

(** [item.name.toLowerCase().includes(fragment)] *)
Definition nameLowerIncludes (item : Item) (fragment : string) : Eff.M bool :=
  match name item with
  | Some n => ret (JS.includes (JS.toLowerCase n) fragment)
  | None => throw (TypeError "Cannot read properties of undefined (reading 'toLowerCase')")
  end.

(** [a || b] on computations yielding booleans: [b] runs only when [a]
    yields [false]. *)
Definition orM (a b : Eff.M bool) : Eff.M bool :=
  do x <- a ;; if x : bool then ret true else b.

(** [items.find(p)] for a predicate that may throw. *)
Fixpoint findM (p : Item -> Eff.M bool) (items : list Item) : Eff.M (option Item) :=
  match items with
  | [] => ret None
  | item :: rest =>
      do hit <- p item ;;
      if hit : bool then ret (Some item) else findM p rest
  end.

(** A predicate that, on [it], yields a boolean without throwing and
    without calling out. *)
Definition quiet (p : Item -> Eff.M bool) (it : Item) : Prop :=
  forall tr, exists b, p it tr = (Ok b, tr).

Definition cpuItem (allItems : list Item) : Eff.M (option Item) :=
  findM (fun item => orM (keyIncludes item "cpu.util")
                    (orM (keyIncludes item "system.cpu")
                         (nameLowerIncludes item "cpu"))) allItems.

Definition memItem (allItems : list Item) : Eff.M (option Item) :=
  findM (fun item => orM (keyIncludes item "memory.util")
                    (orM (keyIncludes item "vm.memory")
                         (nameLowerIncludes item "memory utilization"))) allItems.

Definition diskItem (allItems : list Item) : Eff.M (option Item) :=
  findM (fun item => orM (keyIncludes item "fs.pused")
                    (orM (keyIncludes item "disk")
                         (nameLowerIncludes item "disk space"))) allItems.

Definition uptimeItem (allItems : list Item) : Eff.M (option Item) :=
  findM (fun item => orM (keyIncludes item "system.uptime")
                    (orM (keyIncludes item "uptime")
                         (nameLowerIncludes item "uptime"))) allItems.

Definition netInItem (allItems : list Item) : Eff.M (option Item) :=
  findM (fun item => orM (keyIncludes item "net.if.in")
                         (nameLowerIncludes item "incoming")) allItems.

Definition netOutItem (allItems : list Item) : Eff.M (option Item) :=
  findM (fun item => orM (keyIncludes item "net.if.out")
                         (nameLowerIncludes item "outgoing")) allItems.

(** [s && e]: the guard of a string field that may be absent or empty. *)
Definition guarded (s : option string) (e : string -> bool) : bool :=
  match s with
  | Some x => negb (JS.streq x "") && e x
  | None => false
  end.

(** The predicate given to [allItems.find] for the ICMP item. *)
Definition icmpPingPredicate (item : Item) : bool :=
  guarded (key_ item) (fun k =>
    JS.streq (JS.toLowerCase k) "icmpping" ||
    JS.streq (JS.toLowerCase k) "icmpping[]" ||
    JS.startsWith (JS.toLowerCase k) "icmpping[" ||
    JS.includes (JS.toLowerCase k) "icmp")
  || guarded (name item) (fun n =>
    JS.includes (JS.toLowerCase n) "icmp ping" ||
    JS.includes (JS.toLowerCase n) "ping response").

(** [item.key_ === literal] *)
Definition keyIs (item : Item) (literal : string) : bool :=
  match key_ item with Some k => JS.streq k literal | None => false end.

(** The predicate given to [allItems.find] for the agent item. *)
Definition agentPingPredicate (item : Item) : bool :=
  keyIs item "agent.ping" ||
  keyIs item "agent.ping[]" ||
  guarded (key_ item) (fun k => JS.startsWith (JS.toLowerCase k) "agent.ping[") ||
  guarded (name item) (fun n => JS.includes (JS.toLowerCase n) "agent ping").

Definition icmpPingItem (allItems : list Item) : option Item :=
  List.find icmpPingPredicate allItems.

Definition agentPingItem (allItems : list Item) : option Item :=
  List.find agentPingPredicate allItems.

(** The status of one remote signal: no staleness test on this route. *)
Definition itemStatus (pos neg : string) (found : option Item) : string :=
  match found with
  | Some it =>
      if hasValue (lastvalue it) then coerceStatus pos neg (lastvalue it)
      else "not configured"
  | None => "not configured"
  end.

(** The interface loop, which leaves at the first available interface;
    [hasUnavailableInterface] is carried along. *)
Fixpoint interfaceLoop (ifaces : list Interface) (hasUnavailableInterface : bool)
    : bool * bool :=
  match ifaces with
  | [] => (false, hasUnavailableInterface)
  | iface :: rest =>
      let ifaceAvailable := parseIntOrZero (available iface) in
      if JS.seq ifaceAvailable (JS.of_Z 1) then (true, hasUnavailableInterface)
      else if JS.seq ifaceAvailable (JS.of_Z 2) then interfaceLoop rest true
      else interfaceLoop rest hasUnavailableInterface
  end.

Definition scanInterfaces (ifaces : option (list Interface)) : bool * bool :=
  match ifaces with
  | Some (iface :: rest) => interfaceLoop (iface :: rest) false
  | _ => (false, false)
  end.

(** The score, accumulated in the order of the source. *)
Definition metricScore (directPingStatus icmpStatus agentCheckStatus : string)
    (hasAvailableInterface hasUnavailableInterface : bool) : Z :=
  let metricScore := 0 in
  let metricScore :=
    if JS.streq directPingStatus "responding" then metricScore + 3
    else if JS.streq directPingStatus "no response" then metricScore - 3
    else metricScore in
  let metricScore :=
    if JS.streq icmpStatus "responding" then metricScore + 2
    else if JS.streq icmpStatus "no response" then metricScore - 2
    else metricScore in
  let metricScore :=
    if JS.streq agentCheckStatus "available" then metricScore + 2
    else if JS.streq agentCheckStatus "unavailable" then metricScore - 2
    else metricScore in
  let metricScore :=
    if hasAvailableInterface then metricScore + 1
    else if hasUnavailableInterface then metricScore - 1
    else metricScore in
  metricScore.

Definition metricStatus (metricScore : Z) : string :=
  if 0 <? metricScore then "available"
  else if metricScore <? 0 then "unavailable"
  else "unknown".

(** [item?.lastvalue] *)
Definition lastvalueOf (item : option Item) : JS.jsval :=
  match item with Some it => lastvalue it | None => JS.JUndefined end.

(** The entry pushed for one host (the [uptime] text and the fields
    copied from the host are left out). *)
Record MetricsEntry : Type := {
  m_hostid : string;
  cpuUtilization : JS.jsnum;
  memoryUtilization : JS.jsnum;
  diskUsage : JS.jsnum;
  networkIn : JS.jsnum;
  networkOut : JS.jsnum;
  m_status : string;
  m_icmpStatus : string;
  agentCheckStatus : string;
  m_directPingStatus : string
}.

(** The object literal given to [metrics.push]. *)
Definition payload (hostId : string)
    (cpuItem memItem diskItem netInItem netOutItem : option Item)
    (metricStatus icmpStatus agentCheckStatus directPingStatus : string) : MetricsEntry :=
  {| m_hostid := hostId;
     cpuUtilization := parseItemValue (lastvalueOf cpuItem);
     memoryUtilization := parseItemValue (lastvalueOf memItem);
     diskUsage := parseItemValue (lastvalueOf diskItem);
     networkIn := parseItemValue (lastvalueOf netInItem);
     networkOut := parseItemValue (lastvalueOf netOutItem);
     m_status := metricStatus;
     m_icmpStatus := icmpStatus;
     agentCheckStatus := agentCheckStatus;
     m_directPingStatus := directPingStatus |}.

Record World : Type := {
  os : Probe.Os;
  host_get : Rpc.Fetch (list Host);
  item_get : Rpc.Fetch (list Item)
}.

Definition directPing (w : World) (host : Host) : Eff.M string :=
  match firstInterfaceIp host with
  | Some ipAddress =>
      if negb (JS.streq ipAddress "") && negb (JS.streq ipAddress "N/A") then
        try_catch
          (do pingResult <- Probe.pingHost (os w) ipAddress ;;
           ret (if pingResult : bool then "responding" else "no response"))
          (fun _ => ret "error")
      else ret "no ip"
  | None => ret "no ip"
  end.

(** The part of the loop body that follows the two fetches. *)
Definition hostMetrics (w : World) (hostId : string) (host : Host)
    (allItems : list Item) : Eff.M MetricsEntry :=
  do cpuItem <- cpuItem allItems ;;
  do memItem <- memItem allItems ;;
  do diskItem <- diskItem allItems ;;
  do _uptimeItem <- uptimeItem allItems ;;
  do netInItem <- netInItem allItems ;;
  do netOutItem <- netOutItem allItems ;;
  do directPingStatus <- directPing w host ;;
  let icmpStatus := itemStatus "responding" "no response" (icmpPingItem allItems) in
  let agentCheckStatus := itemStatus "available" "unavailable" (agentPingItem allItems) in
  let '(hasAvailableInterface, hasUnavailableInterface) :=
    scanInterfaces (interfaces host) in
  let metricStatus :=
    metricStatus (metricScore directPingStatus icmpStatus agentCheckStatus
                    hasAvailableInterface hasUnavailableInterface) in
  ret (payload hostId cpuItem memItem diskItem netInItem netOutItem
         metricStatus icmpStatus agentCheckStatus directPingStatus).

(** The [for (const hostId of hostIds)] loop, pushing onto [metrics]. *)
Fixpoint loop (w : World) (settings : Rpc.ZabbixSettings) (hostIds : list string)
    (metrics : list MetricsEntry) : Eff.M (list MetricsEntry) :=
  match hostIds with
  | [] => ret metrics
  | hostId :: rest =>
      do hostInfo <- Rpc.zabbixApiRequest (host_get w) settings "host.get"
                       (HostGetById hostId) ;;
      match hostInfo with
      | [] => loop w settings rest metrics
      | host :: _ =>
          do allItems <- Rpc.zabbixApiRequest (item_get w) settings "item.get"
                           (ItemGetByHost hostId true) ;;
          do entry <- hostMetrics w hostId host allItems ;;
          loop w settings rest (metrics ++ [entry])
      end
  end.

Inductive Reply : Type :=
| Json200 (metrics : list MetricsEntry)
| Status500.

Definition handler (w : World) (settings : Rpc.ZabbixSettings) (hostIds : list string)
    : Eff.M Reply :=
  try_catch
    (do metrics <- loop w settings hostIds [] ;; ret (Json200 metrics))
    (fun _ => ret Status500).

End MetricsRoute.

(* ===================================================================== *)
(** * [GET /api/zabbix/problems] *)
(* ===================================================================== *)

Module ProblemsRoute.

Record Problem : Type := {
  eventid : string;
  objectid : string;
  p_name : string;
  severity : JS.jsval;
  acknowledged : JS.jsval;
  p_clock : JS.jsval;
  r_eventid : JS.jsval
}.

Record TriggerHost : Type := {
  th_host : option string;
  th_name : option string
}.

Record Trigger : Type := {
  triggerid : string;
  hosts : option (list TriggerHost)
}.

Record HostInfo : Type := {
  hostname : string;
  host : string
}.

Record FormattedProblem : Type := {
  f_eventid : string;
  f_name : string;
  f_severity : JS.jsnum;
  f_hostname : string;
  f_host : string;
  f_acknowledged : JS.jsval;
  f_clock : JS.jsval;
  resolved : bool
}.

(** [s || 'Unknown'] *)
Definition orUnknown (s : option string) : string :=
  match s with
  | Some x => if JS.streq x "" then "Unknown" else x
  | None => "Unknown"
  end.

(** The body of [triggers.forEach], on the map being built.  The map is
    an object used as a dictionary from trigger identifiers, the decimal
    identifier strings the server issues, none of which names a member of
    [Object.prototype]. *)
Definition recordTrigger (triggerHostMap : gmap string HostInfo) (trigger : Trigger)
    : gmap string HostInfo :=
  match hosts trigger with
  | Some (h :: _) =>
      <[ triggerid trigger := {| hostname := orUnknown (th_name h);
                                 host := orUnknown (th_host h) |} ]> triggerHostMap
  | _ => triggerHostMap
  end.

Definition buildTriggerHostMap (triggers : list Trigger) : gmap string HostInfo :=
  fold_left recordTrigger triggers ∅.

(** The callback of [problems.map]. *)
Definition formatProblem (triggerHostMap : gmap string HostInfo) (problem : Problem)
    : FormattedProblem :=
  let hostInfo :=
    match triggerHostMap !! objectid problem with
    | Some info => info
    | None => {| hostname := "Unknown"; host := "Unknown" |}
    end in
  {| f_eventid := eventid problem;
     f_name := p_name problem;
     f_severity := JS.parseInt (JS.ToString (severity problem));
     f_hostname := hostname hostInfo;
     f_host := host hostInfo;
     f_acknowledged := acknowledged problem;
     f_clock := p_clock problem;
     resolved := JS.truthy (r_eventid problem) |}.

Record World : Type := {
  problem_get : Rpc.Fetch (list Problem);
  trigger_get : Rpc.Fetch (list Trigger)
}.

(** The batch lookup: the map stays empty when there is nothing to look
    up or when the request fails. *)
Definition lookupTriggerHosts (w : World) (settings : Rpc.ZabbixSettings)
    (triggerIds : list string) : Eff.M (gmap string HostInfo) :=
  match triggerIds with
  | [] => ret ∅
  | _ :: _ =>
      try_catch
        (do triggers <- Rpc.zabbixApiRequest (trigger_get w) settings "trigger.get"
                          (TriggerGetByIds triggerIds) ;;
         ret (buildTriggerHostMap triggers))
        (fun _ => ret ∅)
  end.

Inductive Reply : Type :=
| Json200 (formattedProblems : list FormattedProblem)
| Status500.

(** The handler, once the settings have been read. *)
Definition handler (w : World) (settings : Rpc.ZabbixSettings) : Eff.M Reply :=
  try_catch
    (do problems <- Rpc.zabbixApiRequest (problem_get w) settings "problem.get"
                      ProblemGetRecent ;;
     let triggerIds := map objectid problems in
     do triggerHostMap <- lookupTriggerHosts w settings triggerIds ;;
     let formattedProblems := map (formatProblem triggerHostMap) problems in
     ret (Json200 formattedProblems))
    (fun _ => ret Status500).






End ProblemsRoute.

(* ===================================================================== *)
(** * The reconciliation rule in the words of the specification *)
(* ===================================================================== *)

Module Spec.

(** A signal is positive (responding / available), negative
    (no response / unavailable) or silent (any other state). *)
Inductive Signal : Type := Positive | Negative | Silent.

Inductive Verdict : Type := Available | Unavailable | Unknown.

Definition weighted (weight : Z) (s : Signal) : Z :=
  match s with
  | Positive => weight
  | Negative => - weight
  | Silent => 0
  end.

(** DirectProbe 3, RemoteICMP 2, RemoteAgent 2, InterfaceFlag 1. *)
Definition score (direct icmp agent flag : Signal) : Z :=
  weighted 3 direct + weighted 2 icmp + weighted 2 agent + weighted 1 flag.

Definition reconcile (direct icmp agent flag : Signal) : Verdict :=
  match score direct icmp agent flag ?= 0 with
  | Gt => Available
  | Lt => Unavailable
  | Eq => Unknown
  end.

Definition label (v : Verdict) : string :=
  match v with
  | Available => "available"
  | Unavailable => "unavailable"
  | Unknown => "unknown"
  end.

(** Reading a signal off a status text of the routes. *)
Definition signalOf (pos neg status : string) : Signal :=
  if JS.streq status pos then Positive
  else if JS.streq status neg then Negative
  else Silent.

Definition directSignal : string -> Signal := signalOf "responding" "no response".
Definition icmpSignal : string -> Signal := signalOf "responding" "no response".
Definition agentSignal : string -> Signal := signalOf "available" "unavailable".

(** The interface signal carried by the two booleans of the routes. *)
Definition flagSignal (hasAvailableInterface hasUnavailableInterface : bool) : Signal :=
  if hasAvailableInterface then Positive
  else if hasUnavailableInterface then Negative
  else Silent.

(** The availability flag of an interface, as the routes read it. *)
Definition flagIs (n : Z) (iface : Interface) : bool :=
  JS.seq (parseIntOrZero (available iface)) (JS.of_Z n).

(** The interface signal of a host: available when some interface has
    flag 1; unavailable when none has flag 1 and some has flag 2. *)
Definition interfaceSignal (ifaces : option (list Interface)) : Signal :=
  match ifaces with
  | None => Silent
  | Some l =>
      if existsb (flagIs 1) l then Positive
      else if existsb (flagIs 2) l then Negative
      else Silent
  end.

End Spec.

(* ===================================================================== *)
(** * The endpoint address *)
(* ===================================================================== *)

Module Endpoint.

(** [s.endsWith(suffix)] *)
Fixpoint endsWith (s suffix : string) : bool :=
  JS.streq s suffix ||
  match s with
  | EmptyString => false
  | String _ t => endsWith t suffix
  end.

(** [s.replace(/\/$/, '')]: a slash that ends the string is removed. *)
Fixpoint dropTrailingSlash (s : string) : string :=
  match s with
  | EmptyString => EmptyString
  | String c t => if JS.streq s "/" then EmptyString else String c (dropTrailingSlash t)
  end.

(** What is left of [s] after a prefix as long as [p]. *)
Fixpoint afterPrefix (s p : string) : string :=
  match p, s with
  | String _ p', String _ s' => afterPrefix s' p'
  | _, _ => s
  end.

(** [s.replace(pattern, '')] for a string [pattern]: its first
    occurrence is removed. *)
Fixpoint removeFirst (s pattern : string) : string :=
  if JS.startsWith s pattern then afterPrefix s pattern
  else
    match s with
    | EmptyString => EmptyString
    | String c t => String c (removeFirst t pattern)
    end.

(** [apiUrl]: the stored address, made to end with the endpoint path. *)
Definition apiUrlOf (zabbixUrl : string) : string :=
  if endsWith zabbixUrl "/api_jsonrpc.php" then zabbixUrl
  else dropTrailingSlash zabbixUrl +:+ "/api_jsonrpc.php".

(** [baseUrl], to which the helper appends the endpoint path again. *)
Definition baseUrlOf (zabbixUrl : string) : string :=
  removeFirst (apiUrlOf zabbixUrl) "/api_jsonrpc.php".

End Endpoint.

(* ===================================================================== *)
(** * The routes from the top: database and stored settings *)
(* ===================================================================== *)

Module Config.

(** The first row of [SELECT * FROM zabbix_settings], by the properties
    the routes read off it. *)
Record Row : Type := {
  zabbix_url : JS.jsval;
  zabbixUrl : JS.jsval;
  zabbix_api_token : JS.jsval;
  zabbixApiToken : JS.jsval;
  refresh_interval : JS.jsval;
  refreshInterval : JS.jsval
}.

(** The database as a route sees it: [db] is absent, or the settings
    query resolves with its rows or rejects. *)
Definition Db : Type := option (outcome (list Row)).

(** What a route replies: before its handler proper, or through it. *)
Inductive Reply (R : Type) : Type :=
| Status503                  (* "Database not available" *)
| Status400 (message : string)
| Answer (reply : R).
Arguments Status503 {R}.
Arguments Status400 {R} message.
Arguments Answer {R} reply.

(** [apiUrl.endsWith(...)]: the receiver has to be a string. *)
Definition receiver (apiUrl : JS.jsval) : Eff.M string :=
  match apiUrl with
  | JS.JStr s => ret s
  | JS.JUndefined =>
      throw (TypeError "Cannot read properties of undefined (reading 'endsWith')")
  | JS.JNull =>
      throw (TypeError "Cannot read properties of null (reading 'endsWith')")
  | JS.JNum _ => throw (TypeError "apiUrl.endsWith is not a function")
  end.

(** The interval is carried along; the helper never reads it.  A value
    that is not a number is carried as 0. *)
Definition intervalOf (v : JS.jsval) : Z :=
  match v with JS.JNum n => n | _ => 0 end.

(** The settings the hosts route passes to the helper, from an address
    and a token that passed its check. *)
Definition hostsSettings (settingsRow : Row) (apiUrl : string) (zabbixApiToken : JS.jsval)
    : Rpc.ZabbixSettings :=
  {| Rpc.zabbixUrl := Endpoint.baseUrlOf apiUrl;
     Rpc.zabbixApiToken := JS.ToString zabbixApiToken;
     Rpc.refreshInterval :=
       intervalOf (JS.or_else (JS.or_else (refresh_interval settingsRow)
                                 (refreshInterval settingsRow)) (JS.JNum 60)) |}.

(** [GET /api/zabbix/hosts], from the top. *)
Definition hostsRoute (db : Db) (w : HostsRoute.World) : Eff.M (Reply HostsRoute.Reply) :=
  try_catch
    (match db with
     | None => ret Status503
     | Some settingsQuery =>
         do rows <- await settingsQuery ;;
         match rows with
         | [] => ret (Status400 "Zabbix not configured")
         | settingsRow :: _ =>
             let zabbixUrl := JS.or_else (zabbix_url settingsRow) (zabbixUrl settingsRow) in
             let zabbixApiToken :=
               JS.or_else (zabbix_api_token settingsRow) (zabbixApiToken settingsRow) in
             if negb (JS.truthy zabbixUrl) || negb (JS.truthy zabbixApiToken) then
               ret (Status400 "Zabbix URL or API token missing")
             else
               do apiUrl <- receiver zabbixUrl ;;
               do reply <- HostsRoute.handler w
                             (hostsSettings settingsRow apiUrl zabbixApiToken) ;;
               ret (Answer reply)
         end
     end)
    (fun _ => ret (Answer HostsRoute.Status500)).

(** The settings the other routes pass to the helper: they read the
    snake-case columns only, and do not check them. *)
Definition settingsOf (settings : Row) : Eff.M Rpc.ZabbixSettings :=
  do apiUrl <- receiver (zabbix_url settings) ;;
  ret {| Rpc.zabbixUrl := Endpoint.baseUrlOf apiUrl;
         Rpc.zabbixApiToken := JS.ToString (zabbix_api_token settings);
         Rpc.refreshInterval := intervalOf (refresh_interval settings) |}.

(** [POST /api/zabbix/metrics], from the top. *)
Definition metricsRoute (db : Db) (w : MetricsRoute.World) (hostIds : list string)
    : Eff.M (Reply MetricsRoute.Reply) :=
  try_catch
    (match db with
     | None => ret Status503
     | Some settingsQuery =>
         do rows <- await settingsQuery ;;
         match rows with
         | [] => ret (Status400 "Zabbix not configured")
         | settings :: _ =>
             do settings <- settingsOf settings ;;
             do reply <- MetricsRoute.handler w settings hostIds ;;
             ret (Answer reply)
         end
     end)
    (fun _ => ret (Answer MetricsRoute.Status500)).

(** [GET /api/zabbix/problems], from the top. *)
Definition problemsRoute (db : Db) (w : ProblemsRoute.World)
    : Eff.M (Reply ProblemsRoute.Reply) :=
  try_catch
    (match db with
     | None => ret Status503
     | Some settingsQuery =>
         do rows <- await settingsQuery ;;
         match rows with
         | [] => ret (Status400 "Zabbix not configured")
         | settings :: _ =>
             do settings <- settingsOf settings ;;
             do reply <- ProblemsRoute.handler w settings ;;
             ret (Answer reply)
         end
     end)
    (fun _ => ret (Answer ProblemsRoute.Status500)).

End Config.

(* ===================================================================== *)
(** * [POST /api/zabbix/test-connection] *)
(* ===================================================================== *)

Module TestConnection.

(** A [fetch] of the connection test: the address, the [Authorization]
    header when one is sent, and the JSON-RPC method of the body. *)
Record Call : Type := {
  call_url : string;
  call_authorization : option string;
  call_method : string
}.

(** [req.body] *)
Record Body : Type := {
  zabbixUrl : JS.jsval;
  zabbixApiToken : JS.jsval
}.

(** The network, per method called. *)
Record World : Type := {
  apiinfo_version : Call -> outcome (Rpc.Response JS.jsval);
  host_get : Call -> outcome (Rpc.Response (list Host))
}.

(** The body of [res.json]. *)
Record Reply : Type := {
  success : bool;
  message : string
}.

(** A computation that may throw and that records the calls it makes. *)
Definition M (A : Type) : Type := list Call -> result A * list Call.

Definition ret {A} (a : A) : M A := fun tr => (Ok a, tr).

Definition throw {A} (e : exn) : M A := fun tr => (Throw e, tr).

Definition bind {A B} (c : M A) (k : A -> M B) : M B :=
  fun tr =>
    match c tr with
    | (Ok a, tr') => k a tr'
    | (Throw e, tr') => (Throw e, tr')
    end.

Definition try_catch {A} (c : M A) (h : exn -> M A) : M A :=
  fun tr =>
    match c tr with
    | (Ok a, tr') => (Ok a, tr')
    | (Throw e, tr') => h e tr'
    end.

(** [await fetch(...)] *)
Definition fetch {A} (call : Call) (o : outcome A) : M A :=
  fun tr => (settle o, tr ++ [call]).

(** [await response.json()] *)
Definition await {A} (o : outcome A) : M A := fun tr => (settle o, tr).

(** [error.message] *)
Definition messageOf (error : exn) : string :=
  match error with
  | Error m | TypeError m | RangeError m => m
  | Rejected reason => reason
  end.

(** The first call, which carries no token. *)
Definition versionCall (apiUrl : string) : Call :=
  {| call_url := apiUrl;
     call_authorization := None;
     call_method := "apiinfo.version" |}.

(** The second call, which carries the token. *)
Definition authCall (apiUrl : string) (zabbixApiToken : JS.jsval) : Call :=
  {| call_url := apiUrl;
     call_authorization := Some ("Bearer " +:+ JS.ToString zabbixApiToken);
     call_method := "host.get" |}.

(** [error.data || error.message], as a template literal prints it. *)
Definition errorText (e : Rpc.RpcError) : string :=
  JS.ToString (JS.or_else (Rpc.err_data e) (Rpc.err_message e)).

Definition handler (w : World) (body : Body) : M Reply :=
  try_catch
    (let zabbixUrl := zabbixUrl body in
     let zabbixApiToken := zabbixApiToken body in
     if negb (JS.truthy zabbixUrl) || negb (JS.truthy zabbixApiToken) then
       ret {| success := false;
              message := "Zabbix URL and API Token are required" |}
     else
       bind (match zabbixUrl with
             | JS.JStr s => ret s
             | _ => throw (TypeError "zabbixUrl.endsWith is not a function")
             end) (fun zabbixUrl =>
       let apiUrl := Endpoint.apiUrlOf zabbixUrl in
       bind (fetch (versionCall apiUrl) (apiinfo_version w (versionCall apiUrl)))
         (fun versionResponse =>
       if negb (Rpc.ok versionResponse) then
         ret {| success := false;
                message := "HTTP Error: "
                           +:+ JS.ToString (JS.JNum (Rpc.resp_status versionResponse))
                           +:+ " " +:+ Rpc.resp_statusText versionResponse |}
       else
         bind (await (Rpc.resp_json versionResponse)) (fun versionData =>
         match Rpc.env_error versionData with
         | Some e =>
             ret {| success := false; message := "API Error: " +:+ errorText e |}
         | None =>
             bind (fetch (authCall apiUrl zabbixApiToken)
                     (host_get w (authCall apiUrl zabbixApiToken)))
               (fun authResponse =>
             bind (await (Rpc.resp_json authResponse)) (fun authData =>
             match Rpc.env_error authData with
             | Some e =>
                 ret {| success := false;
                        message := "Authentication failed: " +:+ errorText e
                                   +:+ ". Please check your API token." |}
             | None =>
                 ret {| success := true;
                        message := "Successfully connected to Zabbix "
                                   +:+ JS.ToString (Rpc.env_result versionData) |}
             end))
         end))))
    (fun error =>
       ret {| success := false;
              message := "Connection failed: " +:+ messageOf error |}).

(** The version probe went through: the address is a non-empty string,
    the token is present, and the call without a token was answered with
    a 2xx status and an envelope without an error. *)
Definition versionOk (w : World) (body : Body) (versionData : Rpc.Envelope JS.jsval)
    : Prop :=
  exists (url : string) (versionResponse : Rpc.Response JS.jsval),
    zabbixUrl body = JS.JStr url /\ url <> ""
    /\ JS.truthy (zabbixApiToken body) = true
    /\ apiinfo_version w (versionCall (Endpoint.apiUrlOf url)) = Resolved versionResponse
    /\ Rpc.ok versionResponse = true
    /\ Rpc.resp_json versionResponse = Resolved versionData
    /\ Rpc.env_error versionData = None.

(** The call with the token was answered with an envelope without an
    error; its status is not looked at. *)
Definition authOk (w : World) (body : Body) : Prop :=
  exists (url : string) (authResponse : Rpc.Response (list Host))
         (authData : Rpc.Envelope (list Host)),
    zabbixUrl body = JS.JStr url
    /\ host_get w (authCall (Endpoint.apiUrlOf url) (zabbixApiToken body))
       = Resolved authResponse
    /\ Rpc.resp_json authResponse = Resolved authData
    /\ Rpc.env_error authData = None.

End TestConnection.

(* ===================================================================== *)
(** * The uptime text of the metrics route *)
(* ===================================================================== *)

Module Uptime.

(** What [Math.floor] delivers: an integer, [NaN] or an infinity. *)
Inductive floored : Type :=
| FNaN
| FPosInf
| FNegInf
| FInt (z : Z).

(** [Math.floor(x)] *)
Definition floor (x : JS.jsnum) : floored :=
  match x with
  | JS.NaN => FNaN
  | JS.PosInf => FPosInf
  | JS.NegInf => FNegInf
  | JS.Fin q => FInt (Qfloor q)
  end.

(** [a / d] for a positive integer literal [d]: the quotient, rounded. *)
Definition divBy (a : JS.jsnum) (d : Z) : JS.jsnum :=
  match a with
  | JS.Fin x => JS.of_Q (Qred (x / inject_Z d))
  | other => other
  end.

(** The integer part of a rational, towards zero. *)
Definition truncate (q : Q) : Z :=
  if Qle_bool 0 q then Qfloor q else Qceiling q.

(** [a % d] for a positive integer literal [d]: the remainder has the
    sign of [a] and is exact. *)
Definition remBy (a : JS.jsnum) (d : Z) : JS.jsnum :=
  match a with
  | JS.Fin x => JS.Fin (Qred (x - inject_Z (d * truncate (x / inject_Z d))))
  | _ => JS.NaN
  end.

(** [f > 0] *)
Definition isPositive (f : floored) : bool :=
  match f with
  | FPosInf => true
  | FInt z => 0 <? z
  | _ => false
  end.

(** The decimal digits of a natural number. *)
Definition decimal (z : Z) : string := NilZero.string_of_int (Z.to_int z).

(** The number of decimal digits of a positive integer. *)
Definition countDigits (z : Z) : Z := Z.of_nat (String.length (decimal z)).

(** Whether the decimal [v] reads back as the number [x]. *)
Definition readsBack (v x : Z) : bool :=
  JS.seq (JS.of_Q (inject_Z v)) (JS.of_Z x).

(** The decimal printed for the positive integer-valued number [x] of
    [n] digits: among the decimals of [k] significant digits that read
    back as [x], for the least such [k], the one nearest to [x] (the even
    one on a tie).  Seventeen digits always suffice. *)
Fixpoint shortest (x n : Z) (fuel : nat) (k : Z) : Z :=
  match fuel with
  | O => x
  | S fuel' =>
      if n <? k then x
      else
        let p := 10 ^ (n - k) in
        let lo := (x / p) * p in
        let hi := lo + p in
        match readsBack lo x, readsBack hi x with
        | true, true =>
            if x - lo <? hi - x then lo
            else if hi - x <? x - lo then hi
            else if Z.even (x / p) then lo else hi
        | true, false => lo
        | false, true => hi
        | false, false => shortest x n fuel' (k + 1)
        end
  end.

(** A string without its trailing zeros. *)
Fixpoint dropTrailingZeros (s : string) : string :=
  match s with
  | EmptyString => EmptyString
  | String c t =>
      match dropTrailingZeros t with
      | EmptyString => if Ascii.eqb c "0" then EmptyString else String c EmptyString
      | t' => String c t'
      end
  end.

(** [String(x)] for a positive integer-valued number [x]: plain digits
    below [10^21], exponent notation from there. *)
Definition positiveText (x : Z) : string :=
  let v := shortest x (countDigits x) 17 1 in
  if v <? 10 ^ 21 then decimal v
  else
    let exponent := "e+" +:+ decimal (countDigits v - 1) in
    match dropTrailingZeros (decimal v) with
    | String d EmptyString => String d exponent
    | String d rest => String d ("." +:+ rest +:+ exponent)
    | EmptyString => exponent
    end.

(** [String(f)], as a template literal prints it. *)
Definition text (f : floored) : string :=
  match f with
  | FNaN => "NaN"
  | FPosInf => "Infinity"
  | FNegInf => "-Infinity"
  | FInt Z0 => "0"
  | FInt (Zpos p) => positiveText (Zpos p)
  | FInt (Zneg p) => "-" +:+ positiveText (Zpos p)
  end.

(** Format uptime to human readable. *)
Definition formatUptime (seconds : JS.jsnum) : string :=
  let days := floor (divBy seconds 86400) in
  let hours := floor (divBy (remBy seconds 86400) 3600) in
  let minutes := floor (divBy (remBy seconds 3600) 60) in
  if isPositive days then text days +:+ "d " +:+ text hours +:+ "h"
  else if isPositive hours then text hours +:+ "h " +:+ text minutes +:+ "m"
  else text minutes +:+ "m".


End Uptime.

(* ===================================================================== *)
(** * The outbound calls of the routes, and what the server knows *)
(* ===================================================================== *)

Module Outbound.

(** The address the direct probe of [host] is run on, if any. *)
Definition probedAddress (host : Host) : option string :=
  match firstInterfaceIp host with
  | Some ipAddress =>
      if negb (JS.streq ipAddress "") && negb (JS.streq ipAddress "N/A")
      then Some ipAddress else None
  | None => None
  end.

Definition probeCalls (os : Probe.Os) (host : Host) : list event :=
  match probedAddress host with
  | Some ipAddress => [EvExec (Probe.pingCommand (Probe.win32 os) ipAddress)]
  | None => []
  end.

(** The calls of the hosts-route callback for one host, in order. *)
Definition hostCalls (w : HostsRoute.World) (settings : Rpc.ZabbixSettings)
    (host : Host) : list event :=
  probeCalls (HostsRoute.os w) host
  ++ [EvFetch (Rpc.requestOf settings "item.get" (ItemGetByHost (hostid host) false))].

(** How the [host.get] request of the metrics route for [hostId] goes. *)
Definition hostLookup (w : MetricsRoute.World) (settings : Rpc.ZabbixSettings)
    (hostId : string) : result (list Host) :=
  fst (Rpc.zabbixApiRequest (MetricsRoute.host_get w) settings "host.get"
         (HostGetById hostId) []).

(** How its [item.get] request goes. *)
Definition itemLookup (w : MetricsRoute.World) (settings : Rpc.ZabbixSettings)
    (hostId : string) : result (list Item) :=
  fst (Rpc.zabbixApiRequest (MetricsRoute.item_get w) settings "item.get"
         (ItemGetByHost hostId true) []).

(** Whether the monitoring server knows [hostId]: the lookup succeeds
    with at least one host. *)
Definition known (w : MetricsRoute.World) (settings : Rpc.ZabbixSettings)
    (hostId : string) : bool :=
  match hostLookup w settings hostId with
  | Ok (_ :: _) => true
  | _ => false
  end.

(** Every lookup the metrics route makes for [hostId] succeeds, and
    every item returned has a key and a name. *)
Definition lookupsSucceed (w : MetricsRoute.World) (settings : Rpc.ZabbixSettings)
    (hostId : string) : Prop :=
  match hostLookup w settings hostId with
  | Ok [] => True
  | Ok (_ :: _) =>
      exists allItems,
        itemLookup w settings hostId = Ok allItems
        /\ Forall (fun it => is_Some (key_ it) /\ is_Some (name it)) allItems
  | Throw _ => False
  end.

End Outbound.

(* ===================================================================== *)
(** * The monitoring page (client/src/pages/servers-monitoring.tsx) *)
(* ===================================================================== *)

Module Page.

(** The updater [toggleHostSelection] gives to [setSelectedHosts]. *)
Definition toggleHostSelection (prev : list string) (hostId : string) : list string :=
  if existsb (fun id => JS.streq id hostId) prev
  then List.filter (fun id => negb (JS.streq id hostId)) prev
  else prev ++ [hostId].

(** The status shown on the card of a host of the hosts route's reply. *)
Definition actualStatus (host : HostsRoute.Enriched) : string :=
  if JS.streq (HostsRoute.directPingStatus host) "responding" then "available"
  else if JS.streq (HostsRoute.directPingStatus host) "no response" then "unavailable"
  else if JS.streq (HostsRoute.e_icmpStatus host) "responding"
          || JS.streq (HostsRoute.e_agentStatus host) "available" then "available"
  else if JS.streq (HostsRoute.e_icmpStatus host) "no response"
          || JS.streq (HostsRoute.e_agentStatus host) "unavailable" then "unavailable"
  else if JS.streq (HostsRoute.availabilityStatus host) "available" then "available"
       else "unavailable".

End Page.

(* ===================================================================== *)
(** * Concrete hosts, items and replies used in the examples *)
(* ===================================================================== *)

Module Sample.

Definition settings : Rpc.ZabbixSettings :=
  {| Rpc.zabbixUrl := "http://zabbix.example";
     Rpc.zabbixApiToken := "0424bd59b807674191e7d77572075f33";
     Rpc.refreshInterval := 60 |}.

(** A 200 reply carrying [payload] as its result. *)
Definition reply200 {R} (payload : R) : outcome (Rpc.Response R) :=
  Resolved {| Rpc.resp_status := 200;
              Rpc.resp_statusText := "OK";
              Rpc.resp_json :=
                Resolved {| Rpc.env_error := None; Rpc.env_result := payload |} |}.

(** An enabled item with the canonical ICMP key, reporting 0. *)
Definition exactItem : Item :=
  {| itemid := "23301"; key_ := Some "icmpping"; name := Some "Ping check";
     lastvalue := JS.JStr "0"; lastclock := JS.JStr "1700000000";
     status := JS.JStr "0" |}.

(** An enabled item matched only by its display name, reporting 1. *)
Definition namedItem : Item :=
  {| itemid := "23302"; key_ := Some "net.echo.reply"; name := Some "ICMP response";
     lastvalue := JS.JStr "1"; lastclock := JS.JStr "1700000000";
     status := JS.JStr "0" |}.

(** An enabled item that no ICMP heuristic matches. *)
Definition cpuLoadItem : Item :=
  {| itemid := "23303"; key_ := Some "system.cpu.load"; name := Some "CPU load";
     lastvalue := JS.JStr "37.5"; lastclock := JS.JStr "1700000000";
     status := JS.JStr "0" |}.

(** An item updated 10000 seconds before the clock reading below. *)
Definition staleItem : Item :=
  {| itemid := "23304"; key_ := Some "icmpping"; name := Some "ICMP ping";
     lastvalue := JS.JStr "1"; lastclock := JS.JStr "1699990000";
     status := JS.JStr "0" |}.

(** An item with no value, last updated at [lastclock]. *)
Definition emptyItem (lastclock : JS.jsval) : Item :=
  {| itemid := "23305"; key_ := Some "icmpping"; name := Some "ICMP ping";
     lastvalue := JS.JStr ""; lastclock := lastclock;
     status := JS.JStr "0" |}.

Definition now : Z := 1700000000.

Definition host1 : Host :=
  {| hostid := "10084"; host_name := "db-01"; host_status := JS.JStr "0";
     interfaces := Some [ {| ip := Some "10.0.0.5"; available := JS.JStr "0" |} ] |}.

Definition host2 : Host :=
  {| hostid := "10085"; host_name := "web-01"; host_status := JS.JStr "0";
     interfaces := Some [ {| ip := Some "10.0.0.6"; available := JS.JStr "1" |} ] |}.

(** A machine on which [ping] cannot be started. *)
Definition noPing : Probe.Os :=
  {| Probe.win32 := false;
     Probe.exec := fun _ => Rejects "spawn ping ENOENT" |}.

(** A machine on which every echo request is answered. *)
Definition pingAnswers : Probe.Os :=
  {| Probe.win32 := false;
     Probe.exec := fun _ =>
       Resolved "1 packets transmitted, 1 received, 0% packet loss, time 0ms" |}.

Definition hostsWorld (os : Probe.Os) (hosts : list Host) (items : list Item)
    : HostsRoute.World :=
  {| HostsRoute.os := os;
     HostsRoute.clock := now;
     HostsRoute.item_get := fun _ => reply200 items;
     HostsRoute.host_get := fun _ => reply200 hosts |}.

Definition metricsWorld (os : Probe.Os) (host : Host) (items : list Item)
    : MetricsRoute.World :=
  {| MetricsRoute.os := os;
     MetricsRoute.host_get := fun _ => reply200 [host];
     MetricsRoute.item_get := fun _ => reply200 items |}.

Definition problem (eventid objectid name : string) : ProblemsRoute.Problem :=
  {| ProblemsRoute.eventid := eventid;
     ProblemsRoute.objectid := objectid;
     ProblemsRoute.p_name := name;
     ProblemsRoute.severity := JS.JStr "4";
     ProblemsRoute.acknowledged := JS.JStr "0";
     ProblemsRoute.p_clock := JS.JStr "1700000000";
     ProblemsRoute.r_eventid := JS.JStr "0" |}.




(** A non-2xx reply whose body is an envelope with an error object. *)
Definition errorReply500 : Rpc.Response (list Host) :=
  {| Rpc.resp_status := 500;
     Rpc.resp_statusText := "Internal Server Error";
     Rpc.resp_json :=
       Resolved {| Rpc.env_error :=
               Some {| Rpc.err_data := JS.JStr "Session terminated, re-login, please.";
                       Rpc.err_message := JS.JStr "Invalid params." |};
             Rpc.env_result := [] |} |}.

(** A 200 reply whose envelope carries an error object with no detail. *)
Definition errorReply200 : Rpc.Response (list Host) :=
  {| Rpc.resp_status := 200;
     Rpc.resp_statusText := "OK";
     Rpc.resp_json :=
       Resolved {| Rpc.env_error :=
               Some {| Rpc.err_data := JS.JUndefined;
                       Rpc.err_message := JS.JStr "Invalid params." |};
             Rpc.env_result := [] |} |}.

(** A 200 reply whose body is not JSON. *)
Definition htmlReply200 : Rpc.Response (list Host) :=
  {| Rpc.resp_status := 200;
     Rpc.resp_statusText := "OK";
     Rpc.resp_json := Rejects "Unexpected token < in JSON at position 0" |}.

End Sample.

(* ===================================================================== *)
(** * Further worlds and settings rows used in the examples *)
(* ===================================================================== *)

Module Fixture.

(** A hosts-route world in which every item request fails on the
    network. *)
Definition itemsDown : HostsRoute.World :=
  {| HostsRoute.os := Sample.pingAnswers;
     HostsRoute.clock := Sample.now;
     HostsRoute.item_get := fun _ => Rejects "fetch failed";
     HostsRoute.host_get := fun _ => Sample.reply200 [Sample.host1] |}.

(** A monitoring server that knows host 10085 only. *)
Definition oneKnownHost : MetricsRoute.World :=
  {| MetricsRoute.os := Sample.noPing;
     MetricsRoute.host_get := fun request =>
       match req_params request with
       | HostGetById hostId =>
           if JS.streq hostId "10085" then Sample.reply200 [Sample.host2]
           else Sample.reply200 []
       | _ => Sample.reply200 []
       end;
     MetricsRoute.item_get := fun _ => Sample.reply200 [Sample.cpuLoadItem] |}.

(** A metrics-route world in which every item request fails on the
    network. *)
Definition metricsItemsDown : MetricsRoute.World :=
  {| MetricsRoute.os := Sample.pingAnswers;
     MetricsRoute.host_get := fun _ => Sample.reply200 [Sample.host2];
     MetricsRoute.item_get := fun _ => Rejects "fetch failed" |}.

(** Settings stored under the snake-case columns, the address with a
    trailing slash. *)
Definition storedRow : Config.Row :=
  {| Config.zabbix_url := JS.JStr "http://zabbix.example/";
     Config.zabbixUrl := JS.JUndefined;
     Config.zabbix_api_token := JS.JStr "0424bd59b807674191e7d77572075f33";
     Config.zabbixApiToken := JS.JUndefined;
     Config.refresh_interval := JS.JNum 60;
     Config.refreshInterval := JS.JUndefined |}.

End Fixture.

(* ===================================================================== *)
(** * Properties *)
(* ===================================================================== *)

(** ** Numbers: integers below [2^53] are exact *)

Lemma Qred_inject_Z (z : Z) : Qred (inject_Z z) = inject_Z z.
Proof.
  unfold inject_Z, Qred.
  generalize (Z.ggcd_gcd z 1), (Z.ggcd_correct_divisors z 1).
  destruct (Z.ggcd z 1) as [g [a b]]. simpl. intros Hg [Ha Hb].
  rewrite Z.gcd_1_r in Hg. subst g.
  replace a with z by lia. replace b with 1 by lia. reflexivity.
Qed.

Lemma floor_log2_Q_int (n : Z) : 0 < n -> JS.floor_log2_Q n 1 = Z.log2 n.
Proof.
  intros Hn. unfold JS.floor_log2_Q.
  change (Z.log2 1) with 0. rewrite Z.sub_0_r.
  pose proof (Z.log2_nonneg n) as Hl.
  destruct (Z.leb_spec 0 (Z.log2 n)); [|lia].
  pose proof (Z.log2_spec n Hn) as [Hlo _].
  destruct (Z.leb_spec (1 * 2 ^ Z.log2 n) n); lia.
Qed.

Lemma round_half_even_1 (n : Z) : JS.round_half_even n 1 = n.
Proof.
  unfold JS.round_half_even. rewrite Z.mod_1_r, Z.div_1_r. reflexivity.
Qed.

Lemma round_binary64_int (n : Z) :
  0 < n -> n < 2 ^ 53 -> JS.round_binary64 n 1 = Some (inject_Z n).
Proof.
  intros Hn Hb. unfold JS.round_binary64.
  rewrite floor_log2_Q_int by assumption.
  assert (Hk : Z.log2 n < 53) by (apply Z.log2_lt_pow2; lia).
  pose proof (Z.log2_nonneg n) as Hk0.
  assert (He : Z.max (Z.log2 n - 52) (-1074) = Z.log2 n - 52) by lia.
  rewrite He.
  destruct (Z.leb_spec 0 (Z.log2 n - 52)) as [H0|H0].
  - assert (Z.log2 n - 52 = 0) as -> by lia.
    change (2 ^ 0) with 1. rewrite (Z.mul_1_l 1), round_half_even_1, Z.mul_1_r.
    destruct (Z.leb_spec (2 ^ 1024) n) as [Hbig|_]; [|reflexivity].
    exfalso. assert (2 ^ 53 < 2 ^ 1024) by (apply Z.pow_lt_mono_r; lia). lia.
  - rewrite round_half_even_1. f_equal.
    rewrite <- (Qred_inject_Z n). apply Qred_complete.
    unfold Qeq, inject_Z. simpl Qnum. simpl Qden.
    assert (0 < 2 ^ (- (Z.log2 n - 52))) by (apply Z.pow_pos_nonneg; lia).
    rewrite Z2Pos.id by assumption. lia.
Qed.

Lemma of_Q_int (z : Z) : Z.abs z < 2 ^ 53 -> JS.of_Q (inject_Z z) = JS.of_Z z.
Proof.
  intros Hz. unfold JS.of_Q, JS.of_Z. destruct z as [|p|p]; cbn [Qnum Qden inject_Z].
  - reflexivity.
  - rewrite round_binary64_int; [reflexivity | lia | exact Hz].
  - rewrite round_binary64_int; [| lia | exact Hz].
    f_equal. exact (Qred_inject_Z (Z.neg p)).
Qed.

Lemma sub_int (a b : Z) :
  Z.abs (a - b) < 2 ^ 53 -> JS.sub (JS.of_Z a) (JS.of_Z b) = JS.of_Z (a - b).
Proof.
  intros H. unfold JS.sub, JS.of_Z.
  assert (E : Qred (inject_Z a - inject_Z b) = inject_Z (a - b)).
  { rewrite <- (Qred_inject_Z (a - b)). apply Qred_complete.
    unfold Qeq, Qminus, Qplus, Qopp, inject_Z. simpl. lia. }
  rewrite E. apply of_Q_int. exact H.
Qed.

Lemma lt_int (a b : Z) : JS.lt (JS.of_Z a) (JS.of_Z b) = (a <? b).
Proof.
  unfold JS.lt, JS.of_Z, Qle_bool, inject_Z. simpl.
  rewrite !Z.mul_1_r. destruct (Z.leb_spec b a), (Z.ltb_spec a b); simpl; try reflexivity; lia.
Qed.

(** ** The JSON-RPC helper, case by case *)

Lemma transport_is_not_protocol (e : exn) :
  Rpc.isTransportError e -> Rpc.isProtocolError e -> False.
Proof. intros [a ->] [b H]. cbn in H. discriminate H. Qed.

Lemma rejected_is_neither (reason : string) :
  ~ Rpc.isTransportError (Rejected reason) /\ ~ Rpc.isProtocolError (Rejected reason).
Proof. split; intros [x H]; discriminate H. Qed.

Lemma ok_iff_2xx {R} (response : Rpc.Response R) :
  Rpc.ok response = true <-> 200 <= Rpc.resp_status response <= 299.
Proof. unfold Rpc.ok. rewrite andb_true_iff, !Z.leb_le. reflexivity. Qed.

Section RpcFacts.

Context {R : Type}.
Variable fetch : Rpc.Fetch R.
Variable settings : Rpc.ZabbixSettings.
Variable method : string.
Variable params : RpcParams.

Lemma zabbixApiRequest_log (tr : list event) :
  snd (Rpc.zabbixApiRequest fetch settings method params tr)
  = tr ++ [EvFetch (Rpc.requestOf settings method params)].
Proof.
  unfold Rpc.zabbixApiRequest, bind, perform, await, throw, ret.
  destruct (fetch _) as [response|reason]; [|reflexivity]. cbn [settle].
  destruct (negb (Rpc.ok response)); [reflexivity|].
  destruct (Rpc.resp_json response) as [data|reason]; [|reflexivity]. cbn [settle].
  destruct (Rpc.env_error data); reflexivity.
Qed.

Lemma zabbixApiRequest_outcome_any_record (tr : list event) :
  fst (Rpc.zabbixApiRequest fetch settings method params tr)
  = fst (Rpc.zabbixApiRequest fetch settings method params []).
Proof.
  unfold Rpc.zabbixApiRequest, bind, perform, await, throw, ret.
  destruct (fetch _) as [response|reason]; [|reflexivity]. cbn [settle].
  destruct (negb (Rpc.ok response)); [reflexivity|].
  destruct (Rpc.resp_json response) as [data|reason]; [|reflexivity]. cbn [settle].
  destruct (Rpc.env_error data); reflexivity.
Qed.

Lemma request_fetch_rejected (tr : list event) (reason : string) :
  fetch (Rpc.requestOf settings method params) = Rejects reason ->
  fst (Rpc.zabbixApiRequest fetch settings method params tr) = Throw (Rejected reason).
Proof.
  intros H. unfold Rpc.zabbixApiRequest, bind, perform. rewrite H. reflexivity.
Qed.

Lemma request_non_2xx (tr : list event) (response : Rpc.Response R) :
  fetch (Rpc.requestOf settings method params) = Resolved response ->
  Rpc.ok response = false ->
  fst (Rpc.zabbixApiRequest fetch settings method params tr)
  = Throw (Error ("Zabbix API request failed: " +:+ Rpc.resp_statusText response)).
Proof.
  intros H Hok. unfold Rpc.zabbixApiRequest, bind, perform. rewrite H. cbn [settle].
  rewrite Hok. reflexivity.
Qed.

Lemma request_body_rejected (tr : list event) (response : Rpc.Response R)
    (reason : string) :
  fetch (Rpc.requestOf settings method params) = Resolved response ->
  Rpc.ok response = true ->
  Rpc.resp_json response = Rejects reason ->
  fst (Rpc.zabbixApiRequest fetch settings method params tr) = Throw (Rejected reason).
Proof.
  intros H Hok Hj. unfold Rpc.zabbixApiRequest, bind, perform, await.
  rewrite H. cbn [settle]. rewrite Hok. cbn [negb]. rewrite Hj. reflexivity.
Qed.

Lemma request_error_object (tr : list event) (response : Rpc.Response R)
    (data : Rpc.Envelope R) (err : Rpc.RpcError) :
  fetch (Rpc.requestOf settings method params) = Resolved response ->
  Rpc.ok response = true ->
  Rpc.resp_json response = Resolved data ->
  Rpc.env_error data = Some err ->
  fst (Rpc.zabbixApiRequest fetch settings method params tr)
  = Throw (Error ("Zabbix API error: " +:+
             JS.ToString (if JS.truthy (Rpc.err_data err)
                          then Rpc.err_data err else Rpc.err_message err))).
Proof.
  intros H Hok Hj He. unfold Rpc.zabbixApiRequest, bind, perform, await.
  rewrite H. cbn [settle]. rewrite Hok. cbn [negb]. rewrite Hj. cbn [settle].
  rewrite He. reflexivity.
Qed.

Lemma request_result (tr : list event) (response : Rpc.Response R)
    (data : Rpc.Envelope R) :
  fetch (Rpc.requestOf settings method params) = Resolved response ->
  Rpc.ok response = true ->
  Rpc.resp_json response = Resolved data ->
  Rpc.env_error data = None ->
  fst (Rpc.zabbixApiRequest fetch settings method params tr) = Ok (Rpc.env_result data).
Proof.
  intros H Hok Hj He. unfold Rpc.zabbixApiRequest, bind, perform, await.
  rewrite H. cbn [settle]. rewrite Hok. cbn [negb]. rewrite Hj. cbn [settle].
  rewrite He. reflexivity.
Qed.

End RpcFacts.

(** ** The prober never throws; the per-host callback *)

Section Prober.

Variable os : Probe.Os.

Lemma pingHost_never_throws (ipAddress : string) (tr : list event) :
  exists b : bool,
    Probe.pingHost os ipAddress tr
    = (Ok b, tr ++ [EvExec (Probe.pingCommand (Probe.win32 os) ipAddress)]).
Proof.
  unfold Probe.pingHost, try_catch, bind, perform, ret.
  destruct (Probe.exec os _) as [stdout|reason]; cbn [settle].
  - destruct (Probe.win32 os); eexists; reflexivity.
  - exists false. reflexivity.
Qed.

Lemma pingHost_exec_failure (ipAddress : string) (tr : list event) (reason : string) :
  Probe.exec os (Probe.pingCommand (Probe.win32 os) ipAddress) = Rejects reason ->
  Probe.pingHost os ipAddress tr
  = (Ok false, tr ++ [EvExec (Probe.pingCommand (Probe.win32 os) ipAddress)]).
Proof.
  intros H. unfold Probe.pingHost, try_catch, bind, perform, ret. rewrite H. reflexivity.
Qed.

End Prober.

Section HostsRouteCallback.

Variable w : HostsRoute.World.
Variable settings : Rpc.ZabbixSettings.

Lemma directPing_never_throws (host : Host) (tr : list event) :
  exists st tr', HostsRoute.directPing w host tr = (Ok st, tr').
Proof.
  unfold HostsRoute.directPing.
  destruct (firstInterfaceIp host) as [ipAddress|]; [|eexists _, _; reflexivity].
  destruct (negb (JS.streq ipAddress "") && negb (JS.streq ipAddress "N/A"));
    [|eexists _, _; reflexivity].
  unfold try_catch, bind.
  destruct (pingHost_never_throws (HostsRoute.os w) ipAddress tr) as [b ->].
  eexists _, _; reflexivity.
Qed.

(** The item request never makes the callback throw: a failed request
    leaves the callback with no items. *)
Lemma fetch_items_never_throws (host : Host) (tr : list event) :
  try_catch
    (Rpc.zabbixApiRequest (HostsRoute.item_get w) settings "item.get"
       (ItemGetByHost (hostid host) false))
    (fun _ => ret []) tr
  = (Ok (HostsRoute.itemsOf w settings host),
     tr ++ [EvFetch (Rpc.requestOf settings "item.get"
                       (ItemGetByHost (hostid host) false))]).
Proof.
  unfold try_catch, HostsRoute.itemsOf.
  pose proof (zabbixApiRequest_log (HostsRoute.item_get w) settings "item.get"
                (ItemGetByHost (hostid host) false) tr) as Hlog.
  pose proof (zabbixApiRequest_outcome_any_record (HostsRoute.item_get w) settings
                "item.get" (ItemGetByHost (hostid host) false) tr) as Hout.
  destruct (Rpc.zabbixApiRequest (HostsRoute.item_get w) settings "item.get"
              (ItemGetByHost (hostid host) false) tr) as [[items|e] tr1];
    cbn [fst snd] in *; subst tr1; rewrite <- Hout; reflexivity.
Qed.

(** The callback, step by step: it throws exactly when a log entry
    cannot be built. *)
Lemma enrichHost_outcome (host : Host) (tr : list event) :
  exists st tr',
    HostsRoute.directPing w host tr = (Ok st, tr')
    /\ HostsRoute.enrichHost w settings host tr
       = (if HostsRoute.hostLoggable w settings host then
            Ok {| HostsRoute.e_host := host;
                  HostsRoute.availabilityStatus :=
                    HostsRoute.statusOfScore
                      (HostsRoute.availabilityScore st
                         (HostsRoute.icmpStatus (HostsRoute.clock w)
                            (HostsRoute.itemsOf w settings host))
                         (HostsRoute.agentStatus (HostsRoute.clock w)
                            (HostsRoute.itemsOf w settings host))
                         (fst (HostsRoute.scanInterfaces (interfaces host)))
                         (snd (HostsRoute.scanInterfaces (interfaces host))));
                  HostsRoute.e_icmpStatus :=
                    HostsRoute.icmpStatus (HostsRoute.clock w)
                      (HostsRoute.itemsOf w settings host);
                  HostsRoute.e_agentStatus :=
                    HostsRoute.agentStatus (HostsRoute.clock w)
                      (HostsRoute.itemsOf w settings host);
                  HostsRoute.directPingStatus := st |}
          else Throw (RangeError "Invalid time value"),
          tr' ++ [EvFetch (Rpc.requestOf settings "item.get"
                             (ItemGetByHost (hostid host) false))]).
Proof.
  destruct (directPing_never_throws host tr) as (st & tr1 & Hd).
  exists st, tr1. split; [exact Hd|].
  unfold HostsRoute.enrichHost. unfold bind at 1. rewrite Hd.
  destruct (HostsRoute.scanInterfaces (interfaces host)) as [ha hu].
  unfold bind at 1. rewrite fetch_items_never_throws.
  unfold HostsRoute.hostLoggable, HostsRoute.logFound, bind, ret, throw.
  destruct (HostsRoute.loggable (HostsRoute.icmpItem _)); [|reflexivity].
  destruct (HostsRoute.loggable (HostsRoute.agentItem _)); reflexivity.
Qed.

(** Every entry the callback returns belongs to its host and carries the
    status of its score. *)
Lemma enrichHost_entry (host : Host) (tr tr' : list event) (e : HostsRoute.Enriched) :
  HostsRoute.enrichHost w settings host tr = (Ok e, tr') ->
  HostsRoute.e_host e = host
  /\ HostsRoute.availabilityStatus e
     = HostsRoute.statusOfScore
         (HostsRoute.availabilityScore
            (HostsRoute.directPingStatus e) (HostsRoute.e_icmpStatus e)
            (HostsRoute.e_agentStatus e)
            (fst (HostsRoute.scanInterfaces (interfaces host)))
            (snd (HostsRoute.scanInterfaces (interfaces host)))).
Proof.
  destruct (enrichHost_outcome host tr) as (st & tr1 & _ & ->).
  destruct (HostsRoute.hostLoggable w settings host); [|discriminate].
  intros [= <- _]. split; reflexivity.
Qed.

(** The callback returns an entry when the log entries can be built. *)
Lemma enrichHost_returns (host : Host) (tr : list event) :
  HostsRoute.hostLoggable w settings host = true ->
  exists e tr', HostsRoute.enrichHost w settings host tr = (Ok e, tr').
Proof.
  intros Hl. destruct (enrichHost_outcome host tr) as (st & tr1 & _ & ->).
  rewrite Hl. eexists _, _; reflexivity.
Qed.

(** It rejects otherwise. *)
Lemma enrichHost_rejects (host : Host) (tr : list event) :
  HostsRoute.hostLoggable w settings host = false ->
  fst (HostsRoute.enrichHost w settings host tr)
  = Throw (RangeError "Invalid time value").
Proof.
  intros Hl. destruct (enrichHost_outcome host tr) as (st & tr1 & _ & ->).
  now rewrite Hl.
Qed.

Lemma enrich_all_returns (hosts : list Host) (tr : list event) :
  Forall (fun host => HostsRoute.hostLoggable w settings host = true) hosts ->
  exists es tr',
    promise_all_map (HostsRoute.enrichHost w settings) hosts tr = (Ok es, tr')
    /\ map HostsRoute.e_host es = hosts.
Proof.
  intros Hall. revert tr.
  induction Hall as [|h hosts Hh _ IH]; intros tr.
  - exists [], tr. split; reflexivity.
  - cbn [promise_all_map].
    destruct (enrichHost_returns h tr Hh) as (e & tr1 & He).
    destruct (enrichHost_entry h tr tr1 e He) as [Hhost _].
    destruct (IH tr1) as (es & tr2 & Hes & Hm).
    exists (e :: es), tr2. rewrite He, Hes. split; [reflexivity|].
    cbn [map]. now rewrite Hhost, Hm.
Qed.

End HostsRouteCallback.

(** ** Scoring *)

Section Scoring.

Lemma seq_1_2_exclusive (v : JS.jsnum) :
  JS.seq v (JS.of_Z 1) = true -> JS.seq v (JS.of_Z 2) = false.
Proof.
  destruct v as [| | |q]; try discriminate.
  unfold JS.seq, JS.of_Z. intros H1.
  apply Qeq_bool_iff in H1.
  destruct (Qeq_bool q (inject_Z 2)) eqn:H2; [|reflexivity].
  apply Qeq_bool_iff in H2. rewrite H1 in H2. discriminate H2.
Qed.


Lemma statusOfScore_label (z : Z) :
  HostsRoute.statusOfScore z
  = Spec.label (match z ?= 0 with Gt => Spec.Available | Lt => Spec.Unavailable | Eq => Spec.Unknown end).
Proof.
  unfold HostsRoute.statusOfScore.
  destruct (Z.compare_spec z 0), (Z.ltb_spec 0 z), (Z.ltb_spec z 0); try lia; reflexivity.
Qed.

Lemma hosts_score_refines d i a ha hu :
  HostsRoute.availabilityScore d i a ha hu
  = Spec.score (Spec.directSignal d) (Spec.icmpSignal i) (Spec.agentSignal a) (Spec.flagSignal ha hu).
Proof.
  unfold HostsRoute.availabilityScore, Spec.score, Spec.directSignal, Spec.icmpSignal,
    Spec.agentSignal, Spec.signalOf, Spec.flagSignal.
  destruct (JS.streq d "responding"), (JS.streq d "no response"),
    (JS.streq i "responding"), (JS.streq i "no response"),
    (JS.streq a "available"), (JS.streq a "unavailable"), ha, hu; reflexivity.
Qed.


Lemma metrics_score_eq d i a ha hu :
  MetricsRoute.metricScore d i a ha hu = HostsRoute.availabilityScore d i a ha hu.
Proof. reflexivity. Qed.

Lemma metricStatus_eq z : MetricsRoute.metricStatus z = HostsRoute.statusOfScore z.
Proof. reflexivity. Qed.

Lemma flagIs_exclusive (iface : Interface) :
  Spec.flagIs 1 iface = true -> Spec.flagIs 2 iface = false.
Proof. apply seq_1_2_exclusive. Qed.

Lemma hosts_step_flags (iface : Interface) (a u : bool) :
  HostsRoute.interfaceStep (a, u) iface
  = (a || Spec.flagIs 1 iface, u || Spec.flagIs 2 iface).
Proof.
  unfold HostsRoute.interfaceStep. cbn [fst snd].
  change (JS.seq (parseIntOrZero (available iface)) (JS.of_Z 1)) with (Spec.flagIs 1 iface).
  change (JS.seq (parseIntOrZero (available iface)) (JS.of_Z 2)) with (Spec.flagIs 2 iface).
  destruct (Spec.flagIs 1 iface) eqn:E1.
  - rewrite (flagIs_exclusive _ E1). now rewrite orb_true_r, orb_false_r.
  - destruct (Spec.flagIs 2 iface); now rewrite ?orb_true_r, ?orb_false_r.
Qed.

Lemma hosts_fold_flags (l : list Interface) (a u : bool) :
  fold_left HostsRoute.interfaceStep l (a, u)
  = (a || existsb (Spec.flagIs 1) l, u || existsb (Spec.flagIs 2) l).
Proof.
  revert a u. induction l as [|iface l IH]; intros a u; cbn [fold_left existsb].
  - now rewrite !orb_false_r.
  - rewrite hosts_step_flags, IH. now rewrite !orb_assoc.
Qed.

Lemma hosts_scan_signal (ifaces : option (list Interface)) :
  Spec.flagSignal (fst (HostsRoute.scanInterfaces ifaces)) (snd (HostsRoute.scanInterfaces ifaces))
  = Spec.interfaceSignal ifaces.
Proof.
  destruct ifaces as [l|]; [|reflexivity].
  unfold HostsRoute.scanInterfaces. rewrite hosts_fold_flags. reflexivity.
Qed.

Lemma metrics_loop_flags (l : list Interface) (u : bool) :
  fst (MetricsRoute.interfaceLoop l u) = existsb (Spec.flagIs 1) l
  /\ (existsb (Spec.flagIs 1) l = false ->
      snd (MetricsRoute.interfaceLoop l u) = u || existsb (Spec.flagIs 2) l).
Proof.
  revert u. induction l as [|iface l IH]; intros u;
    cbn [MetricsRoute.interfaceLoop existsb].
  - split; [reflexivity | intros _; now rewrite orb_false_r].
  - change (JS.seq (parseIntOrZero (available iface)) (JS.of_Z 1)) with (Spec.flagIs 1 iface).
    change (JS.seq (parseIntOrZero (available iface)) (JS.of_Z 2)) with (Spec.flagIs 2 iface).
    destruct (Spec.flagIs 1 iface) eqn:E1; cbn [orb].
    + split; [reflexivity | discriminate].
    + destruct (Spec.flagIs 2 iface) eqn:E2; cbn [orb].
      * destruct (IH true) as [IH1 IH2]. split; [exact IH1|].
        intros H. rewrite (IH2 H). now rewrite orb_true_r.
      * apply IH.
Qed.

Lemma metrics_scan_signal (ifaces : option (list Interface)) :
  Spec.flagSignal (fst (MetricsRoute.scanInterfaces ifaces)) (snd (MetricsRoute.scanInterfaces ifaces))
  = Spec.interfaceSignal ifaces.
Proof.
  destruct ifaces as [[|iface l]|]; try reflexivity.
  unfold MetricsRoute.scanInterfaces, Spec.interfaceSignal, Spec.flagSignal.
  destruct (metrics_loop_flags (iface :: l) false) as [H1 H2].
  rewrite H1. destruct (existsb (Spec.flagIs 1) (iface :: l)); [reflexivity|].
  rewrite (H2 eq_refl). reflexivity.
Qed.

End Scoring.

(** ** Tokens and value coercion *)

Section Tokens.

(** A string whose first character lowers to [u] or [d] has no numeric
    prefix. *)
Lemma lowerChar_u_or_d (c : ascii) :
  JS.lowerChar c = "u"%char \/ JS.lowerChar c = "d"%char ->
  c = "u"%char \/ c = "U"%char \/ c = "d"%char \/ c = "D"%char.
Proof.
  destruct c as [[] [] [] [] [] [] [] []]; vm_compute;
    intros [H|H]; solve [discriminate H | auto].
Qed.

Lemma parseFloat_word (c : ascii) (t : string) :
  JS.lowerChar c = "u"%char \/ JS.lowerChar c = "d"%char ->
  JS.parseFloat (String c t) = JS.NaN.
Proof.
  intros H. destruct (lowerChar_u_or_d c H) as [ -> | [ -> | [ -> | -> ] ] ]; reflexivity.
Qed.

Lemma parseFloat_up (s : string) :
  JS.toLowerCase s = "up" -> JS.parseFloat s = JS.NaN.
Proof.
  destruct s as [|c t]; [discriminate|]. cbn [JS.toLowerCase].
  intros H. injection H as Hc _. apply parseFloat_word. now left.
Qed.

Lemma parseFloat_down (s : string) :
  JS.toLowerCase s = "down" -> JS.parseFloat s = JS.NaN.
Proof.
  destruct s as [|c t]; [discriminate|]. cbn [JS.toLowerCase].
  intros H. injection H as Hc _. apply parseFloat_word. now right.
Qed.


Lemma streq_false (a b : string) : JS.streq a b = false <-> a <> b.
Proof. apply String.eqb_neq. Qed.

Lemma streq_refl (a : string) : JS.streq a a = true.
Proof. apply String.eqb_refl. Qed.

End Tokens.

Section Coercion.

Variables pos neg : string.

Lemma coerce_numeric (v : JS.jsval) :
  JS.isNaN (JS.parseFloat (JS.trim (JS.ToString v))) = false ->
  coerceStatus pos neg v
  = if JS.gt (JS.parseFloat (JS.trim (JS.ToString v))) (JS.of_Z 0) then pos else neg.
Proof. intros H. unfold coerceStatus. now rewrite H. Qed.

Lemma coerce_up (v : JS.jsval) :
  JS.toLowerCase (JS.trim (JS.ToString v)) = "up" -> coerceStatus pos neg v = pos.
Proof.
  intros H. unfold coerceStatus.
  rewrite (parseFloat_up _ H), H. cbn [JS.isNaN negb].
  now rewrite streq_refl, orb_true_r.
Qed.

Lemma coerce_down (v : JS.jsval) :
  JS.toLowerCase (JS.trim (JS.ToString v)) = "down" -> coerceStatus pos neg v = neg.
Proof.
  intros H. unfold coerceStatus.
  rewrite (parseFloat_down _ H), H. cbn [JS.isNaN negb].
  assert (E1 : JS.streq (JS.trim (JS.ToString v)) "1" = false).
  { apply streq_false. intros E. rewrite E in H. discriminate H. }
  rewrite E1. cbn [orb].
  assert (E2 : JS.streq "down" "up" = false) by reflexivity.
  rewrite E2, streq_refl. now rewrite orb_true_r.
Qed.

Lemma coerce_one (v : JS.jsval) :
  JS.trim (JS.ToString v) = "1" -> coerceStatus pos neg v = pos.
Proof. intros H. unfold coerceStatus. rewrite H. reflexivity. Qed.

Lemma coerce_zero (v : JS.jsval) :
  JS.trim (JS.ToString v) = "0" -> coerceStatus pos neg v = neg.
Proof. intros H. unfold coerceStatus. rewrite H. reflexivity. Qed.

Lemma coerce_other (v : JS.jsval) :
  JS.isNaN (JS.parseFloat (JS.trim (JS.ToString v))) = true ->
  JS.toLowerCase (JS.trim (JS.ToString v)) <> "up" ->
  JS.toLowerCase (JS.trim (JS.ToString v)) <> "down" ->
  coerceStatus pos neg v = "unknown".
Proof.
  intros HN Hu Hd. unfold coerceStatus. rewrite HN. cbn [negb].
  apply streq_false in Hu, Hd. rewrite Hu, Hd.
  assert (E1 : JS.streq (JS.trim (JS.ToString v)) "1" = false).
  { apply streq_false. intros E. rewrite E in HN. discriminate HN. }
  assert (E0 : JS.streq (JS.trim (JS.ToString v)) "0" = false).
  { apply streq_false. intros E. rewrite E in HN. discriminate HN. }
  now rewrite E1, E0.
Qed.

End Coercion.

(** ** First match, staleness, parse-or-zero *)

Section FirstMatch.

Variable p : Item -> bool.

Lemma find_first_match (pre post : list Item) (x : Item) :
  Forall (fun i => p i = false) pre -> p x = true ->
  List.find p (pre ++ x :: post) = Some x.
Proof.
  intros Hpre Hx. induction Hpre as [|y pre Hy _ IH]; cbn [app List.find].
  - now rewrite Hx.
  - now rewrite Hy.
Qed.

Lemma find_split (items : list Item) (x : Item) :
  List.find p items = Some x ->
  exists pre post, items = pre ++ x :: post
    /\ Forall (fun i => p i = false) pre /\ p x = true.
Proof.
  induction items as [|y items IH]; cbn [List.find]; [discriminate|].
  destruct (p y) eqn:Hy.
  - intros [= ->]. exists [], items. repeat split; [constructor | exact Hy].
  - intros H. destruct (IH H) as (pre & post & -> & Hpre & Hx).
    exists (y :: pre), post. repeat split; [constructor; assumption | exact Hx].
Qed.

End FirstMatch.

Lemma icmpPredicate_exact (it : Item) (k : string) :
  HostsRoute.isEnabled it = true -> key_ it = Some k ->
  JS.toLowerCase k = "icmpping" -> HostsRoute.icmpPredicate it = true.
Proof.
  intros He Hk Hl. unfold HostsRoute.icmpPredicate.
  rewrite He, Hk. cbn [JS.str_or_empty]. rewrite Hl. reflexivity.
Qed.

Lemma icmpPingPredicate_exact (it : Item) (k : string) :
  key_ it = Some k ->
  JS.toLowerCase k = "icmpping" -> MetricsRoute.icmpPingPredicate it = true.
Proof.
  intros Hk Hl. unfold MetricsRoute.icmpPingPredicate, MetricsRoute.guarded.
  rewrite Hk, Hl.
  destruct k; [discriminate Hl|]. reflexivity.
Qed.

Section Staleness.

Variables pos neg : string.
Variable currentTime : Z.

Lemma status_with_value (it : Item) :
  hasValue (lastvalue it) = true ->
  HostsRoute.itemStatus pos neg currentTime (Some it) = coerceStatus pos neg (lastvalue it).
Proof. intros H. unfold HostsRoute.itemStatus. now rewrite H. Qed.

Lemma status_without_value (it : Item) :
  hasValue (lastvalue it) = false ->
  HostsRoute.itemStatus pos neg currentTime (Some it)
  = if HostsRoute.isRecent currentTime it then "no data" else "stale data".
Proof. intros H. unfold HostsRoute.itemStatus. now rewrite H. Qed.

Lemma isRecent_threshold (it : Item) (t : Z) :
  parseIntOrZero (lastclock it) = JS.of_Z t ->
  Z.abs (currentTime - t) < 2 ^ 53 ->
  HostsRoute.isRecent currentTime it = (currentTime - t <? 600).
Proof.
  intros Ht Hb. unfold HostsRoute.isRecent, HostsRoute.ageSeconds.
  rewrite Ht, sub_int by exact Hb. apply lt_int.
Qed.

Lemma no_timestamp_parses_zero (v : JS.jsval) :
  JS.truthy v = false -> parseIntOrZero v = JS.of_Z 0.
Proof. intros H. unfold parseIntOrZero, JS.or_else. rewrite H. reflexivity. Qed.

End Staleness.

Section ParseOrZero.




End ParseOrZero.

(** ** The metrics route: every entry produced carries the reconciled verdict *)

Section MetricsRouteFacts.

Variable w : MetricsRoute.World.

Lemma metrics_directPing_never_throws (host : Host) (tr : list event) :
  exists st tr', MetricsRoute.directPing w host tr = (Ok st, tr').
Proof.
  unfold MetricsRoute.directPing.
  destruct (firstInterfaceIp host) as [ipAddress|]; [|eexists _, _; reflexivity].
  destruct (negb (JS.streq ipAddress "") && negb (JS.streq ipAddress "N/A"));
    [|eexists _, _; reflexivity].
  unfold try_catch, bind.
  destruct (pingHost_never_throws (MetricsRoute.os w) ipAddress tr) as [b ->].
  eexists _, _; reflexivity.
Qed.

Ltac next_step H :=
  match type of H with
  | context [Eff.bind ?c _ ?tr] =>
      unfold Eff.bind at 1 in H;
      destruct (c tr) as [[? | ?] ?]; [| discriminate H]
  end.

Lemma hostMetrics_status (hostId : string) (host : Host) (allItems : list Item)
    (tr tr' : list event) (entry : MetricsRoute.MetricsEntry) :
  MetricsRoute.hostMetrics w hostId host allItems tr = (Ok entry, tr') ->
  MetricsRoute.m_status entry
  = Spec.label (Spec.reconcile
      (Spec.directSignal (MetricsRoute.m_directPingStatus entry))
      (Spec.icmpSignal (MetricsRoute.m_icmpStatus entry))
      (Spec.agentSignal (MetricsRoute.agentCheckStatus entry))
      (Spec.interfaceSignal (interfaces host))).
Proof.
  unfold MetricsRoute.hostMetrics. intros H.
  do 7 next_step H.
  rewrite <- metrics_scan_signal.
  destruct (MetricsRoute.scanInterfaces (interfaces host)) as [ha hu].
  unfold Eff.ret in H. injection H as <- _.
  cbn [MetricsRoute.payload MetricsRoute.m_status MetricsRoute.m_directPingStatus
       MetricsRoute.m_icmpStatus MetricsRoute.agentCheckStatus fst snd].
  rewrite metricStatus_eq, metrics_score_eq, statusOfScore_label, hosts_score_refines.
  reflexivity.
Qed.

End MetricsRouteFacts.

(** ** The metrics route produces an entry when every item has a key and a name *)

Section MetricsFinders.

Lemma findM_quiet (p : Item -> Eff.M bool) (items : list Item) (tr : list event) :
  Forall (MetricsRoute.quiet p) items ->
  exists found, MetricsRoute.findM p items tr = (Ok found, tr).
Proof.
  intros H. induction H as [|it items Hit _ IH]; cbn [MetricsRoute.findM].
  - eexists; reflexivity.
  - destruct (Hit tr) as [b Hb]. unfold bind. rewrite Hb.
    destruct b; [eexists; reflexivity | exact IH].
Qed.

Lemma keyIncludes_quiet (it : Item) (fragment : string) :
  is_Some (key_ it) -> MetricsRoute.quiet (fun i => MetricsRoute.keyIncludes i fragment) it.
Proof.
  intros [k Hk] tr. unfold MetricsRoute.keyIncludes. rewrite Hk. eexists; reflexivity.
Qed.

Lemma nameLowerIncludes_quiet (it : Item) (fragment : string) :
  is_Some (name it) -> MetricsRoute.quiet (fun i => MetricsRoute.nameLowerIncludes i fragment) it.
Proof.
  intros [n Hn] tr. unfold MetricsRoute.nameLowerIncludes. rewrite Hn.
  eexists; reflexivity.
Qed.

Lemma orM_quiet (p q : Item -> Eff.M bool) (it : Item) :
  MetricsRoute.quiet p it -> MetricsRoute.quiet q it -> MetricsRoute.quiet (fun i => MetricsRoute.orM (p i) (q i)) it.
Proof.
  intros Hp Hq tr. unfold MetricsRoute.orM, bind.
  destruct (Hp tr) as [b ->]. destruct b; [eexists; reflexivity | apply Hq].
Qed.

Variable w : MetricsRoute.World.

Lemma hostMetrics_returns (hostId : string) (host : Host) (allItems : list Item)
    (tr : list event) :
  Forall (fun it => is_Some (key_ it) /\ is_Some (name it)) allItems ->
  exists entry tr', MetricsRoute.hostMetrics w hostId host allItems tr = (Ok entry, tr').
Proof.
  intros Hwf.
  assert (Hfind : forall p,
             (forall it, is_Some (key_ it) /\ is_Some (name it) -> MetricsRoute.quiet p it) ->
             exists found, MetricsRoute.findM p allItems tr = (Ok found, tr)).
  { intros p Hp. apply findM_quiet. eapply Forall_impl; [exact Hwf|]. exact Hp. }
  unfold MetricsRoute.hostMetrics.
  destruct (Hfind _ (fun it '(conj Hk Hn) =>
              orM_quiet _ _ it (keyIncludes_quiet it "cpu.util" Hk)
                (orM_quiet _ _ it (keyIncludes_quiet it "system.cpu" Hk)
                   (nameLowerIncludes_quiet it "cpu" Hn)))) as [cpu Hcpu].
  destruct (Hfind _ (fun it '(conj Hk Hn) =>
              orM_quiet _ _ it (keyIncludes_quiet it "memory.util" Hk)
                (orM_quiet _ _ it (keyIncludes_quiet it "vm.memory" Hk)
                   (nameLowerIncludes_quiet it "memory utilization" Hn)))) as [mem Hmem].
  destruct (Hfind _ (fun it '(conj Hk Hn) =>
              orM_quiet _ _ it (keyIncludes_quiet it "fs.pused" Hk)
                (orM_quiet _ _ it (keyIncludes_quiet it "disk" Hk)
                   (nameLowerIncludes_quiet it "disk space" Hn)))) as [disk Hdisk].
  destruct (Hfind _ (fun it '(conj Hk Hn) =>
              orM_quiet _ _ it (keyIncludes_quiet it "system.uptime" Hk)
                (orM_quiet _ _ it (keyIncludes_quiet it "uptime" Hk)
                   (nameLowerIncludes_quiet it "uptime" Hn)))) as [up Hup].
  destruct (Hfind _ (fun it '(conj Hk Hn) =>
              orM_quiet _ _ it (keyIncludes_quiet it "net.if.in" Hk)
                (nameLowerIncludes_quiet it "incoming" Hn))) as [nin Hnin].
  destruct (Hfind _ (fun it '(conj Hk Hn) =>
              orM_quiet _ _ it (keyIncludes_quiet it "net.if.out" Hk)
                (nameLowerIncludes_quiet it "outgoing" Hn))) as [nout Hnout].
  unfold MetricsRoute.cpuItem, MetricsRoute.memItem, MetricsRoute.diskItem,
    MetricsRoute.uptimeItem, MetricsRoute.netInItem, MetricsRoute.netOutItem.
  unfold bind. rewrite Hcpu, Hmem, Hdisk, Hup, Hnin, Hnout.
  destruct (metrics_directPing_never_throws w host tr) as (st & tr' & ->).
  destruct (MetricsRoute.scanInterfaces (interfaces host)) as [ha hu].
  eexists _, _. reflexivity.
Qed.

End MetricsFinders.

(** ** The routes at work on the sample data *)

Example hosts_route_run :
  match run (HostsRoute.handler
               (Sample.hostsWorld Sample.pingAnswers [Sample.host1; Sample.host2]
                  [Sample.cpuLoadItem; Sample.staleItem])
               Sample.settings) with
  | (Ok (HostsRoute.Json200 enriched), log) =>
      map HostsRoute.e_host enriched = [Sample.host1; Sample.host2]
      /\ map HostsRoute.directPingStatus enriched = ["responding"; "responding"]
      /\ map HostsRoute.e_icmpStatus enriched = ["responding"; "responding"]
      /\ map HostsRoute.e_agentStatus enriched = ["not configured"; "not configured"]
      /\ map HostsRoute.availabilityStatus enriched = ["available"; "available"]
      /\ length log = 5%nat
  | _ => False
  end.
Proof. vm_compute. repeat split; reflexivity. Qed.

Example metrics_route_run :
  fst (run (MetricsRoute.handler
              (Sample.metricsWorld Sample.noPing Sample.host2
                 [Sample.cpuLoadItem; Sample.exactItem])
              Sample.settings ["10085"]))
  = Ok (MetricsRoute.Json200
          [ {| MetricsRoute.m_hostid := "10085";
               MetricsRoute.cpuUtilization := JS.Fin (75 # 2);
               MetricsRoute.memoryUtilization := JS.Fin 0;
               MetricsRoute.diskUsage := JS.Fin 0;
               MetricsRoute.networkIn := JS.Fin 0;
               MetricsRoute.networkOut := JS.Fin 0;
               MetricsRoute.m_status := "unavailable";
               MetricsRoute.m_icmpStatus := "no response";
               MetricsRoute.agentCheckStatus := "not configured";
               MetricsRoute.m_directPingStatus := "no response" |} ]).
Proof. vm_compute. reflexivity. Qed.

(** An item without a key makes the metrics route answer 500. *)
Example metrics_route_item_without_key :
  fst (run (MetricsRoute.handler
              (Sample.metricsWorld Sample.pingAnswers Sample.host2
                 [ {| itemid := "23399"; key_ := None; name := Some "Orphan";
                      lastvalue := JS.JStr "1"; lastclock := JS.JStr "1700000000";
                      status := JS.JStr "0" |} ])
              Sample.settings ["10085"]))
  = Ok MetricsRoute.Status500.
Proof. vm_compute. reflexivity. Qed.

(* ===================================================================== *)
(** * The availability verdict *)
(* ===================================================================== *)

Lemma reconcile_of_score d i a ha hu :
  HostsRoute.statusOfScore (HostsRoute.availabilityScore d i a ha hu)
  = Spec.label (Spec.reconcile (Spec.directSignal d) (Spec.icmpSignal i)
                  (Spec.agentSignal a) (Spec.flagSignal ha hu)).
Proof. now rewrite statusOfScore_label, hosts_score_refines. Qed.

Lemma enrichHost_verdict (w : HostsRoute.World) (settings : Rpc.ZabbixSettings)
    (host : Host) (tr tr' : list event) (e : HostsRoute.Enriched) :
  HostsRoute.enrichHost w settings host tr = (Ok e, tr') ->
  HostsRoute.availabilityStatus e
  = Spec.label (Spec.reconcile
      (Spec.directSignal (HostsRoute.directPingStatus e))
      (Spec.icmpSignal (HostsRoute.e_icmpStatus e))
      (Spec.agentSignal (HostsRoute.e_agentStatus e))
      (Spec.interfaceSignal (interfaces host))).
Proof.
  intros He. destruct (enrichHost_entry w settings host tr tr' e He) as [_ Hs].
  now rewrite Hs, reconcile_of_score, hosts_scan_signal.
Qed.

(** The states that carry no weight, per signal. *)
Lemma silent_states_score_zero :
  Forall (fun d => Forall (fun i => Forall (fun a =>
      HostsRoute.availabilityScore d i a false false = 0
      /\ HostsRoute.statusOfScore (HostsRoute.availabilityScore d i a false false)
         = "unknown")
    ["unknown"; "not configured"; "no data"; "stale data"])
    ["unknown"; "not configured"; "no data"; "stale data"])
    ["unknown"; "error"; "no ip"].
Proof. repeat constructor. Qed.

(** C1: the verdict of every entry the hosts route returns for a host is
    the sign of the weighted score of the host's four signals (direct
    probe 3, remote ICMP 2, remote agent 2, interface flag 1, any other
    state 0): available above zero, unavailable below, unknown at zero;
    the route returns an entry for a host whenever the log entries of the
    items found for it can be built.  Every entry the metrics route
    produces obeys the same rule (it produces one whenever every item has
    a key and a name), and so does its status computation for arbitrary
    statuses.  With all four signals in a silent state the score is 0 and
    the verdict is unknown. *)
Theorem verdict_is_sign_of_weighted_score :
  (forall (w : HostsRoute.World) (settings : Rpc.ZabbixSettings) (host : Host)
          (tr tr' : list event) (e : HostsRoute.Enriched),
      HostsRoute.enrichHost w settings host tr = (Ok e, tr') ->
      HostsRoute.availabilityStatus e
      = Spec.label (Spec.reconcile
          (Spec.directSignal (HostsRoute.directPingStatus e))
          (Spec.icmpSignal (HostsRoute.e_icmpStatus e))
          (Spec.agentSignal (HostsRoute.e_agentStatus e))
          (Spec.interfaceSignal (interfaces host))))
  /\ (forall (w : HostsRoute.World) (settings : Rpc.ZabbixSettings) (host : Host)
             (tr : list event),
        HostsRoute.hostLoggable w settings host = true ->
        exists e tr', HostsRoute.enrichHost w settings host tr = (Ok e, tr'))
  /\ (forall (w : MetricsRoute.World) (hostId : string) (host : Host)
             (allItems : list Item) (tr tr' : list event)
             (entry : MetricsRoute.MetricsEntry),
        MetricsRoute.hostMetrics w hostId host allItems tr = (Ok entry, tr') ->
        MetricsRoute.m_status entry
        = Spec.label (Spec.reconcile
            (Spec.directSignal (MetricsRoute.m_directPingStatus entry))
            (Spec.icmpSignal (MetricsRoute.m_icmpStatus entry))
            (Spec.agentSignal (MetricsRoute.agentCheckStatus entry))
            (Spec.interfaceSignal (interfaces host))))
  /\ (forall (w : MetricsRoute.World) (hostId : string) (host : Host)
             (allItems : list Item) (tr : list event),
        Forall (fun it => is_Some (key_ it) /\ is_Some (name it)) allItems ->
        exists entry tr',
          MetricsRoute.hostMetrics w hostId host allItems tr = (Ok entry, tr'))
  /\ (forall (d i a : string) (ifaces : option (list Interface)),
        MetricsRoute.metricStatus
          (MetricsRoute.metricScore d i a
             (fst (MetricsRoute.scanInterfaces ifaces))
             (snd (MetricsRoute.scanInterfaces ifaces)))
        = Spec.label (Spec.reconcile (Spec.directSignal d) (Spec.icmpSignal i)
                        (Spec.agentSignal a) (Spec.interfaceSignal ifaces)))
  /\ Forall (fun d => Forall (fun i => Forall (fun a =>
         HostsRoute.availabilityScore d i a false false = 0
         /\ HostsRoute.statusOfScore (HostsRoute.availabilityScore d i a false false)
            = "unknown")
       ["unknown"; "not configured"; "no data"; "stale data"])
       ["unknown"; "not configured"; "no data"; "stale data"])
       ["unknown"; "error"; "no ip"].
Proof.
  split; [exact enrichHost_verdict|].
  split; [exact enrichHost_returns|].
  split; [exact hostMetrics_status|].
  split; [exact hostMetrics_returns|].
  split; [|exact silent_states_score_zero].
  intros d i a ifaces.
  now rewrite metricStatus_eq, metrics_score_eq, reconcile_of_score, metrics_scan_signal.
Qed.

(** The hosts route on [host2], whose probe is answered, whose interface
    is flagged available and whose ICMP item reports 1. *)
Lemma verdict_is_sign_of_weighted_score_witness :
  let e := {| HostsRoute.e_host := Sample.host2;
              HostsRoute.availabilityStatus := "available";
              HostsRoute.e_icmpStatus := "responding";
              HostsRoute.e_agentStatus := "not configured";
              HostsRoute.directPingStatus := "responding" |} in
  HostsRoute.enrichHost
    (Sample.hostsWorld Sample.pingAnswers [Sample.host2] [Sample.staleItem])
    Sample.settings Sample.host2 []
  = (Ok e, [EvExec "ping -c 1 -W 1 10.0.0.6";
            EvFetch (Rpc.requestOf Sample.settings "item.get"
                       (ItemGetByHost "10085" false))])
  /\ HostsRoute.availabilityStatus e
     = Spec.label (Spec.reconcile
         (Spec.directSignal (HostsRoute.directPingStatus e))
         (Spec.icmpSignal (HostsRoute.e_icmpStatus e))
         (Spec.agentSignal (HostsRoute.e_agentStatus e))
         (Spec.interfaceSignal (interfaces Sample.host2))).
Proof.
  intros e.
  assert (Hrun : HostsRoute.enrichHost
                   (Sample.hostsWorld Sample.pingAnswers [Sample.host2] [Sample.staleItem])
                   Sample.settings Sample.host2 []
                 = (Ok e, [EvExec "ping -c 1 -W 1 10.0.0.6";
                           EvFetch (Rpc.requestOf Sample.settings "item.get"
                                      (ItemGetByHost "10085" false))]))
    by (vm_compute; reflexivity).
  split; [exact Hrun|].
  exact (proj1 verdict_is_sign_of_weighted_score _ _ _ _ _ _ Hrun).
Defined.

(** C5, as amended: with the four signals all positive the score is 8
    (3 + 2 + 2 + 1) and the verdict available; with all four negative the
    score is -8 and the verdict unavailable; on both routes. *)
Theorem all_positive_eight_all_negative_minus_eight :
  (forall hasUnavailableInterface : bool,
      HostsRoute.availabilityScore "responding" "responding" "available"
        true hasUnavailableInterface = 8
      /\ MetricsRoute.metricScore "responding" "responding" "available"
           true hasUnavailableInterface = 8)
  /\ HostsRoute.statusOfScore 8 = "available"
  /\ MetricsRoute.metricStatus 8 = "available"
  /\ HostsRoute.availabilityScore "no response" "no response" "unavailable" false true = -8
  /\ MetricsRoute.metricScore "no response" "no response" "unavailable" false true = -8
  /\ HostsRoute.statusOfScore (-8) = "unavailable"
  /\ MetricsRoute.metricStatus (-8) = "unavailable"
  /\ Spec.score Spec.Positive Spec.Positive Spec.Positive Spec.Positive = 8
  /\ Spec.score Spec.Negative Spec.Negative Spec.Negative Spec.Negative = -8.
Proof.
  split; [intros hu; split; vm_compute; reflexivity|].
  repeat split; vm_compute; reflexivity.
Qed.

(** C5, as stated, fails: the scores of the two extreme cases are 8 and
    -8, not 9 and -9 (the verdicts are as stated). *)
Lemma extreme_scores_are_not_nine :
  HostsRoute.availabilityScore "responding" "responding" "available" true false <> 9
  /\ MetricsRoute.metricScore "responding" "responding" "available" true false <> 9
  /\ HostsRoute.availabilityScore "no response" "no response" "unavailable" false true <> -9
  /\ MetricsRoute.metricScore "no response" "no response" "unavailable" false true <> -9.
Proof. repeat split; vm_compute; discriminate. Qed.


(* ===================================================================== *)
(** * The item matcher *)
(* ===================================================================== *)

Lemma coerce_literal_zero (pos neg : string) : coerceStatus pos neg (JS.JStr "0") = neg.
Proof. reflexivity. Qed.

Lemma coerce_literal_one (pos neg : string) : coerceStatus pos neg (JS.JStr "1") = pos.
Proof. reflexivity. Qed.

(** C2, as stated, fails: an enabled item matched only through the name
    synonym "icmp response" and reporting 1, placed before the enabled
    exact-key [icmpping] item reporting 0, is the one selected, and the
    resolved ICMP signal is "responding". *)
Lemma name_match_placed_first_wins :
  let items := [Sample.namedItem; Sample.exactItem] in
  In Sample.exactItem items
  /\ HostsRoute.isEnabled Sample.exactItem = true
  /\ key_ Sample.exactItem = Some "icmpping"
  /\ lastvalue Sample.exactItem = JS.JStr "0"
  /\ In Sample.namedItem items
  /\ HostsRoute.isEnabled Sample.namedItem = true
  /\ JS.includes (JS.toLowerCase (JS.str_or_empty (name Sample.namedItem)))
       "icmp response" = true
  /\ lastvalue Sample.namedItem = JS.JStr "1"
  /\ HostsRoute.icmpItem items = Some Sample.namedItem
  /\ HostsRoute.icmpItem items <> Some Sample.exactItem
  /\ HostsRoute.icmpStatus Sample.now items = "responding"
  /\ match fst (run (HostsRoute.enrichHost
                       (Sample.hostsWorld Sample.pingAnswers [Sample.host1] items)
                       Sample.settings Sample.host1)) with
     | Ok e => HostsRoute.e_icmpStatus e = "responding"
     | Throw _ => False
     end.
Proof.
  cbv zeta.
  split; [right; left; reflexivity|].
  do 3 (split; [reflexivity|]).
  split; [left; reflexivity|].
  do 4 (split; [reflexivity|]).
  split; [discriminate|].
  split; vm_compute; reflexivity.
Qed.

(** C2, as amended: the matcher returns the first item, in collection
    order, that satisfies its one predicate; the alternatives of the
    predicate carry no precedence over the order of the collection.  An
    enabled item with the exact key [icmpping] and last value "0" is
    selected, and the resolved ICMP signal is "no response", when no item
    before it satisfies the predicate; and whatever item at the head of
    the collection satisfies the predicate is the one selected. *)
Theorem matcher_selects_first_match_in_order :
  forall (currentTime : Z) (pre post : list Item) (exact : Item),
    key_ exact = Some "icmpping" ->
    lastvalue exact = JS.JStr "0" ->
    (HostsRoute.isEnabled exact = true ->
     Forall (fun i => HostsRoute.icmpPredicate i = false) pre ->
     HostsRoute.icmpItem (pre ++ exact :: post) = Some exact
     /\ HostsRoute.icmpStatus currentTime (pre ++ exact :: post) = "no response")
    /\ (Forall (fun i => MetricsRoute.icmpPingPredicate i = false) pre ->
        MetricsRoute.icmpPingItem (pre ++ exact :: post) = Some exact
        /\ MetricsRoute.itemStatus "responding" "no response"
             (MetricsRoute.icmpPingItem (pre ++ exact :: post)) = "no response")
    /\ (forall other : Item,
          HostsRoute.icmpPredicate other = true ->
          HostsRoute.icmpItem (other :: pre ++ exact :: post) = Some other)
    /\ (forall (items : list Item) (x : Item),
          HostsRoute.icmpItem items = Some x ->
          exists before after,
            items = before ++ x :: after
            /\ Forall (fun i => HostsRoute.icmpPredicate i = false) before
            /\ HostsRoute.icmpPredicate x = true).
Proof.
  intros currentTime pre post exact Hk Hv.
  split; [|split; [|split]].
  - intros He Hpre.
    assert (Hsel : HostsRoute.icmpItem (pre ++ exact :: post) = Some exact).
    { apply find_first_match; [exact Hpre|].
      now apply (icmpPredicate_exact exact "icmpping"). }
    split; [exact Hsel|].
    unfold HostsRoute.icmpStatus. rewrite Hsel.
    unfold HostsRoute.itemStatus. rewrite Hv. reflexivity.
  - intros Hpre.
    assert (Hsel : MetricsRoute.icmpPingItem (pre ++ exact :: post) = Some exact).
    { apply find_first_match; [exact Hpre|].
      now apply (icmpPingPredicate_exact exact "icmpping"). }
    split; [exact Hsel|].
    rewrite Hsel. unfold MetricsRoute.itemStatus. rewrite Hv. reflexivity.
  - intros other Ho. unfold HostsRoute.icmpItem. cbn [List.find]. now rewrite Ho.
  - intros items x. apply find_split.
Qed.

(** The exact-key item behind an item that no heuristic matches. *)
Lemma matcher_selects_first_match_in_order_witness :
  HostsRoute.icmpItem ([Sample.cpuLoadItem] ++ Sample.exactItem :: [Sample.namedItem])
  = Some Sample.exactItem
  /\ HostsRoute.icmpStatus Sample.now
       ([Sample.cpuLoadItem] ++ Sample.exactItem :: [Sample.namedItem])
     = "no response".
Proof.
  apply (proj1 (matcher_selects_first_match_in_order Sample.now
                  [Sample.cpuLoadItem] [Sample.namedItem] Sample.exactItem
                  eq_refl eq_refl)).
  - reflexivity.
  - repeat constructor.
Defined.

(* ===================================================================== *)
(** * Staleness and value coercion *)
(* ===================================================================== *)

(** The staleness evaluation of the hosts route, taken by itself: an item
    is recent when its age, the clock reading minus its timestamp, is
    below 600 seconds; a missing timestamp counts as 0, so the age is the
    whole clock reading and the item is stale at every clock reading from
    600 on; an item with a value present yields the status computed from
    that value whatever its age; an item with no value yields "no data"
    when recent and "stale data" otherwise. *)
Theorem staleness_threshold_600 :
  forall (pos neg : string) (currentTime : Z) (it : Item),
    (hasValue (lastvalue it) = true ->
     HostsRoute.itemStatus pos neg currentTime (Some it)
     = coerceStatus pos neg (lastvalue it))
    /\ (hasValue (lastvalue it) = false ->
        HostsRoute.itemStatus pos neg currentTime (Some it)
        = if HostsRoute.isRecent currentTime it then "no data" else "stale data")
    /\ (forall t : Z,
          parseIntOrZero (lastclock it) = JS.of_Z t ->
          Z.abs (currentTime - t) < 2 ^ 53 ->
          HostsRoute.ageSeconds currentTime it = JS.of_Z (currentTime - t)
          /\ HostsRoute.isRecent currentTime it = (currentTime - t <? 600))
    /\ (JS.truthy (lastclock it) = false ->
        Z.abs currentTime < 2 ^ 53 ->
        HostsRoute.ageSeconds currentTime it = JS.of_Z currentTime
        /\ HostsRoute.isRecent currentTime it = (currentTime <? 600))
    /\ (JS.truthy (lastclock it) = false ->
        600 <= currentTime < 2 ^ 53 ->
        HostsRoute.isRecent currentTime it = false)
    /\ (parseIntOrZero (lastclock it) = JS.NaN ->
        HostsRoute.isRecent currentTime it = false).
Proof.
  intros pos neg currentTime it.
  split; [apply status_with_value|].
  split; [apply status_without_value|].
  assert (Hnone : JS.truthy (lastclock it) = false ->
                  Z.abs currentTime < 2 ^ 53 ->
                  HostsRoute.ageSeconds currentTime it = JS.of_Z currentTime
                  /\ HostsRoute.isRecent currentTime it = (currentTime <? 600)).
  { intros Hc Hb.
    pose proof (no_timestamp_parses_zero _ Hc) as H0.
    assert (Hb' : Z.abs (currentTime - 0) < 2 ^ 53) by now rewrite Z.sub_0_r.
    split.
    - unfold HostsRoute.ageSeconds. rewrite H0, sub_int by exact Hb'.
      now rewrite Z.sub_0_r.
    - rewrite (isRecent_threshold currentTime it 0 H0 Hb'). now rewrite Z.sub_0_r. }
  split; [|split; [|split]].
  - intros t Ht Hb. split; [|now apply isRecent_threshold].
    unfold HostsRoute.ageSeconds. rewrite Ht. now apply sub_int.
  - exact Hnone.
  - intros Hc [Hlo Hhi].
    destruct (Hnone Hc) as [_ ->]; [lia|].
    destruct (Z.ltb_spec currentTime 600); [lia | reflexivity].
  - intros Hn. unfold HostsRoute.isRecent, HostsRoute.ageSeconds. rewrite Hn. reflexivity.
Qed.

(** A stale item with a value, and items without a value: recent, stale
    and without a timestamp. *)
Lemma staleness_threshold_600_witness :
  HostsRoute.isRecent Sample.now Sample.staleItem = false
  /\ HostsRoute.itemStatus "responding" "no response" Sample.now (Some Sample.staleItem)
     = "responding"
  /\ HostsRoute.itemStatus "responding" "no response" Sample.now
       (Some (Sample.emptyItem (JS.JStr "1699999401"))) = "no data"
  /\ HostsRoute.itemStatus "responding" "no response" Sample.now
       (Some (Sample.emptyItem (JS.JStr "1699999400"))) = "stale data"
  /\ HostsRoute.itemStatus "responding" "no response" Sample.now
       (Some (Sample.emptyItem JS.JUndefined)) = "stale data".
Proof.
  pose proof (staleness_threshold_600 "responding" "no response" Sample.now) as T.
  split; [|split; [|split; [|split]]].
  - destruct (T Sample.staleItem) as (_ & _ & H3 & _).
    destruct (H3 1699990000) as [_ ->]; [reflexivity | vm_compute; reflexivity | reflexivity].
  - destruct (T Sample.staleItem) as (H1 & _). rewrite H1; reflexivity.
  - destruct (T (Sample.emptyItem (JS.JStr "1699999401"))) as (_ & H2 & H3 & _).
    rewrite H2 by reflexivity.
    destruct (H3 1699999401) as [_ ->]; [reflexivity | vm_compute; reflexivity | reflexivity].
  - destruct (T (Sample.emptyItem (JS.JStr "1699999400"))) as (_ & H2 & H3 & _).
    rewrite H2 by reflexivity.
    destruct (H3 1699999400) as [_ ->]; [reflexivity | vm_compute; reflexivity | reflexivity].
  - destruct (T (Sample.emptyItem JS.JUndefined)) as (_ & H2 & _ & _ & H5 & _).
    rewrite H2 by reflexivity.
    rewrite H5; [reflexivity | reflexivity | vm_compute; split; [discriminate | reflexivity]].
Defined.

(** C3 at an item without a timestamp.  The staleness evaluation reads a
    missing [lastclock] as 0 and would report "stale data"; but the route
    first builds the log entry of the item it found, which formats
    [parseInt(item.lastclock) * 1000] as a date, and that throws on the
    missing timestamp: the callback rejects and the whole request is
    answered with status 500.  With the timestamp "0" the route goes
    through and the item is stale. *)
Theorem item_without_timestamp_fails_hosts_route :
  let item := Sample.emptyItem JS.JUndefined in
  let w := Sample.hostsWorld Sample.pingAnswers [Sample.host1] [item] in
  let w0 := Sample.hostsWorld Sample.pingAnswers [Sample.host1]
              [Sample.emptyItem (JS.JStr "0")] in
  HostsRoute.icmpItem [item] = Some item
  /\ HostsRoute.itemStatus "responding" "no response" Sample.now (Some item)
     = "stale data"
  /\ HostsRoute.loggable (Some item) = false
  /\ fst (run (HostsRoute.enrichHost w Sample.settings Sample.host1))
     = Throw (RangeError "Invalid time value")
  /\ fst (run (HostsRoute.handler w Sample.settings)) = Ok HostsRoute.Status500
  /\ match fst (run (HostsRoute.handler w0 Sample.settings)) with
     | Ok (HostsRoute.Json200 enriched) =>
         map HostsRoute.e_icmpStatus enriched = ["stale data"]
     | _ => False
     end.
Proof. vm_compute. repeat split; reflexivity. Qed.

(** C4: for the ICMP and the agent signal alike, a present value is
    trimmed and parsed as a number first: a number above zero gives the
    positive label and any other number the negative label; only when the
    parse fails are the tokens tried, "1" or "up" (in any letter case) for
    the positive label and "0" or "down" for the negative one; any other
    text gives "unknown".  Both routes apply this rule to the item they
    found whenever its value is present. *)
Theorem value_coercion_numeric_first :
  forall (pos neg : string) (v : JS.jsval),
    let strValue := JS.trim (JS.ToString v) in
    let numValue := JS.parseFloat strValue in
    (JS.isNaN numValue = false ->
     coerceStatus pos neg v = if JS.gt numValue (JS.of_Z 0) then pos else neg)
    /\ (strValue = "1" \/ JS.toLowerCase strValue = "up" ->
        coerceStatus pos neg v = pos)
    /\ (strValue = "0" \/ JS.toLowerCase strValue = "down" ->
        coerceStatus pos neg v = neg)
    /\ (JS.isNaN numValue = true ->
        JS.toLowerCase strValue <> "up" ->
        JS.toLowerCase strValue <> "down" ->
        coerceStatus pos neg v = "unknown")
    /\ (forall (currentTime : Z) (it : Item),
          lastvalue it = v -> hasValue v = true ->
          HostsRoute.itemStatus pos neg currentTime (Some it) = coerceStatus pos neg v
          /\ MetricsRoute.itemStatus pos neg (Some it) = coerceStatus pos neg v).
Proof.
  intros pos neg v strValue numValue.
  split; [apply coerce_numeric|].
  split; [intros [H|H]; [now apply coerce_one | now apply coerce_up]|].
  split; [intros [H|H]; [now apply coerce_zero | now apply coerce_down]|].
  split; [apply coerce_other|].
  intros currentTime it <- Hv. split.
  - now apply status_with_value.
  - unfold MetricsRoute.itemStatus. now rewrite Hv.
Qed.

(** The value " Up " on the ICMP branch, and the value "2.5" on the agent
    branch. *)
Lemma value_coercion_numeric_first_witness :
  coerceStatus "responding" "no response" (JS.JStr " Up ") = "responding"
  /\ coerceStatus "available" "unavailable" (JS.JStr "2.5") = "available".
Proof.
  split.
  - apply (proj1 (proj2 (value_coercion_numeric_first
                           "responding" "no response" (JS.JStr " Up ")))).
    right. reflexivity.
  - rewrite (proj1 (value_coercion_numeric_first
                      "available" "unavailable" (JS.JStr "2.5"))) by reflexivity.
    reflexivity.
Defined.

(** The coercion on the values named by the specification. *)
Example coercion_examples :
  map (coerceStatus "responding" "no response")
    [JS.JStr "1"; JS.JStr "0"; JS.JStr "up"; JS.JStr "DOWN"; JS.JStr "0.0";
     JS.JStr "-3"; JS.JStr "12 ms"; JS.JStr "n/a"; JS.JStr " "; JS.JNum 1; JS.JNum 0]
  = ["responding"; "no response"; "responding"; "no response"; "no response";
     "no response"; "responding"; "unknown"; "unknown"; "responding"; "no response"].
Proof. vm_compute. reflexivity. Qed.

(* ===================================================================== *)
(** * Numeric fields of a metrics entry *)
(* ===================================================================== *)



(* ===================================================================== *)
(** * Probe failures *)
(* ===================================================================== *)

Section ProbeFailure.

Variable w : HostsRoute.World.
Variable settings : Rpc.ZabbixSettings.

Lemma directPing_states (host : Host) (tr : list event) :
  exists st tr',
    HostsRoute.directPing w host tr = (Ok st, tr')
    /\ (st = "responding" \/ st = "no response" \/ st = "no ip").
Proof.
  unfold HostsRoute.directPing.
  destruct (firstInterfaceIp host) as [ipAddress|]; [|eexists _, _; split; [reflexivity|auto]].
  destruct (negb (JS.streq ipAddress "") && negb (JS.streq ipAddress "N/A"));
    [|eexists _, _; split; [reflexivity|auto]].
  unfold try_catch, bind.
  destruct (pingHost_never_throws (HostsRoute.os w) ipAddress tr) as [b ->].
  eexists _, _; split; [reflexivity|]. destruct b; auto.
Qed.

Lemma directPing_exec_failure (host : Host) (ipAddress : string) (reason : string)
    (tr : list event) :
  firstInterfaceIp host = Some ipAddress ->
  ipAddress <> "" -> ipAddress <> "N/A" ->
  Probe.exec (HostsRoute.os w)
    (Probe.pingCommand (Probe.win32 (HostsRoute.os w)) ipAddress) = Rejects reason ->
  HostsRoute.directPing w host tr
  = (Ok "no response",
     tr ++ [EvExec (Probe.pingCommand (Probe.win32 (HostsRoute.os w)) ipAddress)]).
Proof.
  intros Hip H1 H2 He. unfold HostsRoute.directPing. rewrite Hip.
  apply streq_false in H1, H2. rewrite H1, H2. cbn [negb andb].
  unfold try_catch, bind. rewrite (pingHost_exec_failure _ _ _ _ He). reflexivity.
Qed.

End ProbeFailure.

Lemma pingHost_local (os1 os2 : Probe.Os) (ipAddress : string) (tr : list event) :
  Probe.win32 os1 = Probe.win32 os2 ->
  Probe.exec os1 (Probe.pingCommand (Probe.win32 os1) ipAddress)
  = Probe.exec os2 (Probe.pingCommand (Probe.win32 os2) ipAddress) ->
  Probe.pingHost os1 ipAddress tr = Probe.pingHost os2 ipAddress tr.
Proof.
  intros Hw He. unfold Probe.pingHost, try_catch, bind, perform.
  rewrite He, Hw. reflexivity.
Qed.

Lemma enrichHost_local (w1 w2 : HostsRoute.World) (settings : Rpc.ZabbixSettings)
    (host : Host) (tr : list event) :
  Probe.win32 (HostsRoute.os w1) = Probe.win32 (HostsRoute.os w2) ->
  HostsRoute.clock w1 = HostsRoute.clock w2 ->
  HostsRoute.item_get w1 = HostsRoute.item_get w2 ->
  (forall ipAddress, firstInterfaceIp host = Some ipAddress ->
     Probe.exec (HostsRoute.os w1)
       (Probe.pingCommand (Probe.win32 (HostsRoute.os w1)) ipAddress)
     = Probe.exec (HostsRoute.os w2)
         (Probe.pingCommand (Probe.win32 (HostsRoute.os w2)) ipAddress)) ->
  HostsRoute.enrichHost w1 settings host tr = HostsRoute.enrichHost w2 settings host tr.
Proof.
  intros Hw Hc Hi He.
  assert (Hd : HostsRoute.directPing w1 host tr = HostsRoute.directPing w2 host tr).
  { unfold HostsRoute.directPing.
    destruct (firstInterfaceIp host) as [ipAddress|] eqn:Hip; [|reflexivity].
    destruct (negb (JS.streq ipAddress "") && negb (JS.streq ipAddress "N/A"));
      [|reflexivity].
    unfold try_catch, bind.
    now rewrite (pingHost_local _ _ ipAddress tr Hw (He ipAddress eq_refl)). }
  unfold HostsRoute.enrichHost. unfold bind at 1 5. rewrite Hd, Hc, Hi. reflexivity.
Qed.

Lemma pingCommand_injective (isWindows : bool) (a b : string) :
  Probe.pingCommand isWindows a = Probe.pingCommand isWindows b -> a = b.
Proof.
  unfold Probe.pingCommand. destruct isWindows; cbn; intros H; injection H; auto.
Qed.

Lemma no_response_weighs_minus_three (i a : string) (ha hu : bool) :
  HostsRoute.availabilityScore "no response" i a ha hu
  = HostsRoute.availabilityScore "unknown" i a ha hu - 3.
Proof.
  rewrite !hosts_score_refines. unfold Spec.score.
  change (Spec.directSignal "no response") with Spec.Negative.
  change (Spec.directSignal "unknown") with Spec.Silent.
  cbn [Spec.weighted]. lia.
Qed.

Lemma handler_replies_with_every_host (w : HostsRoute.World)
    (settings : Rpc.ZabbixSettings) (hosts : list Host) (tr tr1 : list event) :
  Rpc.zabbixApiRequest (HostsRoute.host_get w) settings "host.get" HostGetAll tr
  = (Ok hosts, tr1) ->
  Forall (fun host => HostsRoute.hostLoggable w settings host = true) hosts ->
  exists es tr',
    HostsRoute.handler w settings tr = (Ok (HostsRoute.Json200 es), tr')
    /\ map HostsRoute.e_host es = hosts.
Proof.
  intros Hh Hall. unfold HostsRoute.handler, try_catch. unfold bind at 1. rewrite Hh.
  destruct (enrich_all_returns w settings hosts tr1 Hall) as (es & tr2 & Hes & Hm).
  unfold bind. rewrite Hes. exists es, tr2. split; [reflexivity | exact Hm].
Qed.

(** Whether the log entries can be built is decided by the items alone:
    the probes play no part in it. *)
Lemma hostLoggable_whatever_the_probes (w1 w2 : HostsRoute.World)
    (settings : Rpc.ZabbixSettings) (host : Host) :
  HostsRoute.item_get w1 = HostsRoute.item_get w2 ->
  HostsRoute.hostLoggable w1 settings host = HostsRoute.hostLoggable w2 settings host.
Proof.
  intros Hi. unfold HostsRoute.hostLoggable, HostsRoute.itemsOf. now rewrite Hi.
Qed.

(** C6, as stated, fails: on a machine where [ping] cannot be started,
    the direct-probe status of a host is "no response", not an unknown
    state; it weighs -3, and with nothing else known about the host the
    verdict is "unavailable". *)
Lemma probe_execution_failure_is_not_unknown :
  Probe.exec Sample.noPing (Probe.pingCommand false "10.0.0.5")
  = Rejects "spawn ping ENOENT"
  /\ fst (HostsRoute.enrichHost (Sample.hostsWorld Sample.noPing [Sample.host1] [])
            Sample.settings Sample.host1 [])
     = Ok {| HostsRoute.e_host := Sample.host1;
             HostsRoute.availabilityStatus := "unavailable";
             HostsRoute.e_icmpStatus := "not configured";
             HostsRoute.e_agentStatus := "not configured";
             HostsRoute.directPingStatus := "no response" |}
  /\ HostsRoute.availabilityScore "no response" "not configured" "not configured"
       false false = -3
  /\ HostsRoute.availabilityScore "no response" "not configured" "not configured"
       false false <> 0.
Proof.
  split; [reflexivity|]. split; [vm_compute; reflexivity|].
  split; [vm_compute; reflexivity | vm_compute; discriminate].
Qed.

(** C6, as amended: the prober catches every failure of its command and
    returns [false]; it never throws.  A probe that cannot be executed
    therefore gives that host the direct-probe status "no response",
    which weighs -3, exactly as an unreachable host does.  The failure is
    not fatal: every host of the batch gets its entry whenever the log
    entries of the items found can be built, a condition in which the
    probes play no part; and what the callback does for a host does not
    depend on the outcome of the probes of other addresses. *)
Theorem probe_failure_reported_as_no_response :
  forall (w : HostsRoute.World) (settings : Rpc.ZabbixSettings),
    (forall (ipAddress : string) (tr : list event),
        exists b : bool,
          Probe.pingHost (HostsRoute.os w) ipAddress tr
          = (Ok b, tr ++ [EvExec (Probe.pingCommand
                                    (Probe.win32 (HostsRoute.os w)) ipAddress)]))
    /\ (forall (host : Host) (ipAddress reason : string) (tr : list event),
          firstInterfaceIp host = Some ipAddress ->
          ipAddress <> "" -> ipAddress <> "N/A" ->
          Probe.exec (HostsRoute.os w)
            (Probe.pingCommand (Probe.win32 (HostsRoute.os w)) ipAddress)
          = Rejects reason ->
          HostsRoute.directPing w host tr
          = (Ok "no response",
             tr ++ [EvExec (Probe.pingCommand
                              (Probe.win32 (HostsRoute.os w)) ipAddress)]))
    /\ (forall (host : Host) (tr : list event),
          exists st tr',
            HostsRoute.directPing w host tr = (Ok st, tr')
            /\ (st = "responding" \/ st = "no response" \/ st = "no ip"))
    /\ (forall (i a : string) (ha hu : bool),
          HostsRoute.availabilityScore "no response" i a ha hu
          = HostsRoute.availabilityScore "unknown" i a ha hu - 3)
    /\ (forall (hosts : list Host) (tr : list event),
          Forall (fun host => HostsRoute.hostLoggable w settings host = true) hosts ->
          exists es tr',
            promise_all_map (HostsRoute.enrichHost w settings) hosts tr = (Ok es, tr')
            /\ map HostsRoute.e_host es = hosts)
    /\ (forall (w2 : HostsRoute.World) (host : Host),
          HostsRoute.item_get w = HostsRoute.item_get w2 ->
          HostsRoute.hostLoggable w settings host
          = HostsRoute.hostLoggable w2 settings host)
    /\ (forall (w2 : HostsRoute.World) (host : Host) (tr : list event),
          Probe.win32 (HostsRoute.os w) = Probe.win32 (HostsRoute.os w2) ->
          HostsRoute.clock w = HostsRoute.clock w2 ->
          HostsRoute.item_get w = HostsRoute.item_get w2 ->
          (forall ipAddress, firstInterfaceIp host = Some ipAddress ->
             Probe.exec (HostsRoute.os w)
               (Probe.pingCommand (Probe.win32 (HostsRoute.os w)) ipAddress)
             = Probe.exec (HostsRoute.os w2)
                 (Probe.pingCommand (Probe.win32 (HostsRoute.os w2)) ipAddress)) ->
          HostsRoute.enrichHost w settings host tr
          = HostsRoute.enrichHost w2 settings host tr).
Proof.
  intros w settings.
  split; [apply pingHost_never_throws|].
  split; [apply directPing_exec_failure|].
  split; [apply directPing_states|].
  split; [apply no_response_weighs_minus_three|].
  split; [apply enrich_all_returns|].
  split; [intros w2 host; apply hostLoggable_whatever_the_probes|].
  intros w2 host tr. apply enrichHost_local.
Qed.

(** The host at 10.0.0.5 on the machine without [ping]. *)
Lemma probe_failure_reported_as_no_response_witness :
  HostsRoute.directPing (Sample.hostsWorld Sample.noPing [Sample.host1] [])
    Sample.host1 []
  = (Ok "no response", [EvExec "ping -c 1 -W 1 10.0.0.5"]).
Proof.
  apply (proj1 (proj2 (probe_failure_reported_as_no_response
                         (Sample.hostsWorld Sample.noPing [Sample.host1] [])
                         Sample.settings))
           Sample.host1 "10.0.0.5" "spawn ping ENOENT" []).
  - reflexivity.
  - discriminate.
  - discriminate.
  - reflexivity.
Defined.

(* ===================================================================== *)
(** * The JSON-RPC helper: failures *)
(* ===================================================================== *)


(** C9, as amended: once [fetch] has resolved with a response, the call
    fails with the transport error exactly when the status is outside
    200..299; it fails with the protocol error exactly when the status is
    inside 200..299 and the decoded envelope carries an error object, and
    the message then shows [error.data], or [error.message] when
    [error.data] is absent or empty; it returns the envelope's result
    exactly when the status is inside 200..299 and the decoded envelope
    carries no error object.  A rejected [fetch] or a body that cannot be
    decoded makes the call fail with that rejection. *)
Theorem rpc_failures_by_status_then_envelope :
  forall (R : Type) (fetch : Rpc.Fetch R) (settings : Rpc.ZabbixSettings)
         (method : string) (params : RpcParams) (tr : list event),
    let out := fst (Rpc.zabbixApiRequest fetch settings method params tr) in
    (forall reason : string,
        fetch (Rpc.requestOf settings method params) = Rejects reason ->
        out = Throw (Rejected reason))
    /\ (forall response : Rpc.Response R,
          fetch (Rpc.requestOf settings method params) = Resolved response ->
          (Rpc.ok response = true <-> 200 <= Rpc.resp_status response <= 299)
          /\ ((exists e, out = Throw e /\ Rpc.isTransportError e)
              <-> Rpc.ok response = false)
          /\ (Rpc.ok response = false ->
              out = Throw (Error ("Zabbix API request failed: "
                                  +:+ Rpc.resp_statusText response)))
          /\ ((exists e, out = Throw e /\ Rpc.isProtocolError e)
              <-> Rpc.ok response = true
                  /\ exists data err,
                       Rpc.resp_json response = Resolved data
                       /\ Rpc.env_error data = Some err)
          /\ (forall data err,
                Rpc.ok response = true ->
                Rpc.resp_json response = Resolved data ->
                Rpc.env_error data = Some err ->
                out = Throw (Error ("Zabbix API error: " +:+
                        JS.ToString (if JS.truthy (Rpc.err_data err)
                                     then Rpc.err_data err
                                     else Rpc.err_message err))))
          /\ (forall result : R,
                out = Ok result
                <-> Rpc.ok response = true
                    /\ exists data,
                         Rpc.resp_json response = Resolved data
                         /\ Rpc.env_error data = None
                         /\ Rpc.env_result data = result)
          /\ (forall reason : string,
                Rpc.ok response = true ->
                Rpc.resp_json response = Rejects reason ->
                out = Throw (Rejected reason))).
Proof.
  intros R fetch settings method params tr out.
  split; [intros reason; apply request_fetch_rejected|].
  intros response Hf.
  split; [apply ok_iff_2xx|].
  assert (Hcases :
    (Rpc.ok response = false /\
     out = Throw (Error ("Zabbix API request failed: " +:+ Rpc.resp_statusText response)))
    \/ (Rpc.ok response = true /\ exists reason,
          Rpc.resp_json response = Rejects reason /\ out = Throw (Rejected reason))
    \/ (Rpc.ok response = true /\ exists data err,
          Rpc.resp_json response = Resolved data /\ Rpc.env_error data = Some err
          /\ out = Throw (Error ("Zabbix API error: " +:+
                     JS.ToString (if JS.truthy (Rpc.err_data err)
                                  then Rpc.err_data err else Rpc.err_message err))))
    \/ (Rpc.ok response = true /\ exists data,
          Rpc.resp_json response = Resolved data /\ Rpc.env_error data = None
          /\ out = Ok (Rpc.env_result data))).
  { destruct (Rpc.ok response) eqn:Hok.
    - right. destruct (Rpc.resp_json response) as [data|reason] eqn:Hj.
      + destruct (Rpc.env_error data) as [err|] eqn:He.
        * right; left. split; [reflexivity|]. exists data, err.
          repeat split; try assumption.
          exact (request_error_object fetch settings method params tr response data err
                   Hf Hok Hj He).
        * right; right. split; [reflexivity|]. exists data.
          repeat split; try assumption.
          exact (request_result fetch settings method params tr response data
                   Hf Hok Hj He).
      + left. split; [reflexivity|]. exists reason. split; [reflexivity|].
        exact (request_body_rejected fetch settings method params tr response reason
                 Hf Hok Hj).
    - left. split; [reflexivity|].
      exact (request_non_2xx fetch settings method params tr response Hf Hok). }
  split; [|split; [|split; [|split; [|split]]]].
  - split.
    + intros (e & He & Ht).
      destruct Hcases as [[Hok _]|[(Hok & r & _ & Ho)|[(Hok & d & err & _ & _ & Ho)|(Hok & d & _ & _ & Ho)]]];
        [exact Hok| | |]; rewrite Ho in He.
      * injection He as <-. now destruct (rejected_is_neither r) as [Hn _].
      * injection He as <-. exfalso. apply (transport_is_not_protocol _ Ht). now eexists.
      * discriminate He.
    + intros Hok. eexists. split;
        [exact (request_non_2xx fetch settings method params tr response Hf Hok)|].
      now eexists.
  - intros Hok. exact (request_non_2xx fetch settings method params tr response Hf Hok).
  - split.
    + intros (e & He & Hp).
      destruct Hcases as [[Hok Ho]|[(Hok & r & _ & Ho)|[(Hok & d & err & Hj & Herr & Ho)|(Hok & d & _ & _ & Ho)]]];
        rewrite Ho in He.
      * injection He as <-. exfalso. apply (transport_is_not_protocol _ (ex_intro _ _ eq_refl) Hp).
      * injection He as <-. now destruct (rejected_is_neither r) as [_ Hn].
      * split; [exact Hok|]. now exists d, err.
      * discriminate He.
    + intros (Hok & data & err & Hj & He). eexists. split;
        [exact (request_error_object fetch settings method params tr response data err
                  Hf Hok Hj He)|].
      now eexists.
  - intros data err Hok Hj He.
    exact (request_error_object fetch settings method params tr response data err
             Hf Hok Hj He).
  - intros result. split.
    + intros He.
      destruct Hcases as [[Hok Ho]|[(Hok & r & _ & Ho)|[(Hok & d & err & Hj & Herr & Ho)|(Hok & d & Hj & Hn & Ho)]]];
        rewrite Ho in He; try discriminate He.
      injection He as <-. split; [exact Hok|]. now exists d.
    + intros (Hok & data & Hj & He & <-).
      exact (request_result fetch settings method params tr response data Hf Hok Hj He).
  - intros reason Hok Hj.
    exact (request_body_rejected fetch settings method params tr response reason
             Hf Hok Hj).
Qed.

(** A 200 reply whose envelope carries an error object without detail:
    the protocol error shows the generic message. *)
Lemma rpc_failures_by_status_then_envelope_witness :
  fst (Rpc.zabbixApiRequest (fun _ => Resolved Sample.errorReply200)
         Sample.settings "host.get" HostGetAll [])
  = Throw (Error "Zabbix API error: Invalid params.").
Proof.
  destruct (rpc_failures_by_status_then_envelope (list Host)
              (fun _ => Resolved Sample.errorReply200)
              Sample.settings "host.get" HostGetAll []) as [_ H].
  destruct (H Sample.errorReply200 eq_refl) as (_ & _ & _ & _ & Hmsg & _).
  exact (Hmsg _ _ eq_refl eq_refl eq_refl).
Defined.

(** C9, as stated, fails: a reply with status 500 whose body is an
    envelope with an error object makes the call fail with the transport
    error, not the protocol error; and a reply with status 200 whose body
    cannot be decoded makes the call fail although the status is 2xx and
    no envelope carries an error object. *)
Lemma non_2xx_reply_with_error_envelope :
  (exists data err,
      Rpc.resp_json Sample.errorReply500 = Resolved data
      /\ Rpc.env_error data = Some err)
  /\ fst (Rpc.zabbixApiRequest (fun _ => Resolved Sample.errorReply500)
            Sample.settings "host.get" HostGetAll [])
     = Throw (Error "Zabbix API request failed: Internal Server Error")
  /\ ~ Rpc.isProtocolError (Error "Zabbix API request failed: Internal Server Error")
  /\ Rpc.ok Sample.htmlReply200 = true
  /\ fst (Rpc.zabbixApiRequest (fun _ => Resolved Sample.htmlReply200)
            Sample.settings "host.get" HostGetAll [])
     = Throw (Rejected "Unexpected token < in JSON at position 0").
Proof.
  split; [eexists _, _; split; reflexivity|].
  split; [reflexivity|].
  split; [intros [detail H]; cbn in H; discriminate H|].
  split; reflexivity.
Qed.

(* ===================================================================== *)
(** * Problems and their hosts *)
(* ===================================================================== *)

Section TriggerMap.

Import ProblemsRoute.




Variable w : World.
Variable settings : Rpc.ZabbixSettings.



End TriggerMap.




(* ===================================================================== *)
(** * The score: range and the weight of the direct probe *)
(* ===================================================================== *)

(** Case analysis on the states of the three status texts. *)
Ltac signal_cases d i a :=
  unfold HostsRoute.availabilityScore, JS.streq;
  destruct (String.eqb_spec d "responding");
  destruct (String.eqb_spec d "no response");
  destruct (String.eqb_spec i "responding");
  destruct (String.eqb_spec i "no response");
  destruct (String.eqb_spec a "available");
  destruct (String.eqb_spec a "unavailable");
  try (exfalso; congruence).

Lemma statusOfScore_unavailable (z : Z) :
  HostsRoute.statusOfScore z = "unavailable" <-> z < 0.
Proof.
  unfold HostsRoute.statusOfScore.
  destruct (Z.ltb_spec 0 z); [split; [discriminate|lia]|].
  destruct (Z.ltb_spec z 0); [split; [lia|reflexivity]|split; [discriminate|lia]].
Qed.

Lemma statusOfScore_available (z : Z) :
  HostsRoute.statusOfScore z = "available" <-> 0 < z.
Proof.
  unfold HostsRoute.statusOfScore.
  destruct (Z.ltb_spec 0 z); [split; [lia|reflexivity]|].
  destruct (Z.ltb_spec z 0); split; try discriminate; lia.
Qed.

(** X1: whatever the four status inputs are, the score of either route
    lies between -8 and 8; it is 8 exactly when the direct probe and the
    ICMP item are "responding", the agent item is "available" and an
    interface is flagged available, and -8 exactly when the three texts
    are "no response", "no response", "unavailable" and an interface is
    flagged unavailable while none is flagged available. *)
Theorem score_between_minus_eight_and_eight :
  forall (d i a : string) (ha hu : bool),
    let score := HostsRoute.availabilityScore d i a ha hu in
    -8 <= score <= 8
    /\ MetricsRoute.metricScore d i a ha hu = score
    /\ (score = 8 <->
        d = "responding" /\ i = "responding" /\ a = "available" /\ ha = true)
    /\ (score = -8 <->
        d = "no response" /\ i = "no response" /\ a = "unavailable"
        /\ ha = false /\ hu = true).
Proof.
  intros d i a ha hu score. subst score.
  split; [|split; [reflexivity|split]].
  - signal_cases d i a; destruct ha, hu; lia.
  - signal_cases d i a; destruct ha, hu; cbn; split;
      try (intros H; exfalso; lia);
      try (intros (? & ? & ? & ?); exfalso; congruence);
      try (intros _; repeat split; congruence); try lia.
  - signal_cases d i a; destruct ha, hu; cbn; split;
      try (intros H; exfalso; lia);
      try (intros (? & ? & ? & ? & ?); exfalso; congruence);
      try (intros _; repeat split; congruence); try lia.
Qed.

(** X2: a direct probe that answered is overridden, that is the verdict
    is "unavailable", exactly when the ICMP item reports "no response",
    the agent item "unavailable" and no interface is flagged available;
    a direct probe that got no answer is overridden to "available"
    exactly when both items are positive and the interface flags are not
    negative.  The same holds on the metrics route. *)
Theorem probe_overridden_only_by_both_remote_checks :
  forall (i a : string) (ha hu : bool),
    (HostsRoute.statusOfScore (HostsRoute.availabilityScore "responding" i a ha hu)
     = "unavailable"
     <-> i = "no response" /\ a = "unavailable" /\ ha = false)
    /\ (HostsRoute.statusOfScore (HostsRoute.availabilityScore "no response" i a ha hu)
        = "available"
        <-> i = "responding" /\ a = "available" /\ (ha = true \/ hu = false))
    /\ MetricsRoute.metricStatus (MetricsRoute.metricScore "responding" i a ha hu)
       = HostsRoute.statusOfScore (HostsRoute.availabilityScore "responding" i a ha hu)
    /\ MetricsRoute.metricStatus (MetricsRoute.metricScore "no response" i a ha hu)
       = HostsRoute.statusOfScore (HostsRoute.availabilityScore "no response" i a ha hu).
Proof.
  intros i a ha hu.
  split; [|split; [|split; reflexivity]].
  - rewrite statusOfScore_unavailable.
    signal_cases "responding" i a; destruct ha, hu; cbn; split;
      try (intros H; exfalso; lia);
      try (intros (? & ? & ?); exfalso; congruence);
      try (intros _; repeat split; congruence); try lia.
  - rewrite statusOfScore_available.
    signal_cases "no response" i a; destruct ha, hu; cbn; split;
      try (intros H; exfalso; lia);
      try (intros (? & ? & [?|?]); exfalso; congruence);
      try (intros _; repeat split; auto; congruence); try lia.
Qed.

(* ===================================================================== *)
(** * The hosts route: items, failures and outbound calls *)
(* ===================================================================== *)

Lemma coerceStatus_range (pos neg : string) (v : JS.jsval) :
  coerceStatus pos neg v = pos \/ coerceStatus pos neg v = neg
  \/ coerceStatus pos neg v = "unknown".
Proof.
  unfold coerceStatus.
  destruct (negb _).
  - destruct (JS.gt _ _); auto.
  - destruct (_ || _); auto. destruct (_ || _); auto.
Qed.

Lemma hosts_itemStatus_not_configured (pos neg : string) (t : Z) (found : option Item) :
  pos <> "not configured" -> neg <> "not configured" ->
  (HostsRoute.itemStatus pos neg t found = "not configured" <-> found = None).
Proof.
  intros Hp Hn. unfold HostsRoute.itemStatus.
  destruct found as [it|]; [|split; reflexivity].
  split; [|discriminate]. intros H. exfalso.
  destruct (hasValue (lastvalue it)).
  - destruct (coerceStatus_range pos neg (lastvalue it)) as [E|[E|E]];
      rewrite E in H; try congruence; discriminate.
  - destruct (HostsRoute.isRecent t it); discriminate.
Qed.

Lemma find_none_iff {A} (p : A -> bool) (l : list A) :
  List.find p l = None <-> Forall (fun x => p x = false) l.
Proof.
  induction l as [|x l IH]; cbn.
  - split; [constructor|reflexivity].
  - destruct (p x) eqn:E.
    + split; [discriminate|]. intros H. inversion H; congruence.
    + rewrite IH. split; [now constructor|]. intros H. now inversion H.
Qed.

(** X3: on the hosts route a remote signal is "not configured" exactly
    when no item of the host satisfies the predicate of that signal; the
    item found for a signal is an enabled item of the list, so a host
    whose items are all disabled has both signals "not configured". *)
Theorem not_configured_iff_no_enabled_item_matches :
  forall (currentTime : Z) (items : list Item),
    (HostsRoute.icmpStatus currentTime items = "not configured"
     <-> Forall (fun it => HostsRoute.icmpPredicate it = false) items)
    /\ (HostsRoute.agentStatus currentTime items = "not configured"
        <-> Forall (fun it => HostsRoute.agentPredicate it = false) items)
    /\ (forall it, HostsRoute.icmpItem items = Some it ->
                   In it items /\ HostsRoute.isEnabled it = true)
    /\ (forall it, HostsRoute.agentItem items = Some it ->
                   In it items /\ HostsRoute.isEnabled it = true)
    /\ (Forall (fun it => HostsRoute.isEnabled it = false) items ->
        HostsRoute.icmpStatus currentTime items = "not configured"
        /\ HostsRoute.agentStatus currentTime items = "not configured").
Proof.
  intros t items.
  assert (Hi : HostsRoute.icmpStatus t items = "not configured"
               <-> Forall (fun it => HostsRoute.icmpPredicate it = false) items).
  { unfold HostsRoute.icmpStatus.
    rewrite hosts_itemStatus_not_configured by discriminate.
    apply find_none_iff. }
  assert (Ha : HostsRoute.agentStatus t items = "not configured"
               <-> Forall (fun it => HostsRoute.agentPredicate it = false) items).
  { unfold HostsRoute.agentStatus.
    rewrite hosts_itemStatus_not_configured by discriminate.
    apply find_none_iff. }
  split; [exact Hi|]. split; [exact Ha|].
  split; [|split].
  - intros it H. apply List.find_some in H as [Hin Hp]. split; [exact Hin|].
    unfold HostsRoute.icmpPredicate in Hp. now apply andb_true_iff in Hp as [? _].
  - intros it H. apply List.find_some in H as [Hin Hp]. split; [exact Hin|].
    unfold HostsRoute.agentPredicate in Hp. now apply andb_true_iff in Hp as [? _].
  - intros Hall. split; [apply Hi | apply Ha];
      (eapply Forall_impl; [exact Hall|]); cbn; intros it Hen;
      [unfold HostsRoute.icmpPredicate | unfold HostsRoute.agentPredicate];
      now rewrite Hen.
Qed.

Lemma directPing_log (w : HostsRoute.World) (host : Host) (tr : list event) :
  exists st,
    HostsRoute.directPing w host tr
    = (Ok st, tr ++ Outbound.probeCalls (HostsRoute.os w) host).
Proof.
  unfold HostsRoute.directPing, Outbound.probeCalls, Outbound.probedAddress.
  destruct (firstInterfaceIp host) as [ipAddress|];
    [|exists "no ip"; now rewrite app_nil_r].
  destruct (negb (JS.streq ipAddress "") && negb (JS.streq ipAddress "N/A"));
    [|exists "no ip"; now rewrite app_nil_r].
  unfold try_catch, bind.
  destruct (pingHost_never_throws (HostsRoute.os w) ipAddress tr) as [b ->].
  eexists; reflexivity.
Qed.

Lemma enrichHost_log (w : HostsRoute.World) (settings : Rpc.ZabbixSettings)
    (host : Host) (tr : list event) :
  snd (HostsRoute.enrichHost w settings host tr)
  = tr ++ Outbound.hostCalls w settings host.
Proof.
  destruct (enrichHost_outcome w settings host tr) as (st & tr1 & Hd & ->).
  destruct (directPing_log w host tr) as [st' Hd']. rewrite Hd' in Hd.
  injection Hd as _ <-. cbn [snd]. unfold Outbound.hostCalls. now rewrite app_assoc.
Qed.

Lemma promise_all_map_log {A B} (f : A -> Eff.M B) (calls : A -> list event)
    (xs : list A) :
  (forall x tr, snd (f x tr) = tr ++ calls x) ->
  forall tr, snd (promise_all_map f xs tr) = tr ++ flat_map calls xs.
Proof.
  intros Hf. induction xs as [|x xs IH]; intros tr; cbn [promise_all_map flat_map].
  - cbn. now rewrite app_nil_r.
  - specialize (Hf x tr). destruct (f x tr) as [r tr1]. cbn [snd] in Hf. subst tr1.
    specialize (IH (tr ++ calls x)).
    destruct (promise_all_map f xs (tr ++ calls x)) as [rs tr2]. cbn [snd] in *.
    subst tr2. now rewrite app_assoc.
Qed.

(** X4: when the item request of a host fails, the hosts route keeps
    going with no items for that host: the host gets its entry, both
    remote signals are "not configured", and the verdict is that of the
    direct probe and the interface flags alone. *)
Theorem hosts_route_survives_item_request_failure :
  forall (w : HostsRoute.World) (settings : Rpc.ZabbixSettings) (host : Host)
         (e : exn) (tr : list event),
    fst (Rpc.zabbixApiRequest (HostsRoute.item_get w) settings "item.get"
           (ItemGetByHost (hostid host) false) []) = Throw e ->
    exists st,
      HostsRoute.enrichHost w settings host tr
      = (Ok {| HostsRoute.e_host := host;
               HostsRoute.availabilityStatus :=
                 HostsRoute.statusOfScore
                   (HostsRoute.availabilityScore st "not configured" "not configured"
                      (fst (HostsRoute.scanInterfaces (interfaces host)))
                      (snd (HostsRoute.scanInterfaces (interfaces host))));
               HostsRoute.e_icmpStatus := "not configured";
               HostsRoute.e_agentStatus := "not configured";
               HostsRoute.directPingStatus := st |},
         tr ++ Outbound.hostCalls w settings host).
Proof.
  intros w settings host e tr He.
  destruct (enrichHost_outcome w settings host tr) as (st & tr1 & Hd & Hrun).
  destruct (directPing_log w host tr) as [st' Hd']. rewrite Hd' in Hd.
  injection Hd as -> <-.
  exists st. rewrite Hrun.
  unfold HostsRoute.hostLoggable, HostsRoute.itemsOf. rewrite He.
  cbn. unfold Outbound.hostCalls. now rewrite app_assoc.
Qed.

(** Host 10084 when the item requests fail: the probe is answered and
    the interface flag is 0, so the verdict is "available" on the probe
    alone. *)
Lemma hosts_route_survives_item_request_failure_witness :
  exists st,
    HostsRoute.enrichHost Fixture.itemsDown Sample.settings Sample.host1 []
    = (Ok {| HostsRoute.e_host := Sample.host1;
             HostsRoute.availabilityStatus :=
               HostsRoute.statusOfScore
                 (HostsRoute.availabilityScore st "not configured" "not configured"
                    (fst (HostsRoute.scanInterfaces (interfaces Sample.host1)))
                    (snd (HostsRoute.scanInterfaces (interfaces Sample.host1))));
             HostsRoute.e_icmpStatus := "not configured";
             HostsRoute.e_agentStatus := "not configured";
             HostsRoute.directPingStatus := st |},
       [] ++ Outbound.hostCalls Fixture.itemsDown Sample.settings Sample.host1).
Proof.
  assert (Hfail : fst (Rpc.zabbixApiRequest (HostsRoute.item_get Fixture.itemsDown)
                         Sample.settings "item.get"
                         (ItemGetByHost (hostid Sample.host1) false) [])
                  = Throw (Rejected "fetch failed"))
    by (vm_compute; reflexivity).
  exact (hosts_route_survives_item_request_failure
           Fixture.itemsDown Sample.settings Sample.host1 _ [] Hfail).
Defined.

Lemma hosts_route_calls_log (w : HostsRoute.World) (settings : Rpc.ZabbixSettings)
    (tr : list event) :
  snd (HostsRoute.handler w settings tr)
  = tr ++ EvFetch (Rpc.requestOf settings "host.get" HostGetAll)
       :: match fst (Rpc.zabbixApiRequest (HostsRoute.host_get w) settings
                       "host.get" HostGetAll []) with
          | Ok hosts => flat_map (Outbound.hostCalls w settings) hosts
          | Throw _ => []
          end.
Proof.
  pose proof (zabbixApiRequest_log (HostsRoute.host_get w) settings "host.get"
                HostGetAll tr) as Hlog.
  pose proof (zabbixApiRequest_outcome_any_record (HostsRoute.host_get w) settings
                "host.get" HostGetAll tr) as Hout.
  unfold HostsRoute.handler, try_catch. unfold bind at 1.
  destruct (Rpc.zabbixApiRequest (HostsRoute.host_get w) settings "host.get"
              HostGetAll tr) as [[hosts|e] tr1]; cbn [fst snd] in *;
    subst tr1; rewrite <- Hout.
  - pose proof (promise_all_map_log (HostsRoute.enrichHost w settings)
                  (Outbound.hostCalls w settings) hosts
                  (enrichHost_log w settings)
                  (tr ++ [EvFetch (Rpc.requestOf settings "host.get" HostGetAll)]))
      as Hall.
    unfold bind.
    destruct (promise_all_map _ hosts _) as [[es|e] tr2]; cbn [snd] in *; subst tr2;
      now rewrite <- app_assoc.
  - reflexivity.
Qed.




Lemma enrich_all_outcome (w : HostsRoute.World) (settings : Rpc.ZabbixSettings)
    (hosts : list Host) (tr : list event) :
  if forallb (HostsRoute.hostLoggable w settings) hosts
  then exists es,
         fst (promise_all_map (HostsRoute.enrichHost w settings) hosts tr) = Ok es
         /\ map HostsRoute.e_host es = hosts
  else fst (promise_all_map (HostsRoute.enrichHost w settings) hosts tr)
       = Throw (RangeError "Invalid time value").
Proof.
  revert tr. induction hosts as [|h hosts IH]; intros tr.
  - exists []. split; reflexivity.
  - cbn [forallb promise_all_map].
    destruct (enrichHost_outcome w settings h tr) as (st & tr1 & _ & Hrun).
    rewrite Hrun. specialize (IH (tr1 ++ [EvFetch (Rpc.requestOf settings "item.get"
                                             (ItemGetByHost (hostid h) false))])).
    destruct (promise_all_map (HostsRoute.enrichHost w settings) hosts _)
      as [rs tr2]. cbn [fst] in IH.
    destruct (HostsRoute.hostLoggable w settings h); cbn [andb fst]; [|reflexivity].
    destruct (forallb (HostsRoute.hostLoggable w settings) hosts).
    + destruct IH as (es & -> & Hm). eexists. split; [reflexivity|].
      cbn [map HostsRoute.e_host]. now rewrite Hm.
    + now rewrite IH.
Qed.

(** X16: once the settings are read, the hosts route answers with the
    list of hosts, one entry per host of the server's reply and in its
    order, exactly when the [host.get] request succeeds and the log entry
    of every item found can be built for every host; in every other case
    (the request fails, or one host has a found item whose timestamp is
    missing or not a valid time) it answers with status 500 and delivers
    no host at all. *)
Theorem hosts_route_answers_200_exactly_when :
  forall (w : HostsRoute.World) (settings : Rpc.ZabbixSettings) (tr : list event),
    match fst (Rpc.zabbixApiRequest (HostsRoute.host_get w) settings
                 "host.get" HostGetAll []) with
    | Ok hosts =>
        if forallb (HostsRoute.hostLoggable w settings) hosts
        then exists es,
               fst (HostsRoute.handler w settings tr) = Ok (HostsRoute.Json200 es)
               /\ map HostsRoute.e_host es = hosts
        else fst (HostsRoute.handler w settings tr) = Ok HostsRoute.Status500
    | Throw _ => fst (HostsRoute.handler w settings tr) = Ok HostsRoute.Status500
    end.
Proof.
  intros w settings tr.
  pose proof (zabbixApiRequest_outcome_any_record (HostsRoute.host_get w) settings
                "host.get" HostGetAll tr) as Hout.
  unfold HostsRoute.handler, try_catch. unfold bind at 1 3 5.
  destruct (Rpc.zabbixApiRequest (HostsRoute.host_get w) settings "host.get"
              HostGetAll tr) as [[hosts|e] tr1]; cbn [fst] in Hout; rewrite <- Hout;
    [|reflexivity].
  pose proof (enrich_all_outcome w settings hosts tr1) as Hall.
  unfold bind.
  destruct (promise_all_map (HostsRoute.enrichHost w settings) hosts tr1)
    as [rs tr2]. cbn [fst] in Hall.
  destruct (forallb (HostsRoute.hostLoggable w settings) hosts).
  - destruct Hall as (es & -> & Hm). exists es. split; [reflexivity | exact Hm].
  - now rewrite Hall.
Qed.

(* ===================================================================== *)
(** * The metrics route: which hosts are answered for *)
(* ===================================================================== *)

Section MetricsLoop.

Variable w : MetricsRoute.World.
Variable settings : Rpc.ZabbixSettings.

Lemma run_pair {A} (c : Eff.M A) (tr : list event) : c tr = (fst (c tr), snd (c tr)).
Proof. now destruct (c tr). Qed.

Lemma host_request (hostId : string) (tr : list event) :
  Rpc.zabbixApiRequest (MetricsRoute.host_get w) settings "host.get"
    (HostGetById hostId) tr
  = (Outbound.hostLookup w settings hostId,
     tr ++ [EvFetch (Rpc.requestOf settings "host.get" (HostGetById hostId))]).
Proof.
  rewrite run_pair, zabbixApiRequest_log, zabbixApiRequest_outcome_any_record.
  reflexivity.
Qed.

Lemma item_request (hostId : string) (tr : list event) :
  Rpc.zabbixApiRequest (MetricsRoute.item_get w) settings "item.get"
    (ItemGetByHost hostId true) tr
  = (Outbound.itemLookup w settings hostId,
     tr ++ [EvFetch (Rpc.requestOf settings "item.get" (ItemGetByHost hostId true))]).
Proof.
  rewrite run_pair, zabbixApiRequest_log, zabbixApiRequest_outcome_any_record.
  reflexivity.
Qed.

Lemma hostMetrics_hostid (hostId : string) (host : Host) (allItems : list Item)
    (tr tr' : list event) (entry : MetricsRoute.MetricsEntry) :
  MetricsRoute.hostMetrics w hostId host allItems tr = (Ok entry, tr') ->
  MetricsRoute.m_hostid entry = hostId.
Proof.
  unfold MetricsRoute.hostMetrics. intros H.
  repeat match type of H with
  | context [Eff.bind ?c _ ?tr] =>
      unfold Eff.bind at 1 in H;
      destruct (c tr) as [[? | ?] ?]; [| discriminate H]
  end.
  destruct (MetricsRoute.scanInterfaces (interfaces host)) as [ha hu].
  unfold Eff.ret in H. injection H as <- _. reflexivity.
Qed.

Lemma loop_hostids (hostIds : list string) :
  forall (metrics out : list MetricsRoute.MetricsEntry) (tr tr' : list event),
    MetricsRoute.loop w settings hostIds metrics tr = (Ok out, tr') ->
    map MetricsRoute.m_hostid out
    = map MetricsRoute.m_hostid metrics
      ++ List.filter (Outbound.known w settings) hostIds.
Proof.
  induction hostIds as [|hostId rest IH]; intros metrics out tr tr' H.
  - cbn in H. injection H as <- _. cbn. now rewrite app_nil_r.
  - cbn [MetricsRoute.loop] in H. unfold bind at 1 in H.
    rewrite host_request in H. cbn [List.filter]. unfold Outbound.known at 1.
    destruct (Outbound.hostLookup w settings hostId) as [[|host hs]|e];
      [| |discriminate H].
    + exact (IH _ _ _ _ H).
    + unfold bind at 1 in H. rewrite item_request in H.
      destruct (Outbound.itemLookup w settings hostId) as [allItems|e];
        [|discriminate H].
      unfold bind at 1 in H.
      destruct (MetricsRoute.hostMetrics w hostId host allItems _)
        as [[entry|e] tr1] eqn:Hm; [|discriminate H].
      apply hostMetrics_hostid in Hm.
      rewrite (IH _ _ _ _ H), map_app. cbn [map]. rewrite Hm, <- app_assoc.
      reflexivity.
Qed.

Lemma loop_fails (hostIds : list string) (hostId : string) :
  In hostId hostIds ->
  (exists e, Outbound.hostLookup w settings hostId = Throw e)
  \/ (Outbound.known w settings hostId = true
      /\ exists e, Outbound.itemLookup w settings hostId = Throw e) ->
  forall (metrics : list MetricsRoute.MetricsEntry) (tr : list event),
    exists e, fst (MetricsRoute.loop w settings hostIds metrics tr) = Throw e.
Proof.
  intros Hin Hfail.
  induction hostIds as [|h rest IH]; [destruct Hin|]; intros metrics tr.
  cbn [MetricsRoute.loop]. unfold bind at 1. rewrite host_request.
  destruct (String.eqb_spec h hostId) as [->|Hne].
  - destruct Hfail as [[e He]|[Hk [e He]]].
    + rewrite He. eexists; reflexivity.
    + unfold Outbound.known in Hk.
      destruct (Outbound.hostLookup w settings hostId) as [[|host hs]|e'];
        try discriminate Hk.
      unfold bind at 1. rewrite item_request, He. eexists; reflexivity.
  - assert (Hin' : In hostId rest) by (destruct Hin; [congruence|assumption]).
    specialize (IH Hin').
    destruct (Outbound.hostLookup w settings h) as [[|host hs]|e'].
    + apply IH.
    + unfold bind at 1. rewrite item_request.
      destruct (Outbound.itemLookup w settings h) as [allItems|e'];
        [|eexists; reflexivity].
      unfold bind at 1.
      destruct (MetricsRoute.hostMetrics w h host allItems _) as [[entry|e'] tr1];
        [apply IH | eexists; reflexivity].
    + eexists; reflexivity.
Qed.

Lemma loop_returns (hostIds : list string) :
  Forall (Outbound.lookupsSucceed w settings) hostIds ->
  forall (metrics : list MetricsRoute.MetricsEntry) (tr : list event),
    exists out tr', MetricsRoute.loop w settings hostIds metrics tr = (Ok out, tr').
Proof.
  induction 1 as [|hostId rest Hid _ IH]; intros metrics tr.
  - eexists _, _. reflexivity.
  - cbn [MetricsRoute.loop]. unfold bind at 1. rewrite host_request.
    unfold Outbound.lookupsSucceed in Hid.
    destruct (Outbound.hostLookup w settings hostId) as [[|host hs]|e];
      [apply IH | | destruct Hid].
    destruct Hid as (allItems & Hi & Hwf).
    unfold bind at 1. rewrite item_request, Hi.
    destruct (hostMetrics_returns w hostId host allItems
                (tr ++ [EvFetch (Rpc.requestOf settings "host.get" (HostGetById hostId))]
                    ++ [EvFetch (Rpc.requestOf settings "item.get"
                                   (ItemGetByHost hostId true))]) Hwf)
      as (entry & tr1 & He).
    unfold bind at 1. rewrite <- app_assoc, He. apply IH.
Qed.

End MetricsLoop.

(** X6: when the metrics route answers with a list, the list holds one
    entry for each requested host identifier the monitoring server knows
    (its [host.get] request returns at least one host), in the order
    requested and with repetitions kept; identifiers the server does not
    know are passed over, so the list is never longer than the request. *)
Theorem metrics_reply_lists_known_hosts_in_order :
  forall (w : MetricsRoute.World) (settings : Rpc.ZabbixSettings)
         (hostIds : list string) (tr tr' : list event)
         (metrics : list MetricsRoute.MetricsEntry),
    MetricsRoute.handler w settings hostIds tr = (Ok (MetricsRoute.Json200 metrics), tr') ->
    map MetricsRoute.m_hostid metrics = List.filter (Outbound.known w settings) hostIds
    /\ (length metrics <= length hostIds)%nat.
Proof.
  intros w settings hostIds tr tr' metrics H.
  unfold MetricsRoute.handler, try_catch, bind in H.
  destruct (MetricsRoute.loop w settings hostIds [] tr) as [[out|e] tr1] eqn:Hl;
    [|discriminate H].
  unfold ret in H. injection H as -> _.
  apply loop_hostids in Hl. cbn in Hl.
  split; [exact Hl|].
  rewrite <- (length_map MetricsRoute.m_hostid), Hl. apply List.filter_length_le.
Qed.

(** Host 10084 is unknown to the server and host 10085 is known: the
    reply holds the entry of 10085 alone. *)
Lemma metrics_reply_lists_known_hosts_in_order_witness :
  let metrics :=
    [ {| MetricsRoute.m_hostid := "10085";
         MetricsRoute.cpuUtilization := JS.Fin (75 # 2);
         MetricsRoute.memoryUtilization := JS.Fin 0;
         MetricsRoute.diskUsage := JS.Fin 0;
         MetricsRoute.networkIn := JS.Fin 0;
         MetricsRoute.networkOut := JS.Fin 0;
         MetricsRoute.m_status := "unavailable";
         MetricsRoute.m_icmpStatus := "not configured";
         MetricsRoute.agentCheckStatus := "not configured";
         MetricsRoute.m_directPingStatus := "no response" |} ] in
  map MetricsRoute.m_hostid metrics
  = List.filter (Outbound.known Fixture.oneKnownHost Sample.settings) ["10084"; "10085"]
  /\ (length metrics <= length ["10084"; "10085"])%nat.
Proof.
  intros metrics.
  assert (Hrun : MetricsRoute.handler Fixture.oneKnownHost Sample.settings
                   ["10084"; "10085"] []
                 = (Ok (MetricsRoute.Json200 metrics),
                    [EvFetch (Rpc.requestOf Sample.settings "host.get"
                                (HostGetById "10084"));
                     EvFetch (Rpc.requestOf Sample.settings "host.get"
                                (HostGetById "10085"));
                     EvFetch (Rpc.requestOf Sample.settings "item.get"
                                (ItemGetByHost "10085" true));
                     EvExec "ping -c 1 -W 1 10.0.0.6"]))
    by (vm_compute; reflexivity).
  exact (metrics_reply_lists_known_hosts_in_order _ _ _ _ _ _ Hrun).
Defined.

(** X7: the metrics route answers as a whole or not at all: when, for
    some requested host, the [host.get] request fails, or the host is
    known and its [item.get] request fails, the reply is status 500 and
    no entry of any host is delivered (the hosts route, by contrast,
    survives a failed item request). *)
Theorem metrics_route_fails_as_a_whole :
  forall (w : MetricsRoute.World) (settings : Rpc.ZabbixSettings)
         (hostIds : list string) (hostId : string) (tr : list event),
    In hostId hostIds ->
    (exists e, Outbound.hostLookup w settings hostId = Throw e)
    \/ (Outbound.known w settings hostId = true
        /\ exists e, Outbound.itemLookup w settings hostId = Throw e) ->
    fst (MetricsRoute.handler w settings hostIds tr) = Ok MetricsRoute.Status500.
Proof.
  intros w settings hostIds hostId tr Hin Hfail.
  destruct (loop_fails w settings hostIds hostId Hin Hfail [] tr) as [e He].
  unfold MetricsRoute.handler, try_catch, bind.
  destruct (MetricsRoute.loop w settings hostIds [] tr) as [[out|e'] tr1];
    cbn [fst] in He; [discriminate He | reflexivity].
Qed.

(** Host 10085 is known and its item request fails. *)
Lemma metrics_route_fails_as_a_whole_witness :
  fst (MetricsRoute.handler Fixture.metricsItemsDown Sample.settings ["10085"] [])
  = Ok MetricsRoute.Status500.
Proof.
  assert (Hk : Outbound.known Fixture.metricsItemsDown Sample.settings "10085" = true)
    by (vm_compute; reflexivity).
  assert (Hi : Outbound.itemLookup Fixture.metricsItemsDown Sample.settings "10085"
               = Throw (Rejected "fetch failed"))
    by (vm_compute; reflexivity).
  exact (metrics_route_fails_as_a_whole Fixture.metricsItemsDown Sample.settings
           ["10085"] "10085" [] (or_introl eq_refl)
           (or_intror (conj Hk (ex_intro _ _ Hi)))).
Defined.

(** X17: the metrics route does answer with a list, one entry per
    known host in the order requested, whenever every [host.get] request
    succeeds and, for every known host, the [item.get] request succeeds
    with items that all have a key and a name. *)
Theorem metrics_route_answers_when_lookups_succeed :
  forall (w : MetricsRoute.World) (settings : Rpc.ZabbixSettings)
         (hostIds : list string) (tr : list event),
    Forall (Outbound.lookupsSucceed w settings) hostIds ->
    exists metrics tr',
      MetricsRoute.handler w settings hostIds tr
      = (Ok (MetricsRoute.Json200 metrics), tr')
      /\ map MetricsRoute.m_hostid metrics
         = List.filter (Outbound.known w settings) hostIds.
Proof.
  intros w settings hostIds tr Hall.
  destruct (loop_returns w settings hostIds Hall [] tr) as (out & tr' & Hl).
  exists out, tr'. split.
  - unfold MetricsRoute.handler, try_catch, bind. now rewrite Hl.
  - apply loop_hostids in Hl. exact Hl.
Qed.

(** Host 10084 is unknown to the server, host 10085 is known and its
    one item has a key and a name. *)
Lemma metrics_route_answers_when_lookups_succeed_witness :
  exists metrics tr',
    MetricsRoute.handler Fixture.oneKnownHost Sample.settings ["10084"; "10085"] []
    = (Ok (MetricsRoute.Json200 metrics), tr')
    /\ map MetricsRoute.m_hostid metrics
       = List.filter (Outbound.known Fixture.oneKnownHost Sample.settings)
           ["10084"; "10085"].
Proof.
  assert (H1 : Outbound.lookupsSucceed Fixture.oneKnownHost Sample.settings "10084")
    by exact I.
  assert (H2 : Outbound.lookupsSucceed Fixture.oneKnownHost Sample.settings "10085").
  { exists [Sample.cpuLoadItem]. split; [reflexivity|].
    constructor; [|constructor]. split; eexists; reflexivity. }
  exact (metrics_route_answers_when_lookups_succeed Fixture.oneKnownHost
           Sample.settings ["10084"; "10085"] []
           ltac:(constructor; [exact H1 | constructor; [exact H2 | constructor]])).
Defined.

(* ===================================================================== *)
(** * The endpoint address *)
(* ===================================================================== *)

Section EndpointFacts.

Import Endpoint.

Lemma append_cons (c : ascii) (a b : string) : String c a +:+ b = String c (a +:+ b).
Proof. reflexivity. Qed.

Lemma append_nil_l (b : string) : "" +:+ b = b.
Proof. reflexivity. Qed.

Lemma append_nil_r (s : string) : s +:+ "" = s.
Proof. induction s as [|c s IH]; [reflexivity|]. now rewrite append_cons, IH. Qed.

Lemma append_assoc (a b c : string) : (a +:+ b) +:+ c = a +:+ (b +:+ c).
Proof. induction a as [|x a IH]; [reflexivity|]. now rewrite !append_cons, IH. Qed.

Lemma startsWith_nil (s : string) : JS.startsWith s "" = true.
Proof. now destruct s. Qed.

Lemma startsWith_append (p t : string) : JS.startsWith (p +:+ t) p = true.
Proof.
  induction p as [|c p IH]; [apply startsWith_nil|].
  rewrite append_cons. cbn. now rewrite Ascii.eqb_refl, IH.
Qed.

(** A match that fits into the first part of a string lies in it. *)
Lemma startsWith_within (x y p : string) :
  JS.startsWith (x +:+ y) p = true ->
  (String.length p <= String.length x)%nat ->
  JS.startsWith x p = true.
Proof.
  revert x. induction p as [|c p IH]; intros x H Hl; [apply startsWith_nil|].
  destruct x as [|b x]; cbn in Hl; [lia|].
  rewrite append_cons in H. cbn in H |- *.
  apply andb_true_iff in H as [-> H]. cbn.
  apply IH; [exact H | lia].
Qed.

Lemma endsWith_append (b suffix : string) : endsWith (b +:+ suffix) suffix = true.
Proof.
  induction b as [|c b IH].
  - rewrite append_nil_l. destruct suffix; cbn [endsWith]; unfold JS.streq;
      now rewrite String.eqb_refl.
  - rewrite append_cons. cbn [endsWith]. rewrite IH. apply orb_true_r.
Qed.

Lemma endsWith_split (s suffix : string) :
  endsWith s suffix = true -> exists b, s = b +:+ suffix.
Proof.
  induction s as [|c s IH]; cbn [endsWith]; unfold JS.streq.
  - rewrite orb_false_r. intros H. apply String.eqb_eq in H. subst. now exists "".
  - intros H. apply orb_true_iff in H as [H|H].
    + apply String.eqb_eq in H. rewrite <- H. now exists "".
    + destruct (IH H) as [b ->]. now exists (String c b).
Qed.

Lemma endsWith_trans (s a b : string) :
  endsWith s a = true -> endsWith a b = true -> endsWith s b = true.
Proof.
  intros H1 H2. apply endsWith_split in H1 as [x ->]. apply endsWith_split in H2 as [y ->].
  rewrite <- append_assoc. apply endsWith_append.
Qed.

Lemma includes_startsWith (s p : string) :
  JS.startsWith s p = true -> JS.includes s p = true.
Proof. intros H. destruct s; cbn [JS.includes]; now rewrite H. Qed.

Lemma includes_append (b p t : string) : JS.includes (b +:+ p +:+ t) p = true.
Proof.
  induction b as [|c b IH].
  - rewrite append_nil_l. apply includes_startsWith, startsWith_append.
  - rewrite append_cons. cbn [JS.includes]. rewrite IH. apply orb_true_r.
Qed.

Lemma includes_cons_false (c : ascii) (s p : string) :
  JS.includes (String c s) p = false ->
  JS.startsWith (String c s) p = false /\ JS.includes s p = false.
Proof. cbn [JS.includes]. intros H. now apply orb_false_iff in H. Qed.

Lemma endsWith_includes (s p : string) :
  endsWith s p = true -> JS.includes s p = true.
Proof.
  intros H. apply endsWith_split in H as [b ->].
  rewrite <- (append_nil_r p) at 1. rewrite <- append_assoc.
  rewrite append_assoc. apply includes_append.
Qed.

Lemma dropTrailingSlash_append_slash (b : string) : dropTrailingSlash (b +:+ "/") = b.
Proof.
  induction b as [|c b IH]; [reflexivity|].
  rewrite append_cons. cbn [dropTrailingSlash]. rewrite IH.
  unfold JS.streq. destruct b as [|c' b].
  - rewrite append_nil_l. cbn. now destruct (Ascii.eqb c "/").
  - rewrite append_cons. cbn. now destruct (Ascii.eqb c "/").
Qed.

Lemma dropTrailingSlash_id (b : string) :
  endsWith b "/" = false -> dropTrailingSlash b = b.
Proof.
  induction b as [|c b IH]; [reflexivity|].
  cbn [endsWith dropTrailingSlash]. intros H. apply orb_false_iff in H as [H1 H2].
  rewrite H1, (IH H2). reflexivity.
Qed.

Lemma append_slash_not_nil (b : string) : b +:+ "/" <> "".
Proof. destruct b; discriminate. Qed.

Lemma endsWith_slash_p (b : string) : endsWith (b +:+ "/") "p" = false.
Proof.
  induction b as [|c b IH]; [reflexivity|].
  rewrite append_cons. cbn [endsWith]. rewrite IH, orb_false_r.
  unfold JS.streq. cbn. destruct (b +:+ "/") eqn:E.
  - now apply append_slash_not_nil in E.
  - now destruct (Ascii.eqb c "p").
Qed.

(** A string that ends with a slash does not end with the endpoint
    path. *)
Lemma endsWith_slash_path (b : string) :
  endsWith (b +:+ "/") "/api_jsonrpc.php" = false.
Proof.
  destruct (endsWith (b +:+ "/") "/api_jsonrpc.php") eqn:E; [|reflexivity].
  assert (H : endsWith (b +:+ "/") "p" = true)
    by (eapply endsWith_trans; [exact E | reflexivity]).
  now rewrite endsWith_slash_p in H.
Qed.

(** The endpoint path does not overlap itself: a match of it in
    [x +:+ path] that starts inside a non-empty [x] lies within [x]. *)
Lemma path_no_overlap (x : string) :
  x <> "" -> (String.length x < 16)%nat ->
  JS.startsWith (x +:+ "/api_jsonrpc.php") "/api_jsonrpc.php" = false.
Proof.
  intros Hne Hl.
  do 16 (destruct x as [|? x];
         [ try congruence; rewrite ?append_cons, append_nil_l; cbn;
           rewrite ?andb_false_r; reflexivity |]).
  cbn in Hl. lia.
Qed.

Lemma removeFirst_path (b : string) :
  JS.includes b "/api_jsonrpc.php" = false ->
  removeFirst (b +:+ "/api_jsonrpc.php") "/api_jsonrpc.php" = b.
Proof.
  induction b as [|c b IH]; [reflexivity|].
  intros H. apply includes_cons_false in H as [Hs Hi].
  rewrite append_cons. cbn [removeFirst]. rewrite <- append_cons.
  destruct (JS.startsWith (String c b +:+ "/api_jsonrpc.php") "/api_jsonrpc.php") eqn:E.
  - exfalso. destruct (le_lt_dec 16 (String.length (String c b))) as [Hl|Hl].
    + apply startsWith_within in E; [congruence | exact Hl].
    + rewrite path_no_overlap in E; [discriminate | discriminate | exact Hl].
  - now rewrite (IH Hi).
Qed.

End EndpointFacts.

(** X8: for a stored address [b] that does not contain the endpoint
    path and does not end with a slash, the three spellings [b], [b]
    with a trailing slash and [b] followed by the endpoint path are all
    normalised to the same [apiUrl], and the helper sends its requests
    to that one address, [b] followed by [/api_jsonrpc.php]. *)
Theorem endpoint_same_for_every_spelling :
  forall (b token method : string) (interval : Z) (params : RpcParams),
    JS.includes b "/api_jsonrpc.php" = false ->
    Endpoint.endsWith b "/" = false ->
    let target := b +:+ "/api_jsonrpc.php" in
    let sentTo zabbixUrl :=
      req_url (Rpc.requestOf {| Rpc.zabbixUrl := Endpoint.baseUrlOf zabbixUrl;
                                Rpc.zabbixApiToken := token;
                                Rpc.refreshInterval := interval |} method params) in
    sentTo b = target
    /\ sentTo (b +:+ "/") = target
    /\ sentTo (b +:+ "/api_jsonrpc.php") = target
    /\ Endpoint.apiUrlOf b = target
    /\ Endpoint.apiUrlOf (b +:+ "/") = target
    /\ Endpoint.apiUrlOf target = target.
Proof.
  intros b token method interval params Hi Hs target sentTo.
  assert (Ha : Endpoint.apiUrlOf b = target).
  { unfold Endpoint.apiUrlOf.
    destruct (Endpoint.endsWith b "/api_jsonrpc.php") eqn:E.
    - apply endsWith_includes in E. congruence.
    - now rewrite dropTrailingSlash_id. }
  assert (Hb : Endpoint.apiUrlOf (b +:+ "/") = target).
  { unfold Endpoint.apiUrlOf.
    now rewrite endsWith_slash_path, dropTrailingSlash_append_slash. }
  assert (Hc : Endpoint.apiUrlOf target = target).
  { unfold Endpoint.apiUrlOf, target. now rewrite endsWith_append. }
  unfold sentTo, Rpc.requestOf, Endpoint.baseUrlOf.
  cbn [req_url Rpc.zabbixUrl].
  fold target. rewrite Ha, Hb, Hc. unfold target.
  rewrite removeFirst_path by exact Hi. repeat split; reflexivity || assumption.
Qed.

(** The address of the sample settings. *)
Lemma endpoint_same_for_every_spelling_witness :
  let target := "http://zabbix.example/api_jsonrpc.php" in
  let sentTo zabbixUrl :=
    req_url (Rpc.requestOf {| Rpc.zabbixUrl := Endpoint.baseUrlOf zabbixUrl;
                              Rpc.zabbixApiToken := "0424bd59b807674191e7d77572075f33";
                              Rpc.refreshInterval := 60 |} "host.get" HostGetAll) in
  sentTo "http://zabbix.example" = target
  /\ sentTo "http://zabbix.example/" = target
  /\ sentTo "http://zabbix.example/api_jsonrpc.php" = target
  /\ Endpoint.apiUrlOf "http://zabbix.example" = target
  /\ Endpoint.apiUrlOf "http://zabbix.example/" = target
  /\ Endpoint.apiUrlOf target = target.
Proof.
  exact (endpoint_same_for_every_spelling "http://zabbix.example"
           "0424bd59b807674191e7d77572075f33" "host.get" 60 HostGetAll
           eq_refl eq_refl).
Defined.

(* ===================================================================== *)
(** * The routes from the top *)
(* ===================================================================== *)

Lemma hosts_handler_never_throws (w : HostsRoute.World) (settings : Rpc.ZabbixSettings)
    (tr : list event) :
  exists reply, fst (HostsRoute.handler w settings tr) = Ok reply.
Proof.
  unfold HostsRoute.handler, try_catch.
  destruct (bind _ _ tr) as [[r|e] tr']; eexists; reflexivity.
Qed.

(** X9: every request the hosts route sends goes to the stored address
    (the snake-case column, or else its camel-case alias), normalised to
    end with the endpoint path, and bears the stored token; a request is
    sent only when the settings query returned a row whose address is a
    non-empty string and whose token is present. *)
Theorem hosts_route_requests_go_to_the_stored_endpoint :
  forall (db : Config.Db) (w : HostsRoute.World) (tr : list event) (r : RpcRequest),
    In (EvFetch r) (snd (Config.hostsRoute db w tr)) ->
    In (EvFetch r) tr
    \/ exists (row : Config.Row) (rest : list Config.Row) (url : string),
         db = Some (Resolved (row :: rest))
         /\ JS.or_else (Config.zabbix_url row) (Config.zabbixUrl row) = JS.JStr url
         /\ url <> ""
         /\ JS.truthy (JS.or_else (Config.zabbix_api_token row)
                         (Config.zabbixApiToken row)) = true
         /\ req_url r = Endpoint.baseUrlOf url +:+ "/api_jsonrpc.php"
         /\ req_authorization r
            = "Bearer " +:+ JS.ToString (JS.or_else (Config.zabbix_api_token row)
                                           (Config.zabbixApiToken row)).
Proof.
  intros db w tr r.
  unfold Config.hostsRoute, try_catch.
  destruct db as [[rows|reason]|]; cbn; auto.
  destruct rows as [|row rest]; cbn; auto.
  set (token := JS.or_else (Config.zabbix_api_token row) (Config.zabbixApiToken row)).
  destruct (JS.or_else (Config.zabbix_url row) (Config.zabbixUrl row))
    as [| |url|n] eqn:Hurl; cbn; auto;
    [|destruct (negb (n =? 0)), (JS.truthy token); cbn; auto].
  destruct (negb (JS.streq url "")) eqn:Hu; cbn; auto.
  destruct (JS.truthy token) eqn:Ht; cbn; auto.
  unfold bind.
  rewrite (run_pair (HostsRoute.handler w _) tr).
  destruct (hosts_handler_never_throws w (Config.hostsSettings row url token) tr)
    as [reply ->].
  cbn [snd ret fst]. rewrite hosts_route_calls_log.
  intros Hin. apply in_app_or in Hin as [Hin|Hin]; [now left|right].
  exists row, rest, url. split; [reflexivity|]. split; [exact Hurl|].
  split; [intros ->; discriminate Hu|]. split; [exact Ht|].
  set (settings := Config.hostsSettings row url token) in *.
  assert (Hall : forall ev, In ev
            (EvFetch (Rpc.requestOf settings "host.get" HostGetAll)
             :: match fst (Rpc.zabbixApiRequest (HostsRoute.host_get w) settings
                             "host.get" HostGetAll []) with
                | Ok hosts => flat_map (Outbound.hostCalls w settings) hosts
                | Throw _ => []
                end) ->
            match ev with
            | EvFetch r =>
                req_url r = Endpoint.baseUrlOf url +:+ "/api_jsonrpc.php"
                /\ req_authorization r = "Bearer " +:+ JS.ToString token
            | EvExec _ => True
            end).
  { intros ev [<-|Hev]; [split; reflexivity|].
    destruct (fst _) as [hosts|e]; [|destruct Hev].
    apply in_flat_map in Hev as (host & _ & Hev).
    unfold Outbound.hostCalls, Outbound.probeCalls in Hev.
    apply in_app_or in Hev as [Hev|[<-|[]]]; [|split; reflexivity].
    destruct (Outbound.probedAddress host); [|destruct Hev].
    destruct Hev as [<-|[]]. exact I. }
  exact (Hall _ Hin).
Qed.

(** The stored row of the examples, whose address ends with a slash. *)
Lemma hosts_route_requests_go_to_the_stored_endpoint_witness :
  let r := Rpc.requestOf
             {| Rpc.zabbixUrl := "http://zabbix.example";
                Rpc.zabbixApiToken := "0424bd59b807674191e7d77572075f33";
                Rpc.refreshInterval := 60 |} "host.get" HostGetAll in
  In (EvFetch r) []
  \/ exists (row : Config.Row) (rest : list Config.Row) (url : string),
       Some (Resolved [Fixture.storedRow]) = Some (Resolved (row :: rest))
       /\ JS.or_else (Config.zabbix_url row) (Config.zabbixUrl row) = JS.JStr url
       /\ url <> ""
       /\ JS.truthy (JS.or_else (Config.zabbix_api_token row)
                       (Config.zabbixApiToken row)) = true
       /\ req_url r = Endpoint.baseUrlOf url +:+ "/api_jsonrpc.php"
       /\ req_authorization r
          = "Bearer " +:+ JS.ToString (JS.or_else (Config.zabbix_api_token row)
                                         (Config.zabbixApiToken row)).
Proof.
  intros r.
  assert (Hin : In (EvFetch r)
                  (snd (Config.hostsRoute (Some (Resolved [Fixture.storedRow]))
                          (Sample.hostsWorld Sample.pingAnswers [Sample.host2]
                             [Sample.staleItem]) [])))
    by (vm_compute; left; reflexivity).
  exact (hosts_route_requests_go_to_the_stored_endpoint _ _ _ _ Hin).
Defined.

(** X10: a settings row that carries the address and the token under
    the camel-case names only is served by the hosts route, which falls
    back to them, and by no other route: the metrics and the problems
    routes read the snake-case columns only, fail on the missing
    address, and answer with status 500 without sending any request. *)
Theorem only_hosts_route_reads_camel_case_settings :
  forall (url token : string) (rest : list Config.Row),
    url <> "" -> token <> "" ->
    let row := {| Config.zabbix_url := JS.JUndefined;
                  Config.zabbixUrl := JS.JStr url;
                  Config.zabbix_api_token := JS.JUndefined;
                  Config.zabbixApiToken := JS.JStr token;
                  Config.refresh_interval := JS.JUndefined;
                  Config.refreshInterval := JS.JUndefined |} in
    let db := Some (Resolved (row :: rest)) in
    let settings := {| Rpc.zabbixUrl := Endpoint.baseUrlOf url;
                       Rpc.zabbixApiToken := token;
                       Rpc.refreshInterval := 60 |} in
    (forall (w : HostsRoute.World) (tr : list event),
        exists reply,
          fst (HostsRoute.handler w settings tr) = Ok reply
          /\ Config.hostsRoute db w tr
             = (Ok (Config.Answer reply), snd (HostsRoute.handler w settings tr)))
    /\ (forall (w : MetricsRoute.World) (hostIds : list string) (tr : list event),
          Config.metricsRoute db w hostIds tr
          = (Ok (Config.Answer MetricsRoute.Status500), tr))
    /\ (forall (w : ProblemsRoute.World) (tr : list event),
          Config.problemsRoute db w tr
          = (Ok (Config.Answer ProblemsRoute.Status500), tr)).
Proof.
  intros url token rest Hu Ht row db settings.
  apply String.eqb_neq in Hu, Ht.
  split; [|split; intros; reflexivity].
  intros w tr.
  destruct (hosts_handler_never_throws w settings tr) as [reply Hr].
  exists reply. split; [exact Hr|].
  unfold Config.hostsRoute, db, row, try_catch, await, bind. cbn [settle].
  cbn [Config.zabbix_url Config.zabbixUrl Config.zabbix_api_token
       Config.zabbixApiToken JS.or_else JS.truthy].
  unfold JS.streq. rewrite Hu, Ht. cbn [negb orb Config.receiver ret].
  change (Config.hostsSettings _ url (JS.JStr token)) with settings.
  rewrite (run_pair (HostsRoute.handler w settings) tr), Hr. reflexivity.
Qed.

(** The address and the token of the sample settings. *)
Lemma only_hosts_route_reads_camel_case_settings_witness :
  let row := {| Config.zabbix_url := JS.JUndefined;
                Config.zabbixUrl := JS.JStr "http://zabbix.example";
                Config.zabbix_api_token := JS.JUndefined;
                Config.zabbixApiToken := JS.JStr "0424bd59b807674191e7d77572075f33";
                Config.refresh_interval := JS.JUndefined;
                Config.refreshInterval := JS.JUndefined |} in
  let db := Some (Resolved [row]) in
  let settings := {| Rpc.zabbixUrl := Endpoint.baseUrlOf "http://zabbix.example";
                     Rpc.zabbixApiToken := "0424bd59b807674191e7d77572075f33";
                     Rpc.refreshInterval := 60 |} in
  (forall (w : HostsRoute.World) (tr : list event),
      exists reply,
        fst (HostsRoute.handler w settings tr) = Ok reply
        /\ Config.hostsRoute db w tr
           = (Ok (Config.Answer reply), snd (HostsRoute.handler w settings tr)))
  /\ (forall (w : MetricsRoute.World) (hostIds : list string) (tr : list event),
        Config.metricsRoute db w hostIds tr
        = (Ok (Config.Answer MetricsRoute.Status500), tr))
  /\ (forall (w : ProblemsRoute.World) (tr : list event),
        Config.problemsRoute db w tr
        = (Ok (Config.Answer ProblemsRoute.Status500), tr)).
Proof.
  exact (only_hosts_route_reads_camel_case_settings
           "http://zabbix.example" "0424bd59b807674191e7d77572075f33" []
           ltac:(discriminate) ltac:(discriminate)).
Defined.

(* ===================================================================== *)
(** * The connection test *)
(* ===================================================================== *)

Section ConnectionTest.

Import TestConnection.

Ltac open_version H :=
  destruct H as (? & ? & ? & ? & ? & ? & ? & ? & ?);
  cbn [zabbixUrl zabbixApiToken] in *;
  try match goal with E : JS.JStr _ = JS.JStr _ |- _ => injection E as <- end.

Ltac open_auth H :=
  destruct H as (? & ? & ? & ? & ? & ? & ?);
  cbn [zabbixUrl zabbixApiToken] in *;
  try match goal with E : JS.JStr _ = JS.JStr _ |- _ => injection E as <- end.

(** The reply when the version probe does not go through. *)
Ltac version_fails calls :=
  eexists _, calls; rewrite ?app_nil_r; split; [reflexivity|];
  split; [split; [discriminate|
                  intros (? & Hvo & _); open_version Hvo;
                  try discriminate; congruence]|];
  split; [intros ? Hvo _; open_version Hvo; try discriminate; congruence|];
  split; [|cbn; lia];
  intros call Hin Hauth;
  repeat (destruct Hin as [<-|Hin]; [now contradiction Hauth|]); destruct Hin.

(** X11: the connection test always answers, with [success] and a
    message, and never throws.  It reports success exactly when the
    address is a non-empty string, the token is present, the call
    without a token is answered with a 2xx status and an envelope without
    an error, and the call with the token is answered with an envelope
    without an error (its status is not looked at); the message then
    names the version the first call returned.  It makes at most two
    calls, and one that bears the token only after the version probe went
    through. *)
Theorem connection_test_succeeds_exactly_when :
  forall (w : World) (body : Body) (tr : list Call),
    exists (reply : Reply) (calls : list Call),
      handler w body tr = (Ok reply, tr ++ calls)
      /\ (success reply = true <->
          exists versionData, versionOk w body versionData /\ authOk w body)
      /\ (forall versionData,
            versionOk w body versionData -> authOk w body ->
            message reply = "Successfully connected to Zabbix "
                            +:+ JS.ToString (Rpc.env_result versionData))
      /\ (forall call, In call calls ->
            call_authorization call <> None ->
            exists versionData, versionOk w body versionData)
      /\ (length calls <= 2)%nat.
Proof.
  intros w body tr.
  unfold handler, try_catch, bind, fetch, await, ret, throw.
  destruct body as [u t]. cbn [zabbixUrl zabbixApiToken].
  destruct u as [| |url|n]; cbn [JS.truthy negb orb].
  1,2: version_fails (@nil Call).
  2: { destruct (negb (n =? 0)), (JS.truthy t); cbn [negb orb];
       version_fails (@nil Call). }
  destruct (JS.streq url "") eqn:Hu; cbn [negb orb].
  { apply String.eqb_eq in Hu. subst url. version_fails (@nil Call). }
  apply String.eqb_neq in Hu.
  destruct (JS.truthy t) eqn:Ht; cbn [negb orb]; [|version_fails (@nil Call)].
  set (apiUrl := Endpoint.apiUrlOf url).
  destruct (apiinfo_version w (versionCall apiUrl)) as [vr|reason] eqn:Hv; cbn [settle];
    [|subst apiUrl; version_fails [versionCall (Endpoint.apiUrlOf url)]].
  destruct (Rpc.ok vr) eqn:Hok; cbn [negb];
    [|subst apiUrl; version_fails [versionCall (Endpoint.apiUrlOf url)]].
  destruct (Rpc.resp_json vr) as [vd|reason] eqn:Hj; cbn [settle];
    [|subst apiUrl; version_fails [versionCall (Endpoint.apiUrlOf url)]].
  destruct (Rpc.env_error vd) as [e|] eqn:He;
    [subst apiUrl; version_fails [versionCall (Endpoint.apiUrlOf url)]|].
  assert (Hvok : versionOk w {| zabbixUrl := JS.JStr url; zabbixApiToken := t |} vd).
  { exists url, vr. repeat split; assumption. }
  assert (Hsame : forall versionData,
             versionOk w {| zabbixUrl := JS.JStr url; zabbixApiToken := t |} versionData ->
             versionData = vd).
  { intros vd' Hvo. open_version Hvo. subst apiUrl. congruence. }
  destruct (host_get w (authCall apiUrl t)) as [ar|reason] eqn:Ha; cbn [settle].
  2: { eexists _, [_; _]; rewrite <- app_assoc; split; [reflexivity|].
       split; [split; [discriminate|
         intros (? & _ & Hao); open_auth Hao; subst apiUrl; congruence]|].
       split; [intros ? _ Hao; open_auth Hao; subst apiUrl; congruence|].
       split; [|cbn; lia]. intros call _ _. exists vd; exact Hvok. }
  destruct (Rpc.resp_json ar) as [ad|reason] eqn:Haj; cbn [settle].
  2: { eexists _, [_; _]; rewrite <- app_assoc; split; [reflexivity|].
       split; [split; [discriminate|
         intros (? & _ & Hao); open_auth Hao; subst apiUrl; congruence]|].
       split; [intros ? _ Hao; open_auth Hao; subst apiUrl; congruence|].
       split; [|cbn; lia]. intros call _ _. exists vd; exact Hvok. }
  destruct (Rpc.env_error ad) as [e|] eqn:Hae.
  { eexists _, [_; _]; rewrite <- app_assoc; split; [reflexivity|].
    split; [split; [discriminate|
      intros (? & _ & Hao); open_auth Hao; subst apiUrl; congruence]|].
    split; [intros ? _ Hao; open_auth Hao; subst apiUrl; congruence|].
    split; [|cbn; lia]. intros call _ _. exists vd; exact Hvok. }
  eexists _, [_; _]; rewrite <- app_assoc; split; [reflexivity|].
  split; [split; [intros _|reflexivity]|].
  { exists vd. split; [exact Hvok|]. exists url, ar, ad. repeat split; assumption. }
  split; [intros vd' H _; now rewrite (Hsame _ H)|].
  split; [|cbn; lia]. intros call _ _. exists vd; exact Hvok.
Qed.

End ConnectionTest.

(* ===================================================================== *)
(** * The uptime text *)
(* ===================================================================== *)

(** ** The binary exponent of a quotient *)

Lemma floor_log2_Q_spec (n d : Z) :
  0 < n -> 0 < d ->
  let k := JS.floor_log2_Q n d in
  (0 <= k -> d * 2 ^ k <= n < d * 2 ^ (k + 1))
  /\ (k < 0 -> d <= n * 2 ^ (- k) /\ n * 2 ^ (- k - 1) < d).
Proof.
  intros Hn Hd. unfold JS.floor_log2_Q.
  pose proof (Z.log2_spec n Hn) as [Hn1 Hn2].
  pose proof (Z.log2_spec d Hd) as [Hd1 Hd2].
  pose proof (Z.log2_nonneg n) as Hln. pose proof (Z.log2_nonneg d) as Hld.
  set (a := Z.log2 n) in *. set (b := Z.log2 d) in *.
  rewrite Z.pow_succ_r in Hn2, Hd2 by assumption.
  destruct (Z.leb_spec 0 (a - b)) as [Hl|Hl].
  - assert (Ea : 2 ^ a = 2 ^ (a - b) * 2 ^ b)
      by (rewrite <- Z.pow_add_r by lia; f_equal; lia).
    assert (Hp : 0 < 2 ^ (a - b)) by (apply Z.pow_pos_nonneg; lia).
    assert (Hpb : 0 < 2 ^ b) by (apply Z.pow_pos_nonneg; lia).
    destruct (Z.leb_spec (d * 2 ^ (a - b)) n) as [Ht|Ht]; cbv zeta.
    + split; [|lia]. intros _. split; [exact Ht|].
      rewrite Z.pow_add_r by lia. change (2 ^ 1) with 2. nia.
    + destruct (Z.eq_dec (a - b) 0) as [E0|E0].
      * rewrite E0 in *. change (2 ^ 0) with 1 in *. split; [lia|]. intros _.
        change (- (0 - 1)) with 1. change (- (0 - 1) - 1) with 0.
        change (2 ^ 1) with 2. change (2 ^ 0) with 1. lia.
      * split; [|lia]. intros _.
        replace (a - b - 1 + 1) with (a - b) by lia. split; [|lia].
        assert (E1 : 2 ^ (a - b) = 2 * 2 ^ (a - b - 1)).
        { rewrite <- Z.pow_succ_r by lia. f_equal. lia. }
        assert (0 < 2 ^ (a - b - 1)) by (apply Z.pow_pos_nonneg; lia).
        nia.
  - assert (Eb : 2 ^ b = 2 ^ (- (a - b)) * 2 ^ a)
      by (rewrite <- Z.pow_add_r by lia; f_equal; lia).
    assert (Hp : 0 < 2 ^ (- (a - b))) by (apply Z.pow_pos_nonneg; lia).
    assert (Hpa : 0 < 2 ^ a) by (apply Z.pow_pos_nonneg; lia).
    assert (E1 : 2 ^ (- (a - b)) = 2 * 2 ^ (- (a - b) - 1)).
    { rewrite <- Z.pow_succ_r by lia. f_equal. lia. }
    assert (0 < 2 ^ (- (a - b) - 1)) by (apply Z.pow_pos_nonneg; lia).
    destruct (Z.leb_spec d (n * 2 ^ (- (a - b)))) as [Ht|Ht]; cbv zeta.
    + split; [lia|]. intros _. split; [exact Ht|]. nia.
    + split; [lia|]. intros _.
      replace (- (a - b - 1)) with (- (a - b) + 1) by lia.
      replace (- (a - b) + 1 - 1) with (- (a - b)) by lia.
      rewrite Z.pow_add_r by lia. change (2 ^ 1) with 2. split; [nia|lia].
Qed.

Lemma round_half_even_cases (N D : Z) :
  JS.round_half_even N D = N / D
  \/ (JS.round_half_even N D = N / D + 1 /\ D <= 2 * (N mod D)).
Proof.
  unfold JS.round_half_even.
  destruct (Z.compare_spec (2 * (N mod D)) D) as [E|E|E].
  - destruct (Z.even (N / D)); [now left | right; split; [reflexivity | lia]].
  - now left.
  - right. split; [reflexivity | lia].
Qed.

(** ** Fractions that denote the same rational *)

Lemma cancel_le (c a b : Z) : 0 < c -> c * a <= c * b -> a <= b.
Proof. intros Hc H. now apply Z.mul_le_mono_pos_l in H. Qed.

Lemma cancel_lt (c a b : Z) : 0 < c -> c * a < c * b -> a < b.
Proof. intros Hc H. now apply Z.mul_lt_mono_pos_l in H. Qed.

Lemma cross_le (n d n' d' K : Z) :
  0 < d -> 0 < d' -> n' * d = n * d' -> d' * K <= n' -> d * K <= n.
Proof.
  intros Hd Hd' E H. apply (cancel_le d'); [exact Hd'|].
  apply (Z.mul_le_mono_nonneg_r _ _ d) in H; [|lia].
  rewrite E in H. lia.
Qed.

Lemma cross_lt (n d n' d' K : Z) :
  0 < d -> 0 < d' -> n' * d = n * d' -> n' < d' * K -> n < d * K.
Proof.
  intros Hd Hd' E H. apply (cancel_lt d'); [exact Hd'|].
  apply (Z.mul_lt_mono_pos_r d) in H; [|lia].
  rewrite E in H. lia.
Qed.

Lemma cross_gt (n d n' d' K : Z) :
  0 < d -> 0 < d' -> n' * d = n * d' -> n' * K < d' -> n * K < d.
Proof.
  intros Hd Hd' E H. apply (cancel_lt d'); [exact Hd'|].
  apply (Z.mul_lt_mono_pos_r d) in H; [|lia].
  replace (n' * K * d) with (n' * d * K) in H by ring.
  rewrite E in H. lia.
Qed.

(** They have the same integer part. *)
Lemma div_cross (n d n' d' : Z) :
  0 < d -> 0 < d' -> n' * d = n * d' -> n' / d' = n / d.
Proof.
  intros Hd Hd' E.
  rewrite <- (Z.div_mul_cancel_r n' d' d) by lia.
  rewrite <- (Z.div_mul_cancel_r n d d') by lia.
  rewrite E. f_equal. lia.
Qed.

(** Rounding up across a multiple of [P]: the quotient [n/d] then lies
    within [1/(2P)] below an integer, which bounds [d] from below. *)
Lemma crossing_bound (n d n' d' P j q0 r0 : Z) :
  0 < d -> 0 < d' -> 0 < P ->
  n' * d = n * d' ->
  n' * P = d' * q0 + r0 -> 0 <= r0 < d' -> d' <= 2 * r0 ->
  q0 = P * j + (P - 1) ->
  2 * P <= d.
Proof.
  intros Hd Hd' HP E HN Hr Hhalf Hq.
  assert (H2 : n < d * (j + 1)).
  { apply (cross_lt n d n' d'); try assumption.
    apply (cancel_lt P); [exact HP|].
    replace (P * n') with (n' * P) by ring. rewrite HN, Hq.
    replace (P * (d' * (j + 1))) with (d' * (P * j + (P - 1)) + d') by ring. lia. }
  assert (H1 : d' * (2 * P * (d * (j + 1) - n)) <= d' * d).
  { assert (Hx : d' * (2 * (P * j + P) - 1) <= 2 * (n' * P)) by (rewrite HN, Hq; lia).
    apply (Z.mul_le_mono_nonneg_r _ _ d) in Hx; [|lia].
    replace (2 * (n' * P) * d) with (2 * P * (n' * d)) in Hx by ring.
    rewrite E in Hx.
    replace (d' * (2 * P * (d * (j + 1) - n)))
      with (d' * (2 * (P * j + P) - 1) * d + d' * d - 2 * P * (n * d')) by ring.
    lia. }
  apply cancel_le in H1; [|exact Hd'].
  assert (Hone : 1 <= d * (j + 1) - n) by lia.
  apply (Z.mul_le_mono_nonneg_l _ _ (2 * P)) in Hone; lia.
Qed.

(** ** Rounding a quotient of integers below [2^53]

    Rounding to the nearest number does not carry the quotient across an
    integer, so [Math.floor] of the rounded quotient is the integer
    quotient. *)

Lemma round_keeps_floor (n d n' d' : Z) :
  0 < n < 2 ^ 53 -> 2 <= d < 2 ^ 53 ->
  0 < n' -> 0 < d' -> n' * d = n * d' ->
  exists r, JS.round_binary64 n' d' = Some r /\ Qfloor r = n / d.
Proof.
  intros Hn Hd Hn' Hd' E.
  unfold JS.round_binary64.
  destruct (floor_log2_Q_spec n' d' Hn' Hd') as [Hpos Hneg].
  set (k := JS.floor_log2_Q n' d') in *. clearbody k.
  assert (Hk1 : k <= 51).
  { destruct (Z.le_gt_cases k 51) as [H|H]; [exact H|exfalso].
    destruct (Hpos ltac:(lia)) as [H1 _].
    assert (H52 : 2 ^ 52 <= 2 ^ k) by (apply Z.pow_le_mono_r; lia).
    apply (cross_le n d) in H1; [|lia|lia|exact E].
    assert (d * 2 ^ 52 <= d * 2 ^ k) by (apply Z.mul_le_mono_nonneg_l; lia).
    change (2 ^ 53) with (2 * 2 ^ 52) in *. change (2 ^ 52) with 4503599627370496 in *.
    lia. }
  assert (Hk2 : -54 < k).
  { destruct (Z.lt_ge_cases (-54) k) as [H|H]; [exact H|exfalso].
    destruct (Hneg ltac:(lia)) as [_ H2].
    assert (H53 : 2 ^ 53 <= 2 ^ (- k - 1)) by (apply Z.pow_le_mono_r; lia).
    apply (cross_gt n d) in H2; [|lia|lia|exact E].
    assert (1 * 2 ^ (- k - 1) <= n * 2 ^ (- k - 1))
      by (apply Z.mul_le_mono_nonneg_r; lia).
    lia. }
  replace (Z.max (k - 52) (-1074)) with (k - 52) by lia.
  destruct (Z.leb_spec 0 (k - 52)) as [H|_]; [lia|].
  replace (- (k - 52)) with (52 - k) by lia.
  set (P := 2 ^ (52 - k)).
  assert (HP : 0 < P) by (apply Z.pow_pos_nonneg; lia).
  eexists. split; [reflexivity|].
  rewrite (Qfloor_comp _ _ (Qred_correct _)).
  unfold Qfloor. cbn [Qnum Qden]. rewrite Z2Pos.id by exact HP.
  set (N := n' * P). set (m := JS.round_half_even N d').
  assert (Hq : (N / d') / P = n / d).
  { rewrite Z.div_div by lia. unfold N.
    rewrite Z.div_mul_cancel_r by lia. apply div_cross; [lia | lia | exact E]. }
  destruct (round_half_even_cases N d') as [Hm|[Hm Hr]]; fold m in Hm.
  { now rewrite Hm. }
  rewrite Hm, <- Hq.
  pose proof (Z.div_mod N d' ltac:(lia)) as HN.
  pose proof (Z.mod_pos_bound N d' Hd') as Hr0.
  set (q0 := N / d') in *. set (r0 := N mod d') in *. clearbody q0 r0.
  pose proof (Z.div_mod q0 P ltac:(lia)) as Hq0.
  pose proof (Z.mod_pos_bound q0 P HP) as Hs0.
  set (j := q0 / P) in *. set (s0 := q0 mod P) in *. clearbody j s0.
  destruct (Z.eq_dec s0 (P - 1)) as [Es|Es].
  2: { symmetry. apply (Z.div_unique _ _ _ (s0 + 1)); lia. }
  exfalso. subst s0.
  assert (H3 : 2 * P <= d)
    by (apply (crossing_bound n d n' d' P j q0 r0); try assumption; lia).
  destruct (Z.le_gt_cases 0 k) as [Hk|Hk].
  - destruct (Hpos Hk) as [Hlo _].
    assert (EP : P * 2 ^ k = 2 ^ 52).
    { unfold P. rewrite <- Z.pow_add_r by lia. f_equal. lia. }
    assert (H2k : 0 < 2 ^ k) by (apply Z.pow_pos_nonneg; lia).
    apply (cross_le n d) in Hlo; [|lia|lia|exact E].
    assert (2 * P * 2 ^ k <= d * 2 ^ k) by (apply Z.mul_le_mono_nonneg_r; lia).
    replace (2 * P * 2 ^ k) with (2 * (P * 2 ^ k)) in * by ring. rewrite EP in *.
    change (2 ^ 53) with 9007199254740992 in *.
    change (2 ^ 52) with 4503599627370496 in *. lia.
  - assert (2 ^ 53 <= P).
    { unfold P. apply Z.pow_le_mono_r; lia. }
    lia.
Qed.

Section UptimeFacts.

Import Uptime.

Lemma floor_divBy (n d : Z) :
  0 <= n < 2 ^ 53 -> 2 <= d < 2 ^ 53 ->
  floor (divBy (JS.of_Z n) d) = FInt (n / d).
Proof.
  intros Hn Hd. unfold divBy, JS.of_Z.
  destruct d as [|p|p]; try lia.
  pose proof (Qred_correct (inject_Z n / inject_Z (Z.pos p))) as Hq.
  set (q := Qred (inject_Z n / inject_Z (Z.pos p))) in *.
  unfold Qeq in Hq. cbn in Hq.
  assert (E : Qnum q * Z.pos p = n * Z.pos (Qden q)) by lia.
  unfold JS.of_Q.
  destruct (Qnum q) as [|a|a] eqn:Ea.
  - assert (n = 0) by lia. subst n. reflexivity.
  - assert (0 < n) by lia.
    destruct (round_keeps_floor n (Z.pos p) (Z.pos a) (Z.pos (Qden q)))
      as (r & -> & Hr); try lia.
    cbn [floor]. now rewrite Hr.
  - exfalso. lia.
Qed.

Lemma remBy_int (n d : Z) :
  0 <= n -> 0 < d -> remBy (JS.of_Z n) d = JS.of_Z (n mod d).
Proof.
  intros Hn Hd. unfold remBy, JS.of_Z. f_equal.
  destruct d as [|p|p]; try lia.
  assert (Ht : truncate (inject_Z n / inject_Z (Z.pos p)) = n / Z.pos p).
  { unfold truncate.
    assert (Hle : Qle_bool 0 (inject_Z n / inject_Z (Z.pos p)) = true).
    { unfold Qle_bool. cbn. apply Z.leb_le. lia. }
    rewrite Hle. unfold Qfloor. cbn. now rewrite Z.mul_1_r. }
  rewrite Ht. rewrite <- (Qred_inject_Z (n mod Z.pos p)). apply Qred_complete.
  unfold Qeq, Qminus, Qplus, Qopp, inject_Z. cbn [Qnum Qden].
  rewrite (Z.mod_eq n (Z.pos p)) by lia. lia.
Qed.

(** ** Printing an integer that a number holds exactly *)

Lemma round_big (v : Z) :
  2 ^ 53 <= v ->
  match JS.round_binary64 v 1 with
  | Some r => exists v', r = inject_Z v' /\ 2 ^ 53 <= v'
  | None => True
  end.
Proof.
  intros Hv. unfold JS.round_binary64.
  assert (Hpos : 0 < v) by (assert (0 < 2 ^ 53) by reflexivity; lia).
  rewrite floor_log2_Q_int by exact Hpos.
  assert (Hk : 53 <= Z.log2 v).
  { change 53 with (Z.log2 (2 ^ 53)). now apply Z.log2_le_mono. }
  pose proof (Z.log2_spec v Hpos) as [Hlo _].
  set (k := Z.log2 v) in *. clearbody k.
  replace (Z.max (k - 52) (-1074)) with (k - 52) by lia.
  destruct (Z.leb_spec 0 (k - 52)) as [_|H]; [|lia].
  rewrite Z.mul_1_l.
  set (D := 2 ^ (k - 52)).
  assert (HD : 2 <= D).
  { change 2 with (2 ^ 1). unfold D. apply Z.pow_le_mono_r; lia. }
  destruct (Z.leb_spec (2 ^ 1024) (JS.round_half_even v D * D)); [exact I|].
  eexists. split; [reflexivity|].
  assert (Hq : 2 ^ 52 <= v / D).
  { apply Z.div_le_lower_bound; [lia|].
    replace (D * 2 ^ 52) with (2 ^ k); [exact Hlo|].
    unfold D. rewrite <- Z.pow_add_r by lia. f_equal. lia. }
  assert (Hm : v / D <= JS.round_half_even v D)
    by (destruct (round_half_even_cases v D) as [->|[-> _]]; lia).
  assert (2 ^ 52 * 2 <= JS.round_half_even v D * D).
  { apply Z.mul_le_mono_nonneg; lia. }
  change (2 ^ 53) with (2 ^ 52 * 2). lia.
Qed.

Lemma readsBack_exact (v x : Z) :
  0 <= v -> 0 < x < 2 ^ 53 -> readsBack v x = true -> v = x.
Proof.
  intros Hv Hx. unfold readsBack.
  destruct (Z.lt_ge_cases v (2 ^ 53)) as [Hs|Hb].
  - rewrite of_Q_int by lia. unfold JS.seq, JS.of_Z, Qeq_bool, inject_Z. cbn.
    intros H. apply Z.eqb_eq in H. lia.
  - pose proof (round_big v Hb) as Hr. unfold JS.of_Q.
    assert (H53 : 0 < 2 ^ 53) by reflexivity.
    destruct v as [|p|p]; cbn [inject_Z Qnum Qden]; [lia| |lia].
    destruct (JS.round_binary64 (Z.pos p) 1) as [r|]; [|discriminate].
    destruct Hr as (v' & -> & Hv').
    unfold JS.seq, JS.of_Z, Qeq_bool, inject_Z. cbn.
    intros H. apply Z.eqb_eq in H. lia.
Qed.

Lemma shortest_exact (x n : Z) (fuel : nat) (k : Z) :
  0 < x < 2 ^ 53 -> shortest x n fuel k = x.
Proof.
  intros Hx. revert k. induction fuel as [|fuel IH]; intros k; [reflexivity|].
  cbn [shortest]. destruct (Z.ltb_spec n k) as [_|Hnk]; [reflexivity|].
  set (p := 10 ^ (n - k)).
  assert (Hp : 0 < p) by (apply Z.pow_pos_nonneg; lia).
  assert (Hlo : 0 <= x / p * p).
  { apply Z.mul_nonneg_nonneg; [apply Z.div_pos|]; lia. }
  destruct (readsBack (x / p * p) x) eqn:E1, (readsBack (x / p * p + p) x) eqn:E2.
  - apply readsBack_exact in E1; [|lia|lia]. apply readsBack_exact in E2; [|lia|lia].
    lia.
  - apply readsBack_exact in E1; lia.
  - apply readsBack_exact in E2; lia.
  - apply IH.
Qed.

Lemma text_int (z : Z) : 0 <= z < 2 ^ 53 -> text (FInt z) = decimal z.
Proof.
  intros Hz. destruct z as [|p|p]; [reflexivity| |lia].
  cbn [text]. unfold positiveText. rewrite shortest_exact by lia.
  destruct (Z.ltb_spec (Z.pos p) (10 ^ 21)) as [_|H]; [reflexivity|].
  exfalso. assert (2 ^ 53 < 10 ^ 21) by reflexivity. lia.
Qed.


End UptimeFacts.

(** The text printed for some values the route can receive, fractional,
    negative and out of range ones included. *)
Example formatUptime_examples :
  map (fun lastvalue => Uptime.formatUptime (JS.parseFloat lastvalue))
    ["59"; "3600"; "86399"; "90061"; "123456.789"; "-1"; "Infinity"; "8.64e25"]
  = ["0m"; "1h 0m"; "23h 59m"; "1d 1h"; "1d 10h"; "-1m"; "Infinityd NaNh";
     "1e+21d 21h"].
Proof. vm_compute. reflexivity. Qed.

(** X12: for a whole number of seconds from 0 to below 2^53,
    [formatUptime] prints the exact whole days, hours and minutes (the
    floating-point divisions lose nothing): days and hours when at least
    a day has passed, else hours and minutes when at least an hour has
    passed, else minutes alone; the hours printed are below 24 and the
    minutes below 60. *)
Theorem formatUptime_whole_seconds :
  forall seconds : Z,
    0 <= seconds < 2 ^ 53 ->
    let days := seconds / 86400 in
    let hours := seconds mod 86400 / 3600 in
    let minutes := seconds mod 3600 / 60 in
    Uptime.formatUptime (JS.of_Z seconds)
    = (if 0 <? days
       then Uptime.decimal days +:+ "d " +:+ Uptime.decimal hours +:+ "h"
       else if 0 <? hours
       then Uptime.decimal hours +:+ "h " +:+ Uptime.decimal minutes +:+ "m"
       else Uptime.decimal minutes +:+ "m")
    /\ 0 <= hours < 24 /\ 0 <= minutes < 60.
Proof.
  intros s Hs days hours minutes.
  assert (H53 : 2 ^ 53 = 9007199254740992) by reflexivity.
  pose proof (Z.mod_pos_bound s 86400 ltac:(lia)) as Hh.
  pose proof (Z.mod_pos_bound s 3600 ltac:(lia)) as Hm.
  assert (Hhours : 0 <= hours < 24).
  { unfold hours. split; [apply Z.div_pos; lia|].
    apply Z.div_lt_upper_bound; lia. }
  assert (Hminutes : 0 <= minutes < 60).
  { unfold minutes. split; [apply Z.div_pos; lia|].
    apply Z.div_lt_upper_bound; lia. }
  assert (Hdays : 0 <= days < 2 ^ 53).
  { unfold days. split; [apply Z.div_pos; lia|].
    apply Z.div_lt_upper_bound; lia. }
  split; [|split; assumption].
  unfold Uptime.formatUptime.
  rewrite !remBy_int by lia.
  rewrite !floor_divBy by lia.
  fold days hours minutes. cbn [Uptime.isPositive].
  rewrite !text_int by lia. reflexivity.
Qed.

(** One day, one hour, one minute and one second. *)
Lemma formatUptime_whole_seconds_witness :
  Uptime.formatUptime (JS.of_Z 90061) = "1d 1h" /\ 0 <= 1 < 24 /\ 0 <= 1 < 60.
Proof.
  exact (formatUptime_whole_seconds 90061 ltac:(split; [lia | reflexivity])).
Defined.


(* ===================================================================== *)
(** * The monitoring page *)
(* ===================================================================== *)

Lemma existsb_streq (l : list string) (x : string) :
  existsb (fun id => JS.streq id x) l = true <-> In x l.
Proof.
  rewrite existsb_exists. split.
  - intros (y & Hin & E). apply String.eqb_eq in E. now subst.
  - intros Hin. exists x. split; [exact Hin | apply String.eqb_refl].
Qed.

(** X14: toggling a host on the page flips the membership of that host
    in the selection and of no other; a selection without repetitions
    stays without repetitions; toggling twice a host that was not
    selected restores the selection, and toggling twice a host that was
    selected moves it to the end. *)
Theorem toggle_flips_one_membership :
  forall (prev : list string) (hostId : string),
    (In hostId (Page.toggleHostSelection prev hostId) <-> ~ In hostId prev)
    /\ (forall other, other <> hostId ->
          (In other (Page.toggleHostSelection prev hostId) <-> In other prev))
    /\ (List.NoDup prev -> List.NoDup (Page.toggleHostSelection prev hostId))
    /\ (~ In hostId prev ->
        Page.toggleHostSelection (Page.toggleHostSelection prev hostId) hostId = prev)
    /\ (In hostId prev ->
        Page.toggleHostSelection (Page.toggleHostSelection prev hostId) hostId
        = List.filter (fun id => negb (JS.streq id hostId)) prev ++ [hostId]).
Proof.
  intros prev hostId.
  destruct (existsb (fun id => JS.streq id hostId) prev) eqn:E.
  - assert (Ht : Page.toggleHostSelection prev hostId
                 = List.filter (fun id => negb (JS.streq id hostId)) prev)
      by (unfold Page.toggleHostSelection; now rewrite E).
    rewrite Ht. apply existsb_streq in E.
    assert (Hnot : ~ In hostId (List.filter (fun id => negb (JS.streq id hostId)) prev)).
    { rewrite List.filter_In. intros [_ H]. unfold JS.streq in H.
      now rewrite String.eqb_refl in H. }
    split; [split; [intros H; contradiction | intros H; contradiction]|].
    split.
    { intros other Hne. rewrite List.filter_In. split; [now intros [? _]|].
      intros H. split; [exact H|]. unfold JS.streq.
      apply negb_true_iff, String.eqb_neq. exact Hne. }
    split; [intros Hnd; now apply List.NoDup_filter|].
    split; [intros H; contradiction|].
    intros _. unfold Page.toggleHostSelection.
    match goal with
    | |- context [existsb ?f ?l] => destruct (existsb f l) eqn:E2
    end; [|reflexivity].
    apply existsb_streq in E2. contradiction.
  - assert (Ht : Page.toggleHostSelection prev hostId = prev ++ [hostId])
      by (unfold Page.toggleHostSelection; now rewrite E).
    rewrite Ht.
    assert (Hnot : ~ In hostId prev).
    { intros H. apply existsb_streq in H. congruence. }
    split; [split; [intros _; exact Hnot | intros _; apply in_or_app; right; now left]|].
    split.
    { intros other Hne. rewrite in_app_iff. split; [|now left].
      intros [H|[H|[]]]; [exact H | congruence]. }
    split.
    { intros Hnd. apply List.NoDup_app; [exact Hnd | |].
      - constructor; [intros [] | constructor].
      - intros x Hx [<-|[]]. contradiction. }
    split; [|intros H; contradiction].
    intros _. unfold Page.toggleHostSelection.
    assert (E2 : existsb (fun id => JS.streq id hostId) (prev ++ [hostId]) = true).
    { apply existsb_streq, in_or_app. right. now left. }
    rewrite E2, List.filter_app. cbn. unfold JS.streq at 2. rewrite String.eqb_refl. cbn.
    rewrite app_nil_r.
    clear E E2 Ht. induction prev as [|x prev IH]; [reflexivity|].
    cbn [List.filter]. unfold JS.streq at 1.
    destruct (String.eqb_spec x hostId) as [->|Hne].
    + exfalso. apply Hnot. now left.
    + cbn [negb]. f_equal. apply IH. intros H. apply Hnot. now right.
Qed.

(** X15: the page shows every host of the hosts route's reply as
    "available" or "unavailable", never anything else; a host the server
    judged "available" is shown "available" unless its direct probe got
    no answer; and a host the server judged "unavailable" is shown
    "available" only on the strength of a positive probe or item. *)
Theorem page_shows_available_when_server_does :
  forall (w : HostsRoute.World) (settings : Rpc.ZabbixSettings) (host : Host)
         (tr tr' : list event) (e : HostsRoute.Enriched),
    HostsRoute.enrichHost w settings host tr = (Ok e, tr') ->
    (Page.actualStatus e = "available" \/ Page.actualStatus e = "unavailable")
    /\ (HostsRoute.availabilityStatus e = "available" ->
        HostsRoute.directPingStatus e <> "no response" ->
        Page.actualStatus e = "available")
    /\ (Page.actualStatus e = "available" ->
        HostsRoute.availabilityStatus e = "unavailable" ->
        HostsRoute.directPingStatus e = "responding"
        \/ HostsRoute.e_icmpStatus e = "responding"
        \/ HostsRoute.e_agentStatus e = "available").
Proof.
  intros w settings host tr tr' e He.
  destruct (enrichHost_entry w settings host tr tr' e He) as [_ Hs].
  destruct e as [h av i a d]. cbn [HostsRoute.availabilityStatus
    HostsRoute.directPingStatus HostsRoute.e_icmpStatus HostsRoute.e_agentStatus] in *.
  unfold Page.actualStatus. cbn [HostsRoute.availabilityStatus
    HostsRoute.directPingStatus HostsRoute.e_icmpStatus HostsRoute.e_agentStatus].
  destruct (HostsRoute.scanInterfaces (interfaces host)) as [ha hu]. cbn [fst snd] in Hs.
  split; [|split].
  - repeat match goal with |- context [if ?c then _ else _] => destruct c end; auto.
  - intros Hav Hd. rewrite Hav in Hs. symmetry in Hs.
    apply statusOfScore_available in Hs. revert Hs.
    unfold HostsRoute.availabilityScore, JS.streq.
    destruct (String.eqb_spec d "responding"); [reflexivity|].
    destruct (String.eqb_spec d "no response"); [contradiction|].
    destruct (String.eqb_spec i "responding"); [reflexivity|].
    destruct (String.eqb_spec a "available"); [reflexivity|]. cbn [orb].
    destruct (String.eqb_spec i "no response");
      destruct (String.eqb_spec a "unavailable"); cbn [orb];
      destruct ha, hu; try lia.
    all: destruct (String.eqb_spec av "available"); [reflexivity | congruence].
  - intros Hp Hav. rewrite Hav in Hp. clear Hs. unfold JS.streq in Hp.
    destruct (String.eqb_spec d "responding"); [now left|].
    destruct (String.eqb_spec d "no response"); [discriminate Hp|].
    destruct (String.eqb_spec i "responding"); [right; now left|].
    destruct (String.eqb_spec a "available"); [right; now right|].
    cbn [orb] in Hp.
    destruct (String.eqb i "no response" || String.eqb a "unavailable");
      [discriminate Hp|].
    cbn in Hp. discriminate Hp.
Qed.

(** The hosts route on [host2], shown "available". *)
Lemma page_shows_available_when_server_does_witness :
  let e := {| HostsRoute.e_host := Sample.host2;
              HostsRoute.availabilityStatus := "available";
              HostsRoute.e_icmpStatus := "responding";
              HostsRoute.e_agentStatus := "not configured";
              HostsRoute.directPingStatus := "responding" |} in
  (Page.actualStatus e = "available" \/ Page.actualStatus e = "unavailable")
  /\ (HostsRoute.availabilityStatus e = "available" ->
      HostsRoute.directPingStatus e <> "no response" ->
      Page.actualStatus e = "available")
  /\ (Page.actualStatus e = "available" ->
      HostsRoute.availabilityStatus e = "unavailable" ->
      HostsRoute.directPingStatus e = "responding"
      \/ HostsRoute.e_icmpStatus e = "responding"
      \/ HostsRoute.e_agentStatus e = "available").
Proof.
  intros e.
  assert (Hrun : HostsRoute.enrichHost
                   (Sample.hostsWorld Sample.pingAnswers [Sample.host2] [Sample.staleItem])
                   Sample.settings Sample.host2 []
                 = (Ok e, [EvExec "ping -c 1 -W 1 10.0.0.6";
                           EvFetch (Rpc.requestOf Sample.settings "item.get"
                                      (ItemGetByHost "10085" false))]))
    by (vm_compute; reflexivity).
  exact (page_shows_available_when_server_does _ _ _ _ _ _ Hrun).
Defined.
